(** * A shallow embedding of the LinkedIn post scraper

    Source: [linkedin_scraper.py], class [LinkedInScraper]: the count and
    date normalizers, the classifier, the field extractor, the per-page
    pipeline, the orchestrator and the dataset writer.

    Conventions of the model.
    - Text is a [string] of 7-bit ASCII characters. The character classes
      of Python ([str.lower], [str.strip], [\d], [\s], [\w]) and of
      JavaScript ([trim], [toLowerCase]) are given on that range, and a
      character above 127 belongs to no class.
    - A Python [int] is a [Z]. A Python or JavaScript double is the
      rational it denotes, obtained by rounding to the nearest binary64,
      ties to even; it can also be infinity or a NaN. Only doubles that are
      not negative arise.
    - A [datetime] is a number of microseconds since 0001-01-01 00:00:00,
      within the range of the Python type; [strptime] and [strftime] are
      those of the C locale.
    - The rendered page is a tree of nodes that lookups and scripts read. A
      Selenium handle onto it is live or stale; reading through a stale
      handle raises. Clicks and scrolling do not change what is read.
    - An exception is an explicit [Raise] in a small error monad, and a
      [try ... except] is [try_except] or a match on the result.
    - What the browser, the clock and the files answer is an argument of
      the functions: [Page], [Web], [Files]. Reading and writing a CSV
      file do not raise. What [pd.read_csv] gives for a file is part of
      [Files]; it is not taken to be what was written there, since the
      reading turns some texts into missing values and into numbers.
      What is written is the list of the calls of [to_csv]. *)

From Stdlib Require Import Bool Arith ZArith QArith Lia List Ascii String.
From Stdlib Require Import DecimalString DecimalNat.
Import ListNotations.

Local Open Scope string_scope.
Local Open Scope Z_scope.

(* ================================================================== *)
(** * Characters and strings *)

Module Str.

Definition code (c : ascii) : nat := nat_of_ascii c.

Definition between (lo hi : nat) (c : ascii) : bool :=
  (Nat.leb lo (code c) && Nat.leb (code c) hi)%bool.

(** [0-9] *)
Definition is_digit (c : ascii) : bool := between 48 57 c.

Definition is_upper (c : ascii) : bool := between 65 90 c.
Definition is_lower (c : ascii) : bool := between 97 122 c.
Definition is_alpha (c : ascii) : bool := (is_upper c || is_lower c)%bool.

(** Python [\w] on ASCII text: letters, digits and the underscore. *)
Definition is_word (c : ascii) : bool :=
  (is_alpha c || is_digit c || Ascii.eqb c "_")%bool.

(** Python [str.isspace] and [\s]: tab, LF, VT, FF, CR, the four
    separators 0x1c-0x1f and the space. *)
Definition py_isspace (c : ascii) : bool :=
  (between 9 13 c || between 28 31 c || Nat.eqb (code c) 32)%bool.

(** JavaScript white space and line terminators, on ASCII. *)
Definition js_isspace (c : ascii) : bool :=
  (between 9 13 c || Nat.eqb (code c) 32)%bool.

Definition lower_char (c : ascii) : ascii :=
  if is_upper c then ascii_of_nat (code c + 32) else c.

Definition upper_char (c : ascii) : ascii :=
  if is_lower c then ascii_of_nat (code c - 32) else c.

Fixpoint map (f : ascii -> ascii) (s : string) : string :=
  match s with
  | EmptyString => EmptyString
  | String c s' => String (f c) (map f s')
  end.

(** [s.lower()] *)
Definition lower (s : string) : string := map lower_char s.

Fixpoint filter (p : ascii -> bool) (s : string) : string :=
  match s with
  | EmptyString => EmptyString
  | String c s' => if p c then String c (filter p s') else filter p s'
  end.

Fixpoint forallb (p : ascii -> bool) (s : string) : bool :=
  match s with
  | EmptyString => true
  | String c s' => (p c && forallb p s')%bool
  end.

Fixpoint rev_onto (s acc : string) : string :=
  match s with
  | EmptyString => acc
  | String c s' => rev_onto s' (String c acc)
  end.

Definition rev (s : string) : string := rev_onto s EmptyString.

Fixpoint lstrip (sp : ascii -> bool) (s : string) : string :=
  match s with
  | EmptyString => EmptyString
  | String c s' => if sp c then lstrip sp s' else s
  end.

Definition strip_with (sp : ascii -> bool) (s : string) : string :=
  rev (lstrip sp (rev (lstrip sp s))).

(** [s.strip()] *)
Definition strip (s : string) : string := strip_with py_isspace s.

(** JavaScript [s.trim()] *)
Definition trim (s : string) : string := strip_with js_isspace s.

(** [not s] on a string *)
Definition is_empty (s : string) : bool :=
  match s with EmptyString => true | _ => false end.

(** [s.startswith(p)] *)
Fixpoint startswith (p s : string) : bool :=
  match p with
  | EmptyString => true
  | String a p' =>
      match s with
      | EmptyString => false
      | String b s' => (Ascii.eqb a b && startswith p' s')%bool
      end
  end.

(** [p in s] *)
Fixpoint contains (p s : string) : bool :=
  (startswith p s
   || match s with
      | EmptyString => false
      | String _ s' => contains p s'
      end)%bool.

(** [s.endswith(p)] *)
Definition endswith (p s : string) : bool := startswith (rev p) (rev s).

(** [s[:n]] *)
Fixpoint take (n : nat) (s : string) : string :=
  match n, s with
  | S n', String c s' => String c (take n' s')
  | _, _ => EmptyString
  end.

(** [s[n:]] *)
Fixpoint drop (n : nat) (s : string) : string :=
  match n, s with
  | S n', String _ s' => drop n' s'
  | _, _ => s
  end.

(** The longest prefix of [s] in the class [p], and what follows it. *)
Fixpoint span (p : ascii -> bool) (s : string) : string * string :=
  match s with
  | String c s' =>
      if p c then let (a, b) := span p s' in (String c a, b)
      else (EmptyString, s)
  | EmptyString => (EmptyString, EmptyString)
  end.

(** The part of [s] that was read when [rest] is what remains of it. *)
Definition consumed (s rest : string) : string :=
  take (String.length s - String.length rest) s.

(** [s.replace(c, r)] for a one-character [c] *)
Fixpoint replace_char (c : ascii) (r : string) (s : string) : string :=
  match s with
  | EmptyString => EmptyString
  | String a s' =>
      if Ascii.eqb a c then r ++ replace_char c r s'
      else String a (replace_char c r s')
  end.

(** [s.split(sep)[0]] for a non-empty [sep]: the text before the first
    occurrence of [sep], or all of [s]. *)
Fixpoint before (sep s : string) : string :=
  match s with
  | EmptyString => EmptyString
  | String c s' => if startswith sep s then EmptyString else String c (before sep s')
  end.

(** [s.split(sep)[1]] where it exists: the text after the first occurrence
    of [sep], up to the next one. *)
Fixpoint after_first (sep s : string) : option string :=
  match s with
  | EmptyString => None
  | String _ s' =>
      if startswith sep s then Some (before sep (drop (String.length sep) s))
      else after_first sep s'
  end.

(** [s.title()] on ASCII text: a letter is upper-cased after a character
    that is not a letter, lower-cased after a letter. *)
Fixpoint title_from (prev_cased : bool) (s : string) : string :=
  match s with
  | EmptyString => EmptyString
  | String c s' =>
      String (if is_alpha c then (if prev_cased then lower_char c else upper_char c) else c)
             (title_from (is_alpha c) s')
  end.

Definition title (s : string) : string := title_from false s.

(** [s.isdigit()] *)
Definition isdigit (s : string) : bool :=
  (negb (is_empty s) && forallb is_digit s)%bool.

(** [sep.join(l)] *)
Fixpoint join (sep : string) (l : list string) : string :=
  match l with
  | [] => EmptyString
  | [x] => x
  | x :: rest => x ++ sep ++ join sep rest
  end.

Definition digit_value (c : ascii) : Z := Z.of_nat (code c - 48).

(** [int(s)] for a string of decimal digits, most significant first. *)
Fixpoint int_of_digits_from (acc : Z) (s : string) : Z :=
  match s with
  | EmptyString => acc
  | String c s' => int_of_digits_from (10 * acc + digit_value c) s'
  end.

Definition int_of_digits (s : string) : Z := int_of_digits_from 0 s.

(** [str(n)] for a natural number. *)
Definition str_of_nat (n : nat) : string :=
  NilEmpty.string_of_uint (Nat.to_uint n).

(** Two-digit and four-digit zero-padded decimal, as [%H] and [%Y]. *)
Definition pad2 (n : nat) : string :=
  if Nat.ltb n 10 then "0" ++ str_of_nat n else str_of_nat n.

Definition pad4 (n : nat) : string :=
  if Nat.ltb n 10 then "000" ++ str_of_nat n
  else if Nat.ltb n 100 then "00" ++ str_of_nat n
  else if Nat.ltb n 1000 then "0" ++ str_of_nat n
  else str_of_nat n.

End Str.

(* ================================================================== *)
(** * Backtracking regular expressions

    The fragment of Python's [re] and of JavaScript's [RegExp] that the
    scraper's patterns use: ordered alternation, greedy repetition of a
    character class, greedy option, numbered groups. Matching is by
    backtracking, so the first alternative that lets the rest of the
    pattern succeed wins, as in both engines. *)

Module Regex.

Inductive regex : Type :=
| Eps
| Chr (p : ascii -> bool)
| Cat (r1 r2 : regex)
| Alt (r1 r2 : regex)
| Opt (r : regex)
| Star (p : ascii -> bool)
| Grp (n : nat) (r : regex).

Definition captures : Type := list (nat * string).

Fixpoint group (n : nat) (caps : captures) : option string :=
  match caps with
  | [] => None
  | (m, s) :: rest => if Nat.eqb m n then Some s else group n rest
  end.

Definition is_char (c : ascii) : ascii -> bool := Ascii.eqb c.

(** A literal word. *)
Fixpoint Lit (s : string) : regex :=
  match s with
  | EmptyString => Eps
  | String c s' => Cat (Chr (is_char c)) (Lit s')
  end.

(** [p+] *)
Definition Plus (p : ascii -> bool) : regex := Cat (Chr p) (Star p).

(** [r1|r2|...] *)
Fixpoint Alts (rs : list regex) : regex :=
  match rs with
  | [] => Chr (fun _ => false)
  | [r] => r
  | r :: rest => Alt r (Alts rest)
  end.

Section Matching.
Context {R : Type}.

(** Greedy [p*]: read as many characters as possible, give back one at
    a time while the continuation fails. *)
Fixpoint star_match (p : ascii -> bool) (s : string)
         (k : string -> option R) : option R :=
  match s with
  | String c s' =>
      if p c then
        match star_match p s' k with
        | Some x => Some x
        | None => k s
        end
      else k s
  | EmptyString => k s
  end.

Fixpoint rmatch (r : regex) (s : string) (caps : captures)
         (k : string -> captures -> option R) : option R :=
  match r with
  | Eps => k s caps
  | Chr p =>
      match s with
      | String c s' => if p c then k s' caps else None
      | EmptyString => None
      end
  | Cat r1 r2 => rmatch r1 s caps (fun s' caps' => rmatch r2 s' caps' k)
  | Alt r1 r2 =>
      match rmatch r1 s caps k with
      | Some x => Some x
      | None => rmatch r2 s caps k
      end
  | Opt r1 =>
      match rmatch r1 s caps k with
      | Some x => Some x
      | None => k s caps
      end
  | Star p => star_match p s (fun s' => k s' caps)
  | Grp n r1 =>
      rmatch r1 s caps (fun s' caps' => k s' ((n, Str.consumed s s') :: caps'))
  end.
End Matching.

(** A match object: [group(0)], the numbered groups and the unread rest. *)
Record match_obj : Type := MatchObj {
  whole : string;
  groups : captures;
  rest : string
}.

(** [re.match]: the pattern matched at the start of [s]. *)
Definition match_here (r : regex) (s : string) : option match_obj :=
  rmatch r s [] (fun s' caps => Some (MatchObj (Str.consumed s s') caps s')).

(** [re.search] and JavaScript's non-global [String.match]: the leftmost
    position at which the pattern matches. *)
Fixpoint search (r : regex) (s : string) : option match_obj :=
  match match_here r s with
  | Some m => Some m
  | None =>
      match s with
      | String _ s' => search r s'
      | EmptyString => None
      end
  end.

(** Scan for successive non-overlapping matches, left to right. [skip]
    counts the characters of the current match still to be passed over.
    The scraper's patterns never match the empty string. *)
Fixpoint findall_from (r : regex) (skip : nat) (s : string) : list string :=
  match s with
  | EmptyString => []
  | String _ s' =>
      match skip with
      | S k => findall_from r k s'
      | O =>
          match match_here r s with
          | Some m =>
              whole m :: findall_from r (String.length (whole m) - 1) s'
          | None => findall_from r 0 s'
          end
      end
  end.

(** [re.findall(r, s)] for a pattern without groups. *)
Definition findall (r : regex) (s : string) : list string := findall_from r 0 s.

(** [re.sub(r, repl, s)] for a constant replacement. *)
Fixpoint sub_from (r : regex) (repl : string) (skip : nat) (s : string) : string :=
  match s with
  | EmptyString => EmptyString
  | String c s' =>
      match skip with
      | S k => sub_from r repl k s'
      | O =>
          match match_here r s with
          | Some m => repl ++ sub_from r repl (String.length (whole m) - 1) s'
          | None => String c (sub_from r repl 0 s')
          end
      end
  end.

Definition sub (r : regex) (repl : string) (s : string) : string :=
  sub_from r repl 0 s.

End Regex.

(* ================================================================== *)
(** * Exceptions *)

Inductive exn : Type :=
| ValueError
| OverflowError
| WebDriverException.

Inductive result (A : Type) : Type :=
| Ok (a : A)
| Raise (e : exn).

Arguments Ok {A} a.
Arguments Raise {A} e.

Definition bind {A B : Type} (c : result A) (f : A -> result B) : result B :=
  match c with
  | Ok a => f a
  | Raise e => Raise e
  end.

Notation "x <- c ;; k" := (bind c (fun x => k))
  (at level 61, c at next level, right associativity).

(** [try: c  except Exception: return h] *)
Definition try_except {A : Type} (c : result A) (h : A) : A :=
  match c with
  | Ok a => a
  | Raise _ => h
  end.

(* ================================================================== *)
(** * Doubles and Python numbers

    Only non-negative doubles arise: every number is read from a run of
    digits. A finite double is kept as the rational it denotes, in lowest
    terms. *)

Module Float64.

Inductive float : Type :=
| Finite (q : Q)
| Infinity
| NaN.

(** The integer nearest to [n/d], ties to even ([0 <= n], [0 < d]). *)
Definition round_half_even (n d : Z) : Z :=
  let q := n / d in
  let r := n mod d in
  if 2 * r <? d then q
  else if d <? 2 * r then q + 1
  else if Z.even q then q else q + 1.

(** [floor (log2 (n/d))] for [0 < n], [0 < d]. *)
Definition floor_log2_ratio (n d : Z) : Z :=
  let k := Z.log2 n - Z.log2 d in
  if n * 2 ^ Z.max 0 (- k) <? d * 2 ^ Z.max 0 k then k - 1 else k.

(** The binary64 value nearest to [n/d] ([0 <= n], [0 < d]): 53
    significant bits, least exponent -1074, overflow to infinity. *)
Definition of_ratio (n d : Z) : float :=
  if n =? 0 then Finite 0
  else
    let e := Z.max (floor_log2_ratio n d - 52) (- 1074) in
    let m := round_half_even (n * 2 ^ Z.max 0 (- e)) (d * 2 ^ Z.max 0 e) in
    if 0 <=? e then
      if 2 ^ 1024 <=? m * 2 ^ e then Infinity
      else Finite (inject_Z (m * 2 ^ e))
    else Finite (Qred (Qmake m (Z.to_pos (2 ^ (- e))))).

Definition of_Z (z : Z) : float := of_ratio z 1.

Definition mul (x y : float) : float :=
  match x, y with
  | Finite a, Finite b =>
      of_ratio (Qnum a * Qnum b) (Zpos (Qden a) * Zpos (Qden b))
  | NaN, _ | _, NaN => NaN
  | _, _ => Infinity
  end.

Definition add (x y : float) : float :=
  match x, y with
  | Finite a, Finite b =>
      of_ratio (Qnum a * Zpos (Qden b) + Qnum b * Zpos (Qden a))
               (Zpos (Qden a) * Zpos (Qden b))
  | NaN, _ | _, NaN => NaN
  | _, _ => Infinity
  end.

(** [int(x)]: truncation; [OverflowError] on infinity, [ValueError] on
    a NaN. *)
Definition to_int (x : float) : result Z :=
  match x with
  | Finite q => Ok (Qnum q / Zpos (Qden q))
  | Infinity => Raise OverflowError
  | NaN => Raise ValueError
  end.

Definition is_integral (x : float) : bool :=
  match x with
  | Finite q => Z.eqb (Qnum q mod Zpos (Qden q)) 0
  | _ => false
  end.

(** [x < y] *)
Definition ltb (x y : float) : bool :=
  match x, y with
  | Finite a, Finite b => Z.ltb (Qnum a * Zpos (Qden b)) (Qnum b * Zpos (Qden a))
  | Finite _, Infinity => true
  | _, _ => false
  end.

(** The value of the decimal literal [ip.fp]. *)
Definition of_decimal (ip fp : string) : float :=
  of_ratio (Str.int_of_digits (ip ++ fp)) (10 ^ Z.of_nat (String.length fp)).

(** Python [float(s)] on an unsigned decimal literal [digits], [digits.],
    [.digits] or [digits.digits]; [ValueError] on the empty string, on a
    lone point and on trailing text. Signs, exponents, blanks and the
    words [inf] and [nan] do not occur in what [parse_count] passes. *)
Definition float_of_string (s : string) : result float :=
  let (ip, r1) := Str.span Str.is_digit s in
  match r1 with
  | EmptyString =>
      if Str.is_empty ip then Raise ValueError else Ok (of_decimal ip EmptyString)
  | String c r2 =>
      if Ascii.eqb c "." then
        let (fp, r3) := Str.span Str.is_digit r2 in
        if (Str.is_empty r3 && negb (Str.is_empty ip && Str.is_empty fp))%bool
        then Ok (of_decimal ip fp)
        else Raise ValueError
      else Raise ValueError
  end.

(** JavaScript [parseFloat(s)]: the longest leading decimal literal. The
    strings the scripts pass hold digits, points and the letters k and m
    only. *)
Definition parseFloat (s : string) : float :=
  let (ip, r1) := Str.span Str.is_digit (Str.lstrip Str.js_isspace s) in
  match r1 with
  | String c r2 =>
      if Ascii.eqb c "." then
        let (fp, _) := Str.span Str.is_digit r2 in
        if (Str.is_empty ip && Str.is_empty fp)%bool then NaN
        else of_decimal ip fp
      else if Str.is_empty ip then NaN else of_decimal ip EmptyString
  | EmptyString =>
      if Str.is_empty ip then NaN else of_decimal ip EmptyString
  end.

(** JavaScript [parseInt(s)]: the leading run of digits. *)
Definition parseInt (s : string) : float :=
  let (ip, _) := Str.span Str.is_digit (Str.lstrip Str.js_isspace s) in
  if Str.is_empty ip then NaN else of_decimal ip EmptyString.

End Float64.

(** A Python number: an [int] or a [float]. *)
Inductive number : Type :=
| Int (z : Z)
| Float (f : Float64.float).

Module Num.

Definition to_float (x : number) : Float64.float :=
  match x with
  | Int z => Float64.of_Z z
  | Float f => f
  end.

(** [x + y] *)
Definition add (x y : number) : number :=
  match x, y with
  | Int a, Int b => Int (a + b)
  | _, _ => Float (Float64.add (to_float x) (to_float y))
  end.

(** [x == 0] *)
Definition is_zero (x : number) : bool :=
  match x with
  | Int z => Z.eqb z 0
  | Float (Float64.Finite q) => Z.eqb (Qnum q) 0
  | Float _ => false
  end.

(** [x] is an [int] object. *)
Definition is_int (x : number) : bool :=
  match x with
  | Int _ => true
  | Float _ => false
  end.

(** [0 <= x] *)
Definition nonneg (x : number) : bool :=
  match x with
  | Int z => Z.leb 0 z
  | Float (Float64.Finite q) => Z.leb 0 (Qnum q)
  | Float Float64.Infinity => true
  | Float Float64.NaN => false
  end.

(** [x < y] *)
Definition ltb (x y : number) : bool :=
  match x, y with
  | Int a, Int b => Z.ltb a b
  | _, _ => Float64.ltb (to_float x) (to_float y)
  end.

(** What Python receives for a number returned by [execute_script]: a
    whole value arrives as an [int], any other as a [float]. *)
Definition of_js (x : Float64.float) : number :=
  match x with
  | Float64.Finite q =>
      if Float64.is_integral x then Int (Qnum q / Zpos (Qden q)) else Float x
  | _ => Float x
  end.

End Num.

(* ================================================================== *)
(** * The count normalizer: [parse_count] *)

Import Regex.

(** The pattern [( \d+ ,? \d* ) | ( \d* \.? \d+ [KkMm] )]. *)
Definition count_regex : regex :=
  Alt (Grp 1 (Cat (Plus Str.is_digit)
               (Cat (Opt (Chr (is_char ","))) (Star Str.is_digit))))
      (Grp 2 (Cat (Star Str.is_digit)
               (Cat (Opt (Chr (is_char ".")))
                 (Cat (Plus Str.is_digit)
                      (Chr (fun c => Str.contains (String c "") "KkMm")))))).

Definition parse_count (text : string) : Z :=
  try_except
    (if Str.is_empty text then Ok 0
     else
       match search count_regex text with
       | None => Ok 0
       | Some number_match =>
           let count_str :=
             Str.replace_char "," "" (Str.strip (whole number_match)) in
           if Str.contains "k" (Str.lower count_str) then
             f <- Float64.float_of_string
                    (Str.replace_char "k" "" (Str.lower count_str)) ;;
             Float64.to_int (Float64.mul f (Float64.of_Z 1000))
           else if Str.contains "m" (Str.lower count_str) then
             f <- Float64.float_of_string
                    (Str.replace_char "m" "" (Str.lower count_str)) ;;
             Float64.to_int (Float64.mul f (Float64.of_Z 1000000))
           else
             Ok (try_except
                   (f <- Float64.float_of_string count_str ;; Float64.to_int f)
                   0)
       end)
    0.

(* ================================================================== *)
(** * Dates: [datetime], [timedelta], [strptime], [strftime]

    A [datetime] is the number of microseconds since 0001-01-01 00:00:00,
    the first instant Python can represent; a [timedelta] is a number of
    microseconds. *)

Module DateTime.

Definition datetime : Type := Z.
Definition timedelta : Type := Z.

Definition us_per_second : Z := 1000000.
Definition us_per_day : Z := 86400 * us_per_second.

(** [date.max.toordinal()] *)
Definition max_ordinal : Z := 3652059.

(** One past [datetime.max]. *)
Definition end_of_time : Z := max_ordinal * us_per_day.

Definition in_range (t : Z) : bool := ((0 <=? t) && (t <? end_of_time))%bool.

(** The constructor refuses more than 999999999 days either way. *)
Definition make_timedelta (us : Z) : result timedelta :=
  if ((-999999999 <=? us / us_per_day) && (us / us_per_day <=? 999999999))%bool
  then Ok us else Raise OverflowError.

Definition td_seconds (v : Z) : result timedelta := make_timedelta (v * us_per_second).
Definition td_minutes (v : Z) : result timedelta := make_timedelta (v * 60 * us_per_second).
Definition td_hours (v : Z) : result timedelta := make_timedelta (v * 3600 * us_per_second).
Definition td_days (v : Z) : result timedelta := make_timedelta (v * us_per_day).
Definition td_weeks (v : Z) : result timedelta := make_timedelta (v * 7 * us_per_day).

(** [t - d]; "date value out of range" outside year 1 to 9999. *)
Definition minus (t : datetime) (d : timedelta) : result datetime :=
  if in_range (t - d) then Ok (t - d) else Raise OverflowError.

Definition is_leap (y : Z) : bool :=
  ((y mod 4 =? 0) && (negb (y mod 100 =? 0) || (y mod 400 =? 0)))%bool.

Definition days_in_month (y m : Z) : Z :=
  if m =? 2 then (if is_leap y then 29 else 28)
  else if ((m =? 4) || (m =? 6) || (m =? 9) || (m =? 11))%bool then 30
  else 31.

(** Days of the year before the first of month [m], in a common year. *)
Definition days_before_month_common (m : Z) : Z :=
  nth (Z.to_nat m) [0; 0; 31; 59; 90; 120; 151; 181; 212; 243; 273; 304; 334] 0.

Definition days_before_month (y m : Z) : Z :=
  days_before_month_common m + (if ((2 <? m) && is_leap y)%bool then 1 else 0).

Definition days_before_year (y : Z) : Z :=
  let p := y - 1 in p * 365 + p / 4 - p / 100 + p / 400.

(** Proleptic Gregorian ordinal, 0001-01-01 being day 1. *)
Definition ymd2ord (y m d : Z) : Z :=
  days_before_year y + days_before_month y m + d.

(** [datetime(y, m, d)]; [ValueError] on a date that does not exist. *)
Definition make_date (y m d : Z) : result datetime :=
  if ((1 <=? y) && (y <=? 9999) && (1 <=? m) && (m <=? 12)
      && (1 <=? d) && (d <=? days_in_month y m))%bool
  then Ok ((ymd2ord y m d - 1) * us_per_day)
  else Raise ValueError.

Definition ord2ymd (ordinal : Z) : Z * Z * Z :=
  let n := ordinal - 1 in
  let n400 := n / 146097 in
  let n := n mod 146097 in
  let n100 := n / 36524 in
  let n := n mod 36524 in
  let n4 := n / 1461 in
  let n := n mod 1461 in
  let n1 := n / 365 in
  let n := n mod 365 in
  let year := n400 * 400 + 1 + n100 * 100 + n4 * 4 + n1 in
  if ((n1 =? 4) || (n100 =? 4))%bool then (year - 1, 12, 31)
  else
    let leapyear := ((n1 =? 3) && (negb (n4 =? 24) || (n100 =? 3)))%bool in
    let month := Z.shiftr (n + 50) 5 in
    let preceding :=
      days_before_month_common month
      + (if ((2 <? month) && leapyear)%bool then 1 else 0) in
    if n <? preceding then
      let month' := month - 1 in
      let preceding' :=
        preceding
        - (nth (Z.to_nat month') [0; 31; 28; 31; 30; 31; 30; 31; 31; 30; 31; 30; 31] 0
           + (if ((month' =? 2) && leapyear)%bool then 1 else 0)) in
      (year, month', n - preceding' + 1)
    else (year, month, n - preceding + 1).

Definition ordinal_of (t : datetime) : Z := t / us_per_day + 1.
Definition hour_of (t : datetime) : Z := (t mod us_per_day) / (3600 * us_per_second).
Definition minute_of (t : datetime) : Z := (t mod (3600 * us_per_second)) / (60 * us_per_second).
Definition second_of (t : datetime) : Z := (t mod (60 * us_per_second)) / us_per_second.

Definition weekday_names : list string :=
  ["Monday"; "Tuesday"; "Wednesday"; "Thursday"; "Friday"; "Saturday"; "Sunday"].

Definition dec2 (z : Z) : string := Str.pad2 (Z.to_nat z).

(** [t.strftime('%Y-%m-%d %H:%M:%S')], the year written on four digits. *)
Definition format_timestamp (t : datetime) : string :=
  let '(y, m, d) := ord2ymd (ordinal_of t) in
  Str.pad4 (Z.to_nat y) ++ "-" ++ dec2 m ++ "-" ++ dec2 d ++ " "
  ++ dec2 (hour_of t) ++ ":" ++ dec2 (minute_of t) ++ ":" ++ dec2 (second_of t).

(** [t.strftime('%A')] in the C locale. *)
Definition format_weekday (t : datetime) : string :=
  nth (Z.to_nat ((ordinal_of t + 6) mod 7)) weekday_names "".

(** [t.strftime('%H')] *)
Definition format_hour (t : datetime) : string := dec2 (hour_of t).

(** ** [strptime] for the two formats in use, C locale

    [_strptime] turns the format into a pattern, matches it at the start
    of the text without regard to case, and refuses text left over. *)

Definition month_abbrs : list string :=
  ["jan"; "feb"; "mar"; "apr"; "may"; "jun"; "jul"; "aug"; "sep"; "oct"; "nov"; "dec"].

Definition month_names : list string :=
  ["january"; "february"; "march"; "april"; "may"; "june"; "july"; "august";
   "september"; "october"; "november"; "december"].

(** The alternation lists the names longest first. *)
Definition month_names_by_length : list string :=
  ["september"; "february"; "november"; "december"; "january"; "october";
   "august"; "march"; "april"; "june"; "july"; "may"].

Fixpoint index_of (x : string) (l : list string) : option nat :=
  match l with
  | [] => None
  | y :: rest =>
      if String.eqb x y then Some O
      else match index_of x rest with Some i => Some (S i) | None => None end
  end.

Definition range (lo hi : nat) (c : ascii) : bool := Str.between lo hi c.

(** [%d]: the pattern [3[0-1] | [1-2]\d | 0[1-9] | [1-9] | " "[1-9]]. *)
Definition day_regex : regex :=
  Alts [ Cat (Chr (is_char "3")) (Chr (range 48 49));
         Cat (Chr (range 49 50)) (Chr Str.is_digit);
         Cat (Chr (is_char "0")) (Chr (range 49 57));
         Chr (range 49 57);
         Cat (Chr (is_char " ")) (Chr (range 49 57)) ].

(** [%Y]: four digits. *)
Definition year_regex : regex :=
  Cat (Chr Str.is_digit) (Cat (Chr Str.is_digit) (Cat (Chr Str.is_digit) (Chr Str.is_digit))).

(** ["<month> %d, %Y"]: a blank in the format stands for [\s+]. *)
Definition date_regex (months : list string) : regex :=
  Cat (Grp 1 (Alts (List.map Lit months)))
 (Cat (Plus Str.py_isspace)
 (Cat (Grp 2 day_regex)
 (Cat (Chr (is_char ","))
 (Cat (Plus Str.py_isspace)
      (Grp 3 year_regex))))).

Definition strptime_with (pattern_months months : list string) (text : string)
  : result datetime :=
  match match_here (date_regex pattern_months) (Str.lower text) with
  | None => Raise ValueError
  | Some found =>
      if negb (Str.is_empty (rest found)) then Raise ValueError
      else
        match group 1 (groups found), group 2 (groups found), group 3 (groups found) with
        | Some b, Some d, Some y =>
            match index_of b months with
            | Some i =>
                make_date (Str.int_of_digits y) (Z.of_nat (S i))
                          (Str.int_of_digits (Str.lstrip Str.py_isspace d))
            | None => Raise ValueError
            end
        | _, _, _ => Raise ValueError
        end
  end.

(** [datetime.strptime(text, "%b %d, %Y")] *)
Definition strptime_abbr (text : string) : result datetime :=
  strptime_with month_abbrs month_abbrs text.

(** [datetime.strptime(text, "%B %d, %Y")] *)
Definition strptime_full (text : string) : result datetime :=
  strptime_with month_names_by_length month_names text.

End DateTime.

(* ================================================================== *)
(** * The temporal normalizer: [parse_date] *)

Import DateTime.

(** The number that opens both patterns: [(\d+)]. *)
Definition number_regex : regex := Grp 1 (Plus Str.is_digit).

(** What follows the number in the first pattern. *)
Definition ago_tail : regex :=
  Cat (Star Str.py_isspace)
 (Cat (Grp 2 (Alts (List.map Lit ["minute"; "hour"; "day"; "week"; "month"; "year"])))
 (Cat (Opt (Chr (is_char "s")))
 (Cat (Star Str.py_isspace)
      (Lit "ago")))).

(** The pattern [(\d+) \s* (minute|hour|day|week|month|year) s? \s* ago]. *)
Definition ago_regex : regex := Cat number_regex ago_tail.

(** What follows the number in the second pattern. *)
Definition short_tail : regex :=
  Cat (Star Str.py_isspace)
      (Grp 2 (Alts (List.map Lit ["s"; "m"; "h"; "d"; "w"; "mo"; "yr"]))).

(** The pattern [(\d+) \s* (s|m|h|d|w|mo|yr)]. *)
Definition short_regex : regex := Cat number_regex short_tail.

(** The [if unit == ... elif ...] chain after the first pattern; [None]
    when no branch is taken. *)
Definition ago_delta (unit : string) (value : Z) : option (result timedelta) :=
  if String.eqb unit "minute" then Some (td_minutes value)
  else if String.eqb unit "hour" then Some (td_hours value)
  else if String.eqb unit "day" then Some (td_days value)
  else if String.eqb unit "week" then Some (td_weeks value)
  else if String.eqb unit "month" then Some (td_days (value * 30))
  else if String.eqb unit "year" then Some (td_days (value * 365))
  else None.

(** The chain after the second pattern. *)
Definition short_delta (unit : string) (value : Z) : option (result timedelta) :=
  if String.eqb unit "s" then Some (td_seconds value)
  else if String.eqb unit "m" then Some (td_minutes value)
  else if String.eqb unit "h" then Some (td_hours value)
  else if String.eqb unit "d" then Some (td_days value)
  else if String.eqb unit "w" then Some (td_weeks value)
  else if String.eqb unit "mo" then Some (td_days (value * 30))
  else if String.eqb unit "yr" then Some (td_days (value * 365))
  else None.

(** The value and the unit of a match, run through a chain. *)
Definition delta_of (chain : string -> Z -> option (result timedelta))
           (m : option match_obj) : option (result timedelta) :=
  match m with
  | None => None
  | Some found =>
      match group 1 (groups found), group 2 (groups found) with
      | Some value, Some unit => chain unit (Str.int_of_digits value)
      | _, _ => None
      end
  end.

(** The two [strptime] attempts, each under its own [try ... except: pass]. *)
Definition parse_absolute (date_text : string) : option datetime :=
  match strptime_abbr date_text with
  | Ok t => Some t
  | Raise _ =>
      match strptime_full date_text with
      | Ok t => Some t
      | Raise _ => None
      end
  end.

(** [parse_date(date_text)], [now] being what [datetime.now()] returns. *)
Definition parse_date (now : datetime) (date_text : string) : option datetime :=
  try_except
    (if (Str.is_empty date_text || String.eqb date_text "Unknown date")%bool
     then Ok None
     else if (Str.contains "just now" (Str.lower date_text)
              || String.eqb (Str.lower date_text) "now")%bool
     then Ok (Some now)
     else
       match delta_of ago_delta (search ago_regex (Str.lower date_text)) with
       | Some delta => d <- delta ;; t <- minus now d ;; Ok (Some t)
       | None =>
           match delta_of short_delta (search short_regex (Str.lower date_text)) with
           | Some delta => d <- delta ;; t <- minus now d ;; Ok (Some t)
           | None => Ok (parse_absolute date_text)
           end
       end)
    None.

(* ================================================================== *)
(** * The rendered page

    A [Node] is what a lookup or a script reads off one element of the
    rendered page. A [WebElement] is a Selenium handle: reading through a
    live handle succeeds, reading through a stale one raises. Clicking and
    scrolling leave the nodes as they are. *)

#[warning="-register-all"]
Inductive Node : Type := mkNode {
  text : string;                  (* [element.text], the rendered text *)
  textContent : string;           (* [el.textContent] as scripts see it *)
  has_box : bool;                 (* [offsetWidth > 0 && offsetHeight > 0] *)
  query : string -> list Node     (* matches of a CSS selector below the element *)
}.

Inductive WebElement : Type :=
| Live (n : Node)
| Stale.

(** [element.text] *)
Definition element_text (e : WebElement) : result string :=
  match e with
  | Live n => Ok (text n)
  | Stale => Raise WebDriverException
  end.

(** [element.find_elements(By.CSS_SELECTOR, sel)] *)
Definition element_find (e : WebElement) (sel : string) : result (list WebElement) :=
  match e with
  | Live n => Ok (List.map Live (query n sel))
  | Stale => Raise WebDriverException
  end.

(** [driver.execute_script(script, element)] for a script that reads. *)
Definition execute_script {A : Type} (script : Node -> A) (e : WebElement) : result A :=
  match e with
  | Live n => Ok (script n)
  | Stale => Raise WebDriverException
  end.

Definition newline : string := String (ascii_of_nat 10) EmptyString.

(** What the driver answers while one page is shown. *)
Record Page : Type := mkPage {
  find_elements : string -> list WebElement;   (* [driver.find_elements] *)
  query_selector : string -> option Node;      (* [document.querySelector] *)
  current_url : result string;                 (* [driver.current_url] *)
  save_screenshot : string -> result unit;     (* [driver.save_screenshot] *)
  run_script : result unit;                    (* a scrolling script *)
  clock : nat -> datetime                      (* [datetime.now()] while post [i] is handled *)
}.

(* ================================================================== *)
(** * The classifier: [is_original_post] *)

Definition activity_texts : list string :=
  ["liked"; "commented on"; "replied"; "reposted";
   "shared"; "celebrates"; "mentioned in"; "follows"].

Definition classifier_content_selectors : list string :=
  [".feed-shared-update-v2__description";
   ".feed-shared-text";
   ".update-components-text";
   ".feed-shared-text-view";
   ".update-components-update-v2__commentary"].

(** [post_text.startswith(activity) or f"\n{activity}" in post_text[:50]] *)
Definition activity_at_start (post_text activity : string) : bool :=
  (Str.startswith activity post_text
   || Str.contains (newline ++ activity) (Str.take 50 post_text))%bool.

(** [any(el.text.strip() for el in elements)] *)
Fixpoint any_text (elements : list WebElement) : result bool :=
  match elements with
  | [] => Ok false
  | el :: rest =>
      t <- element_text el ;;
      if negb (Str.is_empty (Str.strip t)) then Ok true else any_text rest
  end.

(** The loop over the content selectors, which returns at the first hit. *)
Fixpoint content_found (post : WebElement) (selectors : list string) : result bool :=
  match selectors with
  | [] => Ok false
  | selector :: rest =>
      content_elements <- element_find post selector ;;
      hit <- any_text content_elements ;;
      if hit then Ok true else content_found post rest
  end.

Definition is_original_post (post : WebElement) : bool :=
  try_except
    (t <- element_text post ;;
     let post_text := Str.lower t in
     if existsb (activity_at_start post_text) activity_texts then Ok false
     else content_found post classifier_content_selectors)
    false.

(* ================================================================== *)
(** * The field extractor *)

Definition text_content_selectors : list string :=
  [".feed-shared-update-v2__description";
   ".feed-shared-text";
   ".update-components-text";
   ".feed-shared-text-view"].

(** The inner loop of [extract_post_text]: keep the longest stripped text. *)
Fixpoint longest_text (elements : list WebElement) (post_text : string) : result string :=
  match elements with
  | [] => Ok post_text
  | element :: rest =>
      t <- element_text element ;;
      let t := Str.strip t in
      if (negb (Str.is_empty t)
          && Nat.ltb (String.length post_text) (String.length t))%bool
      then longest_text rest t
      else longest_text rest post_text
  end.

Fixpoint longest_over (post : WebElement) (selectors : list string) (post_text : string)
  : result string :=
  match selectors with
  | [] => Ok post_text
  | selector :: rest =>
      elements <- element_find post selector ;;
      t <- longest_text elements post_text ;;
      longest_over post rest t
  end.

(** The fallback script of [extract_post_text]. *)
Definition script_visible_text (post : Node) : string :=
  Str.trim
    (fold_left
       (fun acc el =>
          if (negb (Str.is_empty (Str.trim (textContent el))) && has_box el)%bool
          then acc ++ Str.trim (textContent el) ++ newline
          else acc)
       (query post "p, span.break-words, div.break-words") EmptyString).

(** The pattern [\n \s* \n]. *)
Definition blank_lines_regex : regex :=
  Cat (Chr (is_char (ascii_of_nat 10)))
      (Cat (Star Str.py_isspace) (Chr (is_char (ascii_of_nat 10)))).

(** The pattern [" "+]. *)
Definition spaces_regex : regex := Plus (is_char " ").

(** [expand_see_more_in_post] only clicks, and swallows what goes wrong. *)
Definition extract_post_text (post : WebElement) : string :=
  try_except
    (t <- longest_over post text_content_selectors EmptyString ;;
     t <- (if Str.is_empty t then execute_script script_visible_text post else Ok t) ;;
     let t := sub blank_lines_regex (newline ++ newline) t in
     let t := sub spaces_regex " " t in
     Ok (Str.strip t))
    "Error extracting text".

Definition date_selectors : list string :=
  [".feed-shared-actor__sub-description";
   ".update-components-actor__sub-description";
   "time";
   ".feed-shared-actor__creation-time";
   ".update-components-actor__meta-link";
   ".update-components-text-view time";
   ".artdeco-entity-lockup__caption"].

Definition date_indicators : list string :=
  ["ago"; "hour"; "day"; "min"; "sec"; "just now"; "week"; "month"; "yr"].

Definition has_date_indicator (lowered : string) : bool :=
  existsb (fun indicator => Str.contains indicator lowered) date_indicators.

(** The first element whose stripped text names a time unit. *)
Fixpoint first_date_text (elements : list WebElement) : result (option string) :=
  match elements with
  | [] => Ok None
  | element :: rest =>
      t <- element_text element ;;
      let date_text := Str.strip t in
      if (negb (Str.is_empty date_text) && has_date_indicator (Str.lower date_text))%bool
      then Ok (Some date_text)
      else first_date_text rest
  end.

Fixpoint first_date_over (post : WebElement) (selectors : list string) : result (option string) :=
  match selectors with
  | [] => Ok None
  | selector :: rest =>
      elements <- element_find post selector ;;
      found <- first_date_text elements ;;
      match found with
      | Some t => Ok (Some t)
      | None => first_date_over post rest
      end
  end.

(** The fallback script of [extract_post_date]. *)
Definition script_date_text (post : Node) : string :=
  match find (fun el => negb (Str.is_empty (Str.trim (textContent el))))
             (query post "time") with
  | Some el => Str.trim (textContent el)
  | None =>
      match find (fun el =>
                    let t := Str.lower (Str.trim (textContent el)) in
                    (negb (Str.is_empty t) && has_date_indicator t)%bool)
                 (query post "span, div") with
      | Some el => Str.trim (textContent el)
      | None => "Unknown date"
      end
  end.

Definition extract_post_date (post : WebElement) : string :=
  try_except
    (found <- first_date_over post date_selectors ;;
     match found with
     | Some t => Ok t
     | None => execute_script script_date_text post
     end)
    "Unknown date".

(** ** Engagement *)

(** The class [[\d,.km]] of a pattern with the [i] flag. *)
Definition count_char (c : ascii) : bool :=
  (Str.is_digit c || Str.contains (String c "") ",.kmKM")%bool.

(** [numStr.replace(/[^\d.km]/gi, '')] *)
Definition keep_count_chars (s : string) : string :=
  Str.filter (fun c => (Str.is_digit c || Str.contains (String c "") ".kmKM")%bool) s.

(** The pattern [(\d+[\d,.km]* ) [\s]* (?:w1|w2|...)], keyed on words. *)
Definition counted_regex (words : list string) : regex :=
  Cat (Grp 1 (Cat (Plus Str.is_digit) (Star count_char)))
      (Cat (Star Str.js_isspace) (Alts (List.map Lit words))).

(** The three-way choice the scripts make on a cleaned number. *)
Definition js_count (numStr : string) : Float64.float :=
  if Str.contains "k" numStr
  then Float64.mul (Float64.parseFloat numStr) (Float64.of_Z 1000)
  else if Str.contains "m" numStr
  then Float64.mul (Float64.parseFloat numStr) (Float64.of_Z 1000000)
  else Float64.parseInt numStr.

(** One category of the first script: the first group of the match. *)
Definition container_count (words : list string) (lowered : string) : Float64.float :=
  match search (counted_regex words) lowered with
  | Some m =>
      match group 1 (groups m) with
      | Some g => js_count (keep_count_chars g)
      | None => Float64.of_Z 0
      end
  | None => Float64.of_Z 0
  end.

Definition triple : Type := (Float64.float * Float64.float * Float64.float)%type.

(** The script run on the social-counts container. *)
Definition script_container_counts (container : Node) : triple :=
  let t := Str.lower (textContent container) in
  (container_count ["like"; "reaction"] t,
   container_count ["comment"] t,
   container_count ["repost"; "share"] t).

(** One category of the last script: the whole match is cleaned, its
    keyword included. *)
Definition scan_count (words : list string) (lowered : string) (old : Float64.float)
  : Float64.float :=
  if existsb (fun w => Str.contains w lowered) words then
    match search (counted_regex words) lowered with
    | Some m => js_count (keep_count_chars (whole m))
    | None => old
    end
  else old.

(** The script that scans every element of the post. *)
Definition script_scan_counts (post : Node) : triple :=
  fold_left
    (fun (acc : triple) el =>
       let '(reactions, comments, reposts) := acc in
       let t := Str.lower (Str.trim (textContent el)) in
       (scan_count ["like"; "reaction"] t reactions,
        scan_count ["comment"] t comments,
        scan_count ["repost"; "share"] t reposts))
    (query post "*")
    (Float64.of_Z 0, Float64.of_Z 0, Float64.of_Z 0).

Definition counts : Type := (number * number * number)%type.

Definition of_triple (t : triple) : counts :=
  let '(a, b, c) := t in (Num.of_js a, Num.of_js b, Num.of_js c).

Definition all_zero (c : counts) : bool :=
  let '(reactions, comments, reposts) := c in
  (Num.is_zero reactions && Num.is_zero comments && Num.is_zero reposts)%bool.

Definition social_counts_selectors : list string :=
  [".social-details-social-counts";
   ".update-components-social-activity";
   ".social-action-counts"].

(** The first element of the first selector that has any. *)
Fixpoint find_container (post : WebElement) (selectors : list string)
  : result (option WebElement) :=
  match selectors with
  | [] => Ok None
  | selector :: rest =>
      containers <- element_find post selector ;;
      match containers with
      | c :: _ => Ok (Some c)
      | [] => find_container post rest
      end
  end.

Definition reaction_selectors : list string :=
  [".social-details-social-counts__reactions-count";
   ".social-details-social-counts__social-proof-text";
   ".social-action-counts__count"].

Definition comment_selectors : list string :=
  [".social-details-social-counts__comments";
   ".comments-comment-box__comment-count";
   ".social-action-counts__comments"].

Definition repost_selectors : list string :=
  [".social-details-social-counts__reshares";
   ".social-action-counts__reshares"].

(** The test that lets a badge count: one of the words, all digits, or a k. *)
Definition badge_counts (words : list string) (t : string) : bool :=
  (existsb (fun w => Str.contains w (Str.lower t)) words
   || Str.isdigit t || Str.contains "k" (Str.lower t))%bool.

(** The greatest [parse_count] over the badges of one selector. *)
Fixpoint max_badge (words : list string) (elements : list WebElement) (best : number)
  : result number :=
  match elements with
  | [] => Ok best
  | element :: rest =>
      t <- element_text element ;;
      let t := Str.strip t in
      if (negb (Str.is_empty t) && badge_counts words t)%bool then
        let count := Int (parse_count t) in
        max_badge words rest (if Num.ltb best count then count else best)
      else max_badge words rest best
  end.

Fixpoint max_over (post : WebElement) (words : list string) (selectors : list string)
         (best : number) : result number :=
  match selectors with
  | [] => Ok best
  | selector :: rest =>
      elements <- element_find post selector ;;
      b <- max_badge words elements best ;;
      max_over post words rest b
  end.

Definition extract_engagement (post : WebElement) : counts :=
  try_except
    (social_container <- find_container post social_counts_selectors ;;
     c1 <- match social_container with
           | Some container =>
               t <- execute_script script_container_counts container ;;
               Ok (of_triple t)
           | None => Ok (Int 0, Int 0, Int 0)
           end ;;
     c2 <- (if all_zero c1 then
              let '(reactions, comments, reposts) := c1 in
              reactions <- max_over post ["like"; "reaction"] reaction_selectors reactions ;;
              comments <- max_over post ["comment"] comment_selectors comments ;;
              reposts <- max_over post ["repost"; "share"] repost_selectors reposts ;;
              Ok (reactions, comments, reposts)
            else Ok c1) ;;
     if all_zero c2 then
       t <- execute_script script_scan_counts post ;;
       Ok (of_triple t)
     else Ok c2)
    (Int 0, Int 0, Int 0).

(* ================================================================== *)
(** * Records and the per-page pipeline: [extract_posts] *)

(** The attributes of the scraper object that the pipeline reads. *)
Record Scraper : Type := mkScraper {
  self_debug : bool;
  self_max_posts : Z;
  self_session_id : string
}.

(** One row of the dataset, a column per key of the dictionary that
    [extract_posts] appends. *)
Record PostRecord : Type := mkPostRecord {
  profile_name : string;
  profile_url : string;
  post_text : string;
  post_date_text : string;
  post_date : string;
  day_of_week : string;
  hour_of_day : string;
  reactions : number;
  comments : number;
  reposts : number;
  total_engagement : number;
  hashtags : string;
  hashtag_count : nat;
  post_length : nat;
  scraped_at : string;
  session_id : string
}.

(** [if self.debug: self.driver.save_screenshot(f'debug/{session_id}_{label}.png')] *)
Definition shot (self : Scraper) (page : Page) (label : string) : result unit :=
  if self_debug self
  then save_screenshot page ("debug/" ++ self_session_id self ++ "_" ++ label ++ ".png")
  else Ok tt.

Definition extract_profile_name (page : Page) : string :=
  try_except
    (let heading :=
       match query_selector page "h1.text-heading-xlarge" with
       | Some el => Some el
       | None => query_selector page ".pv-text-details__left-panel h1"
       end in
     let scripted :=
       match heading with
       | Some el => Str.trim (textContent el)
       | None => EmptyString
       end in
     if negb (Str.is_empty scripted) then Ok scripted
     else
       url <- current_url page ;;
       match Str.after_first "/in/" url with
       | Some part => Ok (Str.title (Str.replace_char "-" " " (Str.before "/" part)))
       | None => Ok "Unknown Profile"
       end)
    "Unknown Profile".

(** The pattern [#\w+]. *)
Definition hashtag_regex : regex := Cat (Chr (is_char "#")) (Plus Str.is_word).

Definition unknown_or (f : datetime -> string) (parsed_date : option datetime) : string :=
  match parsed_date with
  | Some d => f d
  | None => "Unknown"
  end.

(** The body of the loop over the located containers: [Ok None] is the
    [continue] of a container that is not an original post, [Raise] is
    what the [except] around the body catches. *)
Definition process_post (self : Scraper) (page : Page) (i : nat) (post : WebElement)
  : result (option PostRecord) :=
  _ <- shot self page ("post_" ++ Str.str_of_nat (i + 1)) ;;
  if negb (is_original_post post) then Ok None
  else
    let text := extract_post_text post in
    let date := extract_post_date post in
    let '(r, c, p) := extract_engagement post in
    let parsed_date := parse_date (clock page i) date in
    let tags := findall hashtag_regex text in
    let name := extract_profile_name page in
    url <- current_url page ;;
    Ok (Some {|
      profile_name := name;
      profile_url := Str.before "/recent-activity" url;
      post_text := text;
      post_date_text := date;
      post_date := unknown_or format_timestamp parsed_date;
      day_of_week := unknown_or format_weekday parsed_date;
      hour_of_day := unknown_or format_hour parsed_date;
      reactions := r;
      comments := c;
      reposts := p;
      total_engagement := Num.add (Num.add r c) p;
      hashtags := Str.join ", " tags;
      hashtag_count := List.length tags;
      post_length := String.length text;
      scraped_at := format_timestamp (clock page i);
      session_id := self_session_id self
    |}).

Definition post_selectors : list string :=
  [".feed-shared-update-v2";
   ".occludable-update";
   ".profile-creator-shared-feed-update__container"].

(** The loop over the container selectors: the first selector with any
    match gives the candidates, cut to fifteen, and ends the loop. *)
Fixpoint locate (page : Page) (selectors : list string) : list WebElement :=
  match selectors with
  | [] => []
  | selector :: rest =>
      match find_elements page selector with
      | [] => locate page rest
      | posts => firstn 15 posts
      end
  end.

(** The loop over the candidates, [i] counting from 0. *)
Fixpoint extract_loop (self : Scraper) (page : Page) (i : nat) (posts : list WebElement)
         (post_data : list PostRecord) (post_count : Z) : list PostRecord :=
  match posts with
  | [] => post_data
  | post :: rest =>
      match process_post self page i post with
      | Ok (Some record) =>
          if post_count + 1 >=? self_max_posts self
          then (post_data ++ [record])%list
          else extract_loop self page (S i) rest (post_data ++ [record])%list (post_count + 1)
      | Ok None => extract_loop self page (S i) rest post_data post_count
      | Raise _ => extract_loop self page (S i) rest post_data post_count
      end
  end.

(** [extract_posts]; it can raise only from the screenshot of its own
    handler. *)
Definition extract_posts (self : Scraper) (page : Page) : result (list PostRecord) :=
  match
    (_ <- shot self page "before_extraction" ;;
     match locate page post_selectors with
     | [] => _ <- shot self page "no_posts" ;; Ok []
     | all_posts => Ok (extract_loop self page 0 all_posts [] 0)
     end)
  with
  | Ok post_data => Ok post_data
  | Raise _ => _ <- shot self page "extraction_error" ;; Ok []
  end.

(* ================================================================== *)
(** * The orchestrator and the dataset writer *)

(** What one navigation meets. *)
Record Visit : Type := mkVisit {
  get : result unit;        (* [driver.get(url)] *)
  posts_present : bool;     (* one of the three waits found a container *)
  page : Page
}.

(** The world outside. [login] is what a call of [login()] by a scraper
    that is not logged in comes to: whether it returns or raises again,
    and [self.logged_in] afterwards. The flag is set before the screenshot
    after the login is taken, so a call that raises can leave it set.
    [visit] is what each activity URL shows. *)
Record Web : Type := mkWeb {
  login : result unit * bool;
  visit : string -> Visit
}.

Definition activity_url (profile_url : string) : string :=
  if Str.contains "recent-activity/all" profile_url then profile_url
  else (if Str.endswith "/" profile_url then profile_url else profile_url ++ "/")
       ++ "recent-activity/all/".

(** [navigate_to_profile]: its result and [self.logged_in] afterwards. *)
Definition navigate_to_profile (self : Scraper) (web : Web) (logged_in : bool)
           (profile_url : string) : result bool * bool :=
  match (if logged_in then (Ok tt, true) else login web) with
  | (Raise e, logged_in') => (Raise e, logged_in')
  | (Ok _, logged_in') =>
      let v := visit web (activity_url profile_url) in
      let body :=
        _ <- get v ;;
        _ <- shot self (page v) "profile_page" ;;
        url <- current_url (page v) ;;
        if negb (Str.contains "recent-activity" url) then
          _ <- current_url (page v) ;;
          _ <- shot self (page v) "wrong_page" ;;
          Ok false
        else if posts_present v then Ok true
        else _ <- shot self (page v) "no_posts_found" ;; Ok false in
      (match body with
       | Ok b => Ok b
       | Raise _ => _ <- shot self (page v) "navigation_error" ;; Ok false
       end, logged_in')
  end.

(** The scrolling loop, [n] rounds from round [i]. *)
Fixpoint scroll_rounds (self : Scraper) (page : Page) (n i : nat) : result unit :=
  match n with
  | O => Ok tt
  | S n' =>
      _ <- run_script page ;;
      _ <- (if Nat.eqb (i mod 3) 0
            then shot self page ("scrolling_" ++ Str.str_of_nat (i + 1))
            else Ok tt) ;;
      scroll_rounds self page n' (S i)
  end.

Definition scroll_and_expand_posts (self : Scraper) (page : Page) : result bool :=
  match
    (_ <- shot self page "before_scrolling" ;;
     _ <- scroll_rounds self page 5 0 ;;
     _ <- shot self page "after_scrolling" ;;
     Ok true)
  with
  | Ok b => Ok b
  | Raise _ => _ <- shot self page "scrolling_error" ;; Ok false
  end.

(** [scrape_profile]: the records of one profile and [self.logged_in]
    afterwards. *)
Definition scrape_profile (self : Scraper) (web : Web) (logged_in : bool)
           (profile_url : string) : list PostRecord * bool :=
  let (nav, logged_in') := navigate_to_profile self web logged_in profile_url in
  let p := page (visit web (activity_url profile_url)) in
  (try_except
     (ok <- nav ;;
      if negb ok then Ok []
      else
        _ <- scroll_and_expand_posts self p ;;
        extract_posts self p)
     [],
   logged_in').

(** The loop of [scrape_multiple_profiles] over the URLs. *)
Fixpoint scrape_all (self : Scraper) (web : Web) (logged_in : bool)
         (profile_urls : list string) (all_posts : list PostRecord) : list PostRecord :=
  match profile_urls with
  | [] => all_posts
  | url :: rest =>
      let (profile_posts, logged_in') := scrape_profile self web logged_in url in
      scrape_all self web logged_in' rest (all_posts ++ profile_posts)%list
  end.

(** ** The datasets *)

(** A value in one of the two columns that the merge compares. The frame
    made from the records holds their texts there. [pd.read_csv] can give
    something else for a text that was written: the missing value for an
    empty cell and for a text that it takes as a marker of one (NA, N/A,
    null, ...), and numbers for a column of which every cell reads as a
    number or as a truth value. A number is a fraction in lowest terms,
    and a truth value is the number 0 or 1, as Python compares them. *)
Inductive cell : Type :=
| Text (s : string)
| Missing
| Number (q : Q)
| Infinite (negative : bool).

(** A row of a frame: a record of this run, or a row that [pd.read_csv]
    gave, with its two key columns and its other columns. *)
Inductive Row : Type :=
| Fresh (r : PostRecord)
| Stored (text_cell name_cell : cell) (others : list cell).

Definition DataFrame : Type := list Row.

(** The subset [['post_text', 'profile_name']]. *)
Definition dedup_key (row : Row) : cell * cell :=
  match row with
  | Fresh r => (Text (post_text r), Text (profile_name r))
  | Stored text_cell name_cell _ => (text_cell, name_cell)
  end.

(** Equality of two values as [drop_duplicates] takes it: two missing
    values are equal, and a text is equal to no number. *)
Definition cell_eqb (a b : cell) : bool :=
  match a, b with
  | Text s, Text t => String.eqb s t
  | Missing, Missing => true
  | Number p, Number q => (Z.eqb (Qnum p) (Qnum q) && Pos.eqb (Qden p) (Qden q))%bool
  | Infinite m, Infinite n => Bool.eqb m n
  | _, _ => false
  end.

Definition key_eqb (a b : cell * cell) : bool :=
  (cell_eqb (fst a) (fst b) && cell_eqb (snd a) (snd b))%bool.

Definition seen_key (k : cell * cell) (seen : list (cell * cell)) : bool :=
  existsb (key_eqb k) seen.

(** [df.drop_duplicates(subset=[...], keep='first')]: the rows in order,
    without those whose key an earlier row has. *)
Fixpoint drop_duplicates_from (seen : list (cell * cell)) (df : DataFrame) : DataFrame :=
  match df with
  | [] => []
  | r :: rest =>
      if seen_key (dedup_key r) seen then drop_duplicates_from seen rest
      else r :: drop_duplicates_from (dedup_key r :: seen) rest
  end.

Definition drop_duplicates (df : DataFrame) : DataFrame := drop_duplicates_from [] df.

(** The merge into the cumulative dataset, done when its file exists:
    [pd.concat([df_existing, df_new])] and [drop_duplicates]. *)
Definition merge_cumulative (df_existing df_new : DataFrame) : DataFrame :=
  drop_duplicates (df_existing ++ df_new)%list.

(** What the run finds on disk: [cumulative_file] is [None] when
    [os.path.exists(output_file)] is false, and otherwise the frame that
    [pd.read_csv(output_file)] gives. *)
Record Files : Type := mkFiles {
  cumulative_file : option DataFrame
}.

Definition output_file : string := "data/linkedin_original_posts.csv".

(** [f'data/linkedin_posts_{self.session_id}.csv'] *)
Definition session_file (self : Scraper) : string :=
  "data/linkedin_posts_" ++ self_session_id self ++ ".csv".

(** The part of [scrape_multiple_profiles] after the loop: the two frames
    that are returned, and the calls of [to_csv] in the order in which
    they are made, each with its path and the frame written. *)
Definition write_datasets (self : Scraper) (all_posts : list PostRecord) (files : Files)
  : (DataFrame * DataFrame) * list (string * DataFrame) :=
  match all_posts with
  | [] => (([], []), [])
  | _ =>
      let df_new := List.map Fresh all_posts in
      let session := (session_file self, df_new) in
      match cumulative_file files with
      | Some df_existing =>
          let df_combined := merge_cumulative df_existing df_new in
          ((df_new, df_combined), [session; (output_file, df_combined)])
      | None => ((df_new, df_new), [session; (output_file, df_new)])
      end
  end.

Definition scrape_multiple_profiles (self : Scraper) (web : Web) (logged_in : bool)
           (files : Files) (profile_urls : list string)
  : (DataFrame * DataFrame) * list (string * DataFrame) :=
  write_datasets self (scrape_all self web logged_in profile_urls []) files.

Local Close Scope Z_scope.
Local Open Scope list_scope.

(* ================================================================== *)
(** * Notions used in the statements *)

(** ** Texts and matches *)

(** [s'] is what remains of [s] after some prefix. *)
Definition is_suffix (s' s : string) : Prop := exists pre, s = (pre ++ s')%string.

(** A string that starts with a digit. *)
Definition digit_headed (s : string) : Prop :=
  exists d w, s = String d w /\ Str.is_digit d = true.

(** The strings of a list occur in a text one after the other. *)
Inductive occur_in_order : list string -> string -> Prop :=
| occur_nil (s : string) : occur_in_order [] s
| occur_cons (gap h rest : string) (l : list string) :
    occur_in_order l rest -> occur_in_order (h :: l) (gap ++ h ++ rest)%string.

(** [#] and then word characters, one at least. *)
Definition is_hashtag (h : string) : bool :=
  match h with
  | String c (String d w) =>
      (Ascii.eqb c "#" && Str.is_word d && Str.forallb Str.is_word w)%bool
  | _ => false
  end.

(** The continuation with which [match_here] runs a pattern on [s]. *)
Definition found_in (s : string) : string -> captures -> option match_obj :=
  fun s' caps => Some (MatchObj (Str.consumed s s') caps s').

(** A pattern without capturing groups. *)
Fixpoint group_free (r : regex) : bool :=
  match r with
  | Eps | Chr _ | Star _ => true
  | Cat r1 r2 | Alt r1 r2 => (group_free r1 && group_free r2)%bool
  | Opt r1 => group_free r1
  | Grp _ _ => false
  end.

(** A tail of a pattern that cannot start on a digit. *)
Definition no_digit_start (tail : regex) : Prop :=
  forall (d : ascii) (s : string) (caps : captures)
         (k : string -> captures -> option match_obj),
    Str.is_digit d = true -> rmatch tail (String d s) caps k = None.

(** The text after a run of digits starts with no digit and no comma. *)
Definition ends_number (rest : string) : Prop :=
  match rest with
  | EmptyString => True
  | String c _ => Str.is_digit c = false /\ c <> ","%char
  end.

(** ** Dates *)

(** The units of the first pattern and their lengths in microseconds. *)
Definition ago_units : list (string * Z) :=
  [("minute", 60 * us_per_second);
   ("hour", 3600 * us_per_second);
   ("day", us_per_day);
   ("week", 7 * us_per_day);
   ("month", 30 * us_per_day);
   ("year", 365 * us_per_day)]%Z.

(** The text after the number, for a unit of the first pattern. *)
Definition ago_rest (unit : string) (plural : bool) : string :=
  (" " ++ unit ++ (if plural then "s" else "") ++ " ago")%string.

(** The units of the second pattern that are read as written, with their
    lengths in microseconds. *)
Definition compact_units : list (string * Z) :=
  [("s", us_per_second);
   ("m", 60 * us_per_second);
   ("h", 3600 * us_per_second);
   ("d", us_per_day);
   ("w", 7 * us_per_day);
   ("yr", 365 * us_per_day)]%Z.

(** The same with the unit [mo] as the code reads it: its [m] matches the
    alternative for minutes, which stands before the one for months. *)
Definition compact_units_as_read : list (string * Z) :=
  ("mo", 60 * us_per_second)%Z :: compact_units.

(** Whether [text], after the blanks at its start if any, begins with one
    of [units]. *)
Definition unit_follows (units : list string) (text : string) : bool :=
  existsb (fun unit => Str.startswith unit (Str.lstrip Str.py_isspace text)) units.

(** Whether some digit of [text] is followed, after blanks if any, by one
    of [units]. *)
Fixpoint number_then (units : list string) (text : string) : bool :=
  match text with
  | EmptyString => false
  | String c rest =>
      ((Str.is_digit c && unit_follows units rest) || number_then units rest)%bool
  end.

(** What, written after a number, makes [parse_date] read the number as
    a time that has passed. *)
Definition dating_units : list string := ["s"; "m"; "h"; "d"; "w"; "yr"; "year"].

(** ** Counts *)

(** A double that is a number and not below zero. *)
Definition float_nonneg (x : Float64.float) : Prop := Num.nonneg (Float x) = true.

Definition triple_nonneg (t : triple) : Prop :=
  let '(a, b, c) := t in float_nonneg a /\ float_nonneg b /\ float_nonneg c.

Definition counts_nonneg (c : counts) : Prop :=
  let '(x, y, z) := c in
  Num.nonneg x = true /\ Num.nonneg y = true /\ Num.nonneg z = true.

(** ** Containers, records and datasets *)

(** An element whose stripped text is not empty. *)
Definition has_text (el : Node) : bool := negb (Str.is_empty (Str.strip (text el))).

(** The records the candidates give when each is handled on its own. *)
Fixpoint records_of (self : Scraper) (page : Page) (i : nat) (posts : list WebElement)
  : list PostRecord :=
  match posts with
  | [] => []
  | post :: rest =>
      match process_post self page i post with
      | Ok (Some record) => record :: records_of self page (S i) rest
      | _ => records_of self page (S i) rest
      end
  end.

(** The record lists of the profiles, one per URL, in order. *)
Fixpoint profile_results (self : Scraper) (web : Web) (logged_in : bool)
         (profile_urls : list string) : list (list PostRecord) :=
  match profile_urls with
  | [] => []
  | url :: rest =>
      fst (scrape_profile self web logged_in url)
      :: profile_results self web (snd (scrape_profile self web logged_in url)) rest
  end.

(** The rows with a given deduplication key. *)
Definition has_key (k : cell * cell) (r : Row) : bool :=
  key_eqb (dedup_key r) k.

(** Two lists of keys with the same members. *)
Definition same_members (s1 s2 : list (cell * cell)) : Prop :=
  forall k, seen_key k s1 = seen_key k s2.

(** The key that a record has in the frame made from the records. *)
Definition key_of_record (r : PostRecord) : cell * cell :=
  (Text (post_text r), Text (profile_name r)).

(* ================================================================== *)
(** * Sample inputs *)

Module Sample.

(** An element that holds text and nothing else. *)
Definition text_node (t : string) : Node := mkNode t t true (fun _ => []).

(** A post container: its rendered text, the text of its content element
    and the text of its social-counts container, absent when empty. *)
Definition container (body content social : string) : Node :=
  mkNode body body true
    (fun selector =>
       if String.eqb selector ".feed-shared-text" then [text_node content]
       else if String.eqb selector ".social-details-social-counts"
       then (if Str.is_empty social then [] else [text_node social])
       else if String.eqb selector "*"
       then (if Str.is_empty social then [text_node content]
             else [text_node content; text_node social])
       else []).

(** 2024-03-15 13:00:05 *)
Definition now : datetime :=
  ((ymd2ord 2024 3 15 - 1) * us_per_day + (13 * 3600 + 5) * us_per_second)%Z.

(** An activity page showing the given containers. *)
Definition page_of (posts : list WebElement) : Page :=
  mkPage
    (fun selector =>
       if String.eqb selector ".feed-shared-update-v2" then posts else [])
    (fun _ => None)
    (Ok "https://www.linkedin.com/in/jane-doe/recent-activity/all/")
    (fun _ => Ok tt)
    (Ok tt)
    (fun _ => now).

Definition reshare : WebElement := Live (container "liked a post" "Nice" "").
Definition hello : WebElement :=
  Live (container "Jane Doe" "Hello #AI #Tech" "42 reactions, 5 comments").
Definition world : WebElement := Live (container "Jane Doe" "World" "0 reactions").

(** The page of the end-to-end scenario: a reshare and two posts. *)
Definition page : Page := page_of [reshare; hello; world].

(** A page with one post that repeats a hashtag. *)
Definition repeating_page : Page :=
  page_of [Live (container "Jane Doe" "#AI #AI" "")].

(** A page with one post that shows a count with a K. *)
Definition popular_page : Page :=
  page_of [Live (container "Jane Doe" "Hello" "16.1K reactions")].

Definition scraper (max_posts : Z) : Scraper := mkScraper false max_posts "0a1b2c3d".

(** The same with debug screenshots. *)
Definition debugging_scraper (max_posts : Z) : Scraper :=
  mkScraper true max_posts "0a1b2c3d".

(** A page whose screenshots fail for the file of post 1. *)
Definition flaky_page : Page :=
  mkPage (find_elements page) (query_selector page) (current_url page)
    (fun file =>
       if String.eqb file "debug/0a1b2c3d_post_1.png" then Raise WebDriverException
       else Ok tt)
    (run_script page) (clock page).

(** A world where one profile cannot be reached and any other shows [page]. *)
Definition web : Web :=
  mkWeb (Ok tt, true)
    (fun url =>
       if String.eqb url "https://www.linkedin.com/in/gone/recent-activity/all/"
       then mkVisit (Raise WebDriverException) false (page_of [])
       else mkVisit (Ok tt) true page).

Definition no_files : Files := mkFiles None.

(** A record of a post by Jane Doe that reads [text]. *)
Definition post_reading (text : string) : PostRecord :=
  mkPostRecord "Jane Doe" "https://www.linkedin.com/in/jane-doe" text "2d"
               "2024-03-13 13:00:05" "Wednesday" "13"
               (Int 0) (Int 0) (Int 0) (Int 0) "" 0 (String.length text)
               "2024-03-15 13:00:05" "0a1b2c3d".

End Sample.

(* ================================================================== *)
(** * The session identifier

    [linkedin_scraper.py]: [__init__]. *)

Module Uuid.

Definition hex_digit (n : N) : ascii :=
  nth (N.to_nat n) (list_ascii_of_string "0123456789abcdef") "0"%char.

(** ['%0<digits>x' % int], the last [digits] hexadecimal digits of [int];
    all of them for the 32 digits of a UUID, which is below [2^128]. *)
Fixpoint hex (digits : nat) (int : N) : string :=
  match digits with
  | O => EmptyString
  | S k => hex k (int / 16) ++ String (hex_digit (int mod 16)) EmptyString
  end.

(** [str(uuid)]: the 32 digits in groups of 8, 4, 4, 4 and 12. *)
Definition str (int : N) : string :=
  let h := hex 32 int in
  Str.take 8 h ++ "-" ++ Str.take 4 (Str.drop 8 h) ++ "-"
  ++ Str.take 4 (Str.drop 12 h) ++ "-" ++ Str.take 4 (Str.drop 16 h) ++ "-"
  ++ Str.drop 20 h.

End Uuid.

(** [__init__]: [self.session_id = str(uuid4())[:8]] *)
Definition new_session_id (uuid4 : N) : string := Str.take 8 (Uuid.str uuid4).

(* ================================================================== *)
(** * The dashboard: [app.py]

    The parts of [main], [analyze_hashtags], [analyze_posting_time] and
    [generate_content_with_groq] that work on texts and on the rows of
    the datasets. *)

Module App.

(** [s.split(sep)] for a separator of one character: the pieces between
    its occurrences, one more than there are occurrences. *)
Fixpoint split (sep : ascii) (s : string) : list string :=
  match s with
  | EmptyString => [EmptyString]
  | String c s' =>
      if Ascii.eqb c sep then EmptyString :: split sep s'
      else
        match split sep s' with
        | piece :: pieces => String c piece :: pieces
        | [] => [String c EmptyString]
        end
  end.

(** [main]:
    [[url.strip() for url in profile_text.split("\n") if url.strip()]] *)
Definition profile_urls (profile_text : string) : list string :=
  List.map Str.strip
    (List.filter (fun url => negb (Str.is_empty (Str.strip url)))
                 (split (ascii_of_nat 10) profile_text)).

(** [main]: the test that picks the session files out of
    [os.listdir('data')]. *)
Definition is_session_file (f : string) : bool :=
  (Str.startswith "linkedin_posts_" f && Str.endswith ".csv" f)%bool.

(** [main]: [session_id = file.split('_')[-1].split('.')[0]] *)
Definition session_id_of (file : string) : string :=
  hd EmptyString (split "." (last (split "_" file) EmptyString)).

(** [main]: [selected_file = f"linkedin_posts_{selected_session}.csv"] *)
Definition selected_file (selected_session : string) : string :=
  "linkedin_posts_" ++ selected_session ++ ".csv".

(** [os.path.join('data', file)] *)
Definition data_path (file : string) : string := "data/" ++ file.

(** [analyze_hashtags]: the hashtags of one cell of the column
    [hashtags], [None] being the missing value that [dropna] and [notna]
    look for: [[tag.strip() for tag in tags.split(',')]] under [if tags]. *)
Definition tags_of_cell (cell : option string) : list string :=
  match cell with
  | Some tags =>
      if Str.is_empty tags then [] else List.map Str.strip (split "," tags)
  | None => []
  end.

(** The first loop of [analyze_hashtags], over the column. *)
Definition all_hashtags (column : list (option string)) : list string :=
  List.flat_map tags_of_cell column.

(** The second loop, over the rows: each hashtag of a row with the
    engagement of the row. *)
Definition hashtag_engagement (rows : list (option string * number))
  : list (string * number) :=
  List.flat_map
    (fun row => List.map (fun tag => (tag, snd row)) (tags_of_cell (fst row)))
    rows.

(** [analyze_posting_time]: the rows that
    [df[(df['day_of_week'] != 'Unknown') & (df['hour_of_day'] != 'Unknown')]]
    keeps. *)
Definition time_rows (df : list PostRecord) : list PostRecord :=
  List.filter
    (fun row => (negb (String.eqb (day_of_week row) "Unknown")
                 && negb (String.eqb (hour_of_day row) "Unknown"))%bool)
    df.

(** The pattern [Post \d+:]. *)
Definition post_marker_regex : regex :=
  Cat (Lit "Post ") (Cat (Plus Str.is_digit) (Chr (is_char ":"))).

(** [re.split(r, s)] for a pattern without groups that matches no empty
    text: the pieces between the successive matches, from left to right.
    [skip] counts the characters of the current match still to be passed
    over; the first piece of the result is the one being read. *)
Fixpoint resplit_from (r : regex) (skip : nat) (s : string) : list string :=
  match s with
  | EmptyString => [EmptyString]
  | String c s' =>
      match skip with
      | S k => resplit_from r k s'
      | O =>
          match match_here r s with
          | Some m => EmptyString :: resplit_from r (String.length (whole m) - 1) s'
          | None =>
              match resplit_from r 0 s' with
              | piece :: pieces => String c piece :: pieces
              | [] => [String c EmptyString]
              end
          end
      end
  end.

Definition resplit (r : regex) (s : string) : list string := resplit_from r 0 s.

(** [generate_content_with_groq]: what is made of the text that the
    model returned:
    [posts = re.split(r'Post \d+:', generated_content)] and
    [[p.strip() for p in posts if p.strip()]]. *)
Definition variations (generated_content : string) : list string :=
  List.map Str.strip
    (List.filter (fun p => negb (Str.is_empty (Str.strip p)))
                 (resplit post_marker_regex generated_content)).

End App.

(* ================================================================== *)
(** * Notions used in further statements *)

(** A text from whose left end [lstrip] takes nothing. *)
Definition left_clean (sp : ascii -> bool) (s : string) : Prop :=
  match s with
  | EmptyString => True
  | String c _ => sp c = false
  end.

(** A digit or a thousands separator. *)
Definition is_digit_or_comma (c : ascii) : bool :=
  (Str.is_digit c || Ascii.eqb c ",")%bool.

(** The keywords of the three categories, each with the word list of its
    category and with the factor by which the script that scans every
    element ends up multiplying a count followed by the keyword. *)
Definition scan_keywords : list (list string * string * Z) :=
  [(["like"; "reaction"], "like", 1000);
   (["like"; "reaction"], "reaction", 1);
   (["comment"], "comment", 1000000);
   (["repost"; "share"], "repost", 1);
   (["repost"; "share"], "share", 1)]%Z.

(** A badge that counts for a category: its stripped text is not empty
    and names one of the words, is all digits or holds a k. *)
Definition counting_badge (words : list string) (el : Node) : bool :=
  (negb (Str.is_empty (Str.strip (text el)))
   && badge_counts words (Str.strip (text el)))%bool.

(** [b] is the largest count among the counting badges that the selectors
    find below [post], and 0 when there is none. *)
Definition largest_badge (words selectors : list string) (post : Node) (b : Z) : Prop :=
  Forall (fun el => counting_badge words el = true ->
                    (parse_count (Str.strip (text el)) <= b)%Z)
         (flat_map (query post) selectors)
  /\ (b = 0%Z
      \/ exists el, In el (flat_map (query post) selectors)
                    /\ counting_badge words el = true
                    /\ b = parse_count (Str.strip (text el))).

(** A lower-case hexadecimal digit. *)
Definition is_hex_digit (c : ascii) : bool :=
  (Str.is_digit c || Str.between 97 102 c)%bool.

(** A character that is neither of the two at which the dashboard cuts
    the name of a session file. *)
Definition is_name_char (c : ascii) : bool :=
  negb (Ascii.eqb c "_" || Ascii.eqb c ".")%bool.

(** A marker of the generated text: [Post], a blank, a number, a colon. *)
Definition post_marker (number : string) : string := "Post " ++ number ++ ":".

(** The generated text made of an opening and of marked bodies. *)
Fixpoint marked (bodies : list (string * string)) : string :=
  match bodies with
  | [] => EmptyString
  | (number, body) :: rest => post_marker number ++ body ++ marked rest
  end.

(* ================================================================== *)
(** * Properties *)

Local Open Scope string_scope.

(** ** Tactics *)
(** Run through the members of the list in [H : In x [a; b; ...]] and
    close each case by computation. *)
Ltac each_member H :=
  simpl in H; repeat (destruct H as [<- | H]; [reflexivity |]); destruct H.

(** Split [H : In (unit, us) units] into one goal for each unit. *)
Ltac each_unit H :=
  simpl in H; repeat (destruct H as [H | H]; [injection H as <- <- |]);
  [.. | destruct H].

(** ** Strings *)
Lemma append_nil_r (s : string) : s ++ "" = s.
Proof. induction s as [| c s IH]; simpl; [reflexivity | rewrite IH; reflexivity]. Qed.

Lemma append_assoc (a b c : string) : (a ++ b) ++ c = a ++ (b ++ c).
Proof. induction a as [| x a IH]; simpl; [reflexivity | rewrite IH; reflexivity]. Qed.

Lemma length_append (a b : string) :
  String.length (a ++ b) = (String.length a + String.length b)%nat.
Proof. induction a as [| x a IH]; simpl; [reflexivity | rewrite IH; reflexivity]. Qed.

Lemma take_append (a b : string) : Str.take (String.length a) (a ++ b) = a.
Proof. induction a as [| x a IH]; simpl; [destruct b; reflexivity | rewrite IH; reflexivity]. Qed.

Lemma drop_append (a b : string) : Str.drop (String.length a) (a ++ b) = b.
Proof. induction a as [| x a IH]; simpl; [destruct b; reflexivity | exact IH]. Qed.

Lemma consumed_append (a b : string) : Str.consumed (a ++ b) b = a.
Proof.
  unfold Str.consumed. rewrite length_append.
  replace (String.length a + String.length b - String.length b)%nat
    with (String.length a) by lia.
  apply take_append.
Qed.

Lemma span_append (p : ascii -> bool) (s : string) :
  s = fst (Str.span p s) ++ snd (Str.span p s).
Proof.
  induction s as [| c s IH]; simpl; [reflexivity |].
  destruct (p c); [| reflexivity].
  destruct (Str.span p s) as [a b]. simpl in *. rewrite <- IH. reflexivity.
Qed.

Lemma span_forallb (p : ascii -> bool) (s : string) :
  Str.forallb p (fst (Str.span p s)) = true.
Proof.
  induction s as [| c s IH]; simpl; [reflexivity |].
  destruct (p c) eqn:E; [| reflexivity].
  destruct (Str.span p s) as [a b]. simpl in *. rewrite E, IH. reflexivity.
Qed.

Lemma digit_cases (d : ascii) :
  Str.is_digit d = true ->
  In d ["0"; "1"; "2"; "3"; "4"; "5"; "6"; "7"; "8"; "9"]%char.
Proof.
  destruct d as [[|] [|] [|] [|] [|] [|] [|] [|]]; intros H;
    try discriminate H; simpl; auto 12.
Qed.

(** ** What a match reads *)
Lemma is_suffix_refl (s : string) : is_suffix s s.
Proof. exists "". reflexivity. Qed.

Lemma is_suffix_trans (a b c : string) : is_suffix a b -> is_suffix b c -> is_suffix a c.
Proof.
  intros [p1 ->] [p2 ->]. exists (p2 ++ p1). rewrite append_assoc. reflexivity.
Qed.

Lemma is_suffix_tail (c : ascii) (s : string) : is_suffix s (String c s).
Proof. exists (String c ""). reflexivity. Qed.

Section Suffix.
Variable R : Type.

Lemma star_match_suffix (p : ascii -> bool) (s : string) :
  forall (k : string -> option R) x,
  star_match p s k = Some x ->
  exists s', is_suffix s' s /\ k s' = Some x.
Proof.
  induction s as [| c s IH]; intros k x H; simpl in H.
  - exists "". split; [apply is_suffix_refl | assumption].
  - destruct (p c).
    + destruct (star_match p s k) eqn:E.
      * inversion H; subst. destruct (IH k x E) as [s' [Hs Hk]].
        exists s'. split; [| assumption].
        eapply is_suffix_trans; [eassumption | apply is_suffix_tail].
      * exists (String c s). split; [apply is_suffix_refl | assumption].
    + exists (String c s). split; [apply is_suffix_refl | assumption].
Qed.

Lemma rmatch_suffix (r : regex) :
  forall s caps (k : string -> captures -> option R) x,
  rmatch r s caps k = Some x ->
  exists s' caps', is_suffix s' s /\ k s' caps' = Some x.
Proof.
  induction r as [| p | r1 IH1 r2 IH2 | r1 IH1 r2 IH2 | r1 IH1 | p | n r1 IH1];
    intros s caps k x H; simpl in H.
  - exists s, caps. split; [apply is_suffix_refl | assumption].
  - destruct s as [| c s]; [discriminate |].
    destruct (p c); [| discriminate].
    exists s, caps. split; [apply is_suffix_tail | assumption].
  - apply IH1 in H. destruct H as [s1 [caps1 [Hs1 H]]].
    apply IH2 in H. destruct H as [s2 [caps2 [Hs2 H]]].
    exists s2, caps2. split; [eapply is_suffix_trans; eassumption | assumption].
  - destruct (rmatch r1 s caps k) eqn:E.
    + inversion H; subst. apply IH1 in E. exact E.
    + apply IH2 in H. exact H.
  - destruct (rmatch r1 s caps k) eqn:E.
    + inversion H; subst. apply IH1 in E. exact E.
    + exists s, caps. split; [apply is_suffix_refl | assumption].
  - apply star_match_suffix in H. destruct H as [s' [Hs H]].
    exists s', caps. split; assumption.
  - apply IH1 in H. destruct H as [s' [caps' [Hs H]]].
    exists s', ((n, Str.consumed s s') :: caps'). split; assumption.
Qed.
End Suffix.

(** A match splits the text into what it read and the rest. *)
Lemma match_here_split (r : regex) (s : string) (m : match_obj) :
  match_here r s = Some m -> s = whole m ++ rest m.
Proof.
  unfold match_here. intros H. apply rmatch_suffix in H.
  destruct H as [s' [caps' [[pre ->] H]]]. inversion H; subst; simpl.
  rewrite consumed_append. reflexivity.
Qed.

(** ** [findall] *)
Lemma occur_in_order_weaken (l : list string) (s : string) :
  occur_in_order l s -> forall pre, occur_in_order l (pre ++ s).
Proof.
  intros H pre. destruct H as [s | gap h rest l H].
  - constructor.
  - rewrite <- append_assoc. constructor. assumption.
Qed.

Lemma drop_after_match (c : ascii) (s' w rest : string) :
  String c s' = w ++ rest -> (1 <= String.length w)%nat ->
  Str.drop (String.length w - 1) s' = rest.
Proof.
  destruct w as [| d w]; simpl; intros H Hlen; [lia |].
  inversion H; subst. rewrite Nat.sub_0_r. apply drop_append.
Qed.

Lemma findall_from_in_order (r : regex) (s : string) :
  forall skip, occur_in_order (findall_from r skip s) (Str.drop skip s).
Proof.
  induction s as [| c s IH]; intros skip.
  - destruct skip; constructor.
  - destruct skip as [| skip]; simpl; [| apply IH].
    destruct (match_here r (String c s)) as [m |] eqn:E.
    + pose proof (match_here_split _ _ _ E) as Hsplit.
      destruct (whole m) as [| d w] eqn:Hw.
      * change (String c s) with ("" ++ "" ++ String c s). constructor.
        apply (occur_in_order_weaken _ _ (IH 0%nat) (String c "")).
      * replace (String c s) with ("" ++ String d w ++ rest m)
          by (symmetry; exact Hsplit).
        constructor.
        replace (rest m) with (Str.drop (String.length (String d w) - 1) s); [apply IH |].
        eapply drop_after_match; [eassumption | simpl; lia].
    + apply (occur_in_order_weaken _ _ (IH 0%nat) (String c "")).
Qed.

Lemma findall_from_Forall (r : regex) (P : string -> Prop) :
  (forall s m, match_here r s = Some m -> P (whole m)) ->
  forall s skip, Forall P (findall_from r skip s).
Proof.
  intros HP s. induction s as [| c s IH]; intros skip; simpl; [constructor |].
  destruct skip as [| skip]; [| apply IH].
  destruct (match_here r (String c s)) as [m |] eqn:E; [| apply IH].
  constructor; [eapply HP; eassumption | apply IH].
Qed.

(** ** The hashtag pattern *)
Lemma star_match_greedy {R : Type} (p : ascii -> bool) (f : string -> R) (s : string) :
  star_match p s (fun s' => Some (f s')) = Some (f (snd (Str.span p s))).
Proof.
  induction s as [| c s IH]; simpl; [reflexivity |].
  destruct (p c); [| reflexivity].
  rewrite IH. destruct (Str.span p s) as [a b]. reflexivity.
Qed.

Lemma match_here_hashtag (s : string) (m : match_obj) :
  match_here hashtag_regex s = Some m -> is_hashtag (whole m) = true.
Proof.
  unfold match_here, hashtag_regex, Plus. cbn [rmatch].
  destruct s as [| c [| d s]]; try discriminate.
  - destruct (is_char "#" c); discriminate.
  - unfold is_char at 1. destruct (Ascii.eqb "#" c) eqn:Ec; [| discriminate].
    destruct (Str.is_word d) eqn:Ed; [| discriminate].
    rewrite (star_match_greedy Str.is_word
               (fun s' => MatchObj (Str.consumed (String c (String d s)) s') [] s')).
    intros H. inversion H; subst; clear H. cbn [whole].
    rewrite (span_append Str.is_word s) at 1.
    change (String c (String d (fst (Str.span Str.is_word s) ++ snd (Str.span Str.is_word s))))
      with (String c (String d (fst (Str.span Str.is_word s))) ++ snd (Str.span Str.is_word s)).
    rewrite consumed_append. cbn [is_hashtag].
    rewrite Ascii.eqb_sym, Ec, Ed, span_forallb. reflexivity.
Qed.

Lemma findall_hashtags (s : string) :
  Forall (fun h => is_hashtag h = true) (findall hashtag_regex s)
  /\ occur_in_order (findall hashtag_regex s) s.
Proof.
  split.
  - apply findall_from_Forall. apply match_here_hashtag.
  - apply (findall_from_in_order hashtag_regex s 0).
Qed.

Local Open Scope list_scope.

(** ** Facts on the deduplication *)
Lemma cell_eqb_eq (a b : cell) : cell_eqb a b = true <-> a = b.
Proof.
  destruct a as [s | | [p1 p2] | m], b as [t | | [q1 q2] | n]; simpl;
    try (split; intros H; [discriminate H | inversion H]; fail).
  - rewrite String.eqb_eq. split; [intros ->; reflexivity | intros H; inversion H; auto].
  - split; reflexivity.
  - rewrite andb_true_iff, Z.eqb_eq, Pos.eqb_eq. split.
    + intros [-> ->]; reflexivity.
    + intros H; inversion H; auto.
  - rewrite Bool.eqb_true_iff. split; [intros ->; reflexivity | intros H; inversion H; auto].
Qed.

Lemma key_eqb_eq (a b : cell * cell) : key_eqb a b = true <-> a = b.
Proof.
  destruct a as [a1 a2], b as [b1 b2]; unfold key_eqb; simpl.
  rewrite andb_true_iff, !cell_eqb_eq. split.
  - intros [-> ->]; reflexivity.
  - intros H; inversion H; auto.
Qed.

Lemma seen_key_In (k : cell * cell) (seen : list (cell * cell)) :
  seen_key k seen = true <-> In k seen.
Proof.
  unfold seen_key. rewrite existsb_exists. split.
  - intros [x [Hin Heq]]. apply key_eqb_eq in Heq. subst; assumption.
  - intros Hin. exists k. split; [assumption | apply key_eqb_eq; reflexivity].
Qed.

Lemma same_members_cons k s1 s2 :
  same_members s1 s2 -> same_members (k :: s1) (k :: s2).
Proof. intros H x. exact (f_equal (orb (key_eqb x k)) (H x)). Qed.

Lemma drop_duplicates_from_ext (df : DataFrame) :
  forall s1 s2, same_members s1 s2 ->
  drop_duplicates_from s1 df = drop_duplicates_from s2 df.
Proof.
  induction df as [| r rest IH]; intros s1 s2 H; simpl; [reflexivity |].
  rewrite <- (H (dedup_key r)).
  destruct (seen_key (dedup_key r) s1).
  - apply IH; assumption.
  - f_equal. apply IH. apply same_members_cons; assumption.
Qed.

#[local] Arguments seen_key : simpl never.

Lemma seen_key_app k s1 s2 :
  seen_key k (s1 ++ s2) = (seen_key k s1 || seen_key k s2)%bool.
Proof. unfold seen_key. apply existsb_app. Qed.

Lemma seen_key_cons k x s :
  seen_key k (x :: s) = (key_eqb k x || seen_key k s)%bool.
Proof. reflexivity. Qed.

Lemma seen_key_absorb k x s :
  seen_key x s = true -> (key_eqb k x || seen_key k s)%bool = seen_key k s.
Proof.
  intros Hx. destruct (key_eqb k x) eqn:E; [| reflexivity].
  apply key_eqb_eq in E. subst k. rewrite Hx. reflexivity.
Qed.

Lemma drop_duplicates_from_app (l1 : DataFrame) :
  forall seen l2,
  drop_duplicates_from seen (l1 ++ l2)
  = drop_duplicates_from seen l1
    ++ drop_duplicates_from (map dedup_key l1 ++ seen) l2.
Proof.
  induction l1 as [| r rest IH]; intros seen l2; simpl; [reflexivity |].
  destruct (seen_key (dedup_key r) seen) eqn:Hseen.
  - rewrite IH. f_equal. apply drop_duplicates_from_ext. intros k.
    rewrite seen_key_cons, !seen_key_app.
    destruct (key_eqb k (dedup_key r)) eqn:E; [| reflexivity].
    apply key_eqb_eq in E. subst k. rewrite Hseen. simpl. apply orb_true_r.
  - simpl. f_equal. rewrite IH. f_equal. apply drop_duplicates_from_ext. intros k.
    rewrite seen_key_cons, !seen_key_app, seen_key_cons.
    destruct (key_eqb k (dedup_key r)), (seen_key k (map dedup_key rest)),
      (seen_key k seen); reflexivity.
Qed.

(** The rows that survive carry keys that were not seen, each once. *)
Lemma drop_duplicates_from_keys (df : DataFrame) :
  forall seen,
  NoDup (map dedup_key (drop_duplicates_from seen df))
  /\ (forall r, In r (drop_duplicates_from seen df) ->
        seen_key (dedup_key r) seen = false /\ In r df).
Proof.
  induction df as [| r rest IH]; intros seen; simpl.
  - split; [constructor | intros ? []].
  - destruct (seen_key (dedup_key r) seen) eqn:Hseen.
    + destruct (IH seen) as [Hnd Hin]. split; [assumption |].
      intros x Hx. destruct (Hin x Hx). auto.
    + destruct (IH (dedup_key r :: seen)) as [Hnd Hin]. split.
      * simpl. constructor; [| assumption].
        intros Hmem. apply in_map_iff in Hmem. destruct Hmem as [x [Hkey Hx]].
        destruct (Hin x Hx) as [Hfresh _].
        assert (seen_key (dedup_key x) (dedup_key r :: seen) = true) as Habs.
        { apply seen_key_In. left. symmetry. assumption. }
        congruence.
      * intros x [-> | Hx]; [auto |].
        destruct (Hin x Hx) as [Hfresh Hrest]. split; [| auto].
        destruct (seen_key (dedup_key x) seen) eqn:E; [| reflexivity].
        assert (seen_key (dedup_key x) (dedup_key r :: seen) = true) as Habs.
        { apply seen_key_In. right. apply seen_key_In. assumption. }
        congruence.
Qed.

(** Rows with fresh, distinct keys all survive. *)
Lemma drop_duplicates_from_fixed (df : DataFrame) :
  forall seen,
  NoDup (map dedup_key df) ->
  (forall r, In r df -> seen_key (dedup_key r) seen = false) ->
  drop_duplicates_from seen df = df.
Proof.
  induction df as [| r rest IH]; intros seen Hnd Hfresh; simpl; [reflexivity |].
  rewrite (Hfresh r (or_introl eq_refl)). f_equal.
  simpl in Hnd. inversion Hnd as [| ? ? Hnotin Hnd']; subst.
  apply IH; [assumption |].
  intros x Hx.
  destruct (seen_key (dedup_key x) (dedup_key r :: seen)) eqn:E; [| reflexivity].
  apply seen_key_In in E. destruct E as [E | E].
  - exfalso. apply Hnotin. rewrite E. apply in_map. assumption.
  - apply seen_key_In in E. rewrite (Hfresh x (or_intror Hx)) in E. discriminate.
Qed.

(** Rows whose keys were all seen all go. *)
Lemma drop_duplicates_from_absorbed (df : DataFrame) :
  forall seen,
  (forall r, In r df -> seen_key (dedup_key r) seen = true) ->
  drop_duplicates_from seen df = [].
Proof.
  induction df as [| r rest IH]; intros seen Hseen; simpl; [reflexivity |].
  rewrite (Hseen r (or_introl eq_refl)). apply IH.
  intros x Hx. apply Hseen. right. assumption.
Qed.

(** Deduplication forgets no key. *)
Lemma drop_duplicates_from_covers (df : DataFrame) :
  forall seen k,
  seen_key k (map dedup_key (drop_duplicates_from seen df) ++ seen)
  = seen_key k (map dedup_key df ++ seen).
Proof.
  induction df as [| r rest IH]; intros seen k; simpl; [reflexivity |].
  destruct (seen_key (dedup_key r) seen) eqn:Hseen.
  - rewrite IH, seen_key_cons, !seen_key_app.
    destruct (key_eqb k (dedup_key r)) eqn:E; [| reflexivity].
    apply key_eqb_eq in E. subst k. rewrite Hseen. simpl. apply orb_true_r.
  - simpl. rewrite !seen_key_cons.
    pose proof (IH (dedup_key r :: seen) k) as H.
    rewrite !seen_key_app, !seen_key_cons in H. rewrite !seen_key_app.
    destruct (key_eqb k (dedup_key r)); [reflexivity |].
    destruct (seen_key k (map dedup_key (drop_duplicates_from (dedup_key r :: seen) rest))),
      (seen_key k (map dedup_key rest)), (seen_key k seen);
      simpl in *; congruence.
Qed.

Lemma key_eqb_sym a b : key_eqb a b = key_eqb b a.
Proof.
  destruct (key_eqb a b) eqn:E1, (key_eqb b a) eqn:E2; try reflexivity.
  - apply key_eqb_eq in E1. subst.
    assert (key_eqb b b = true) by (apply key_eqb_eq; reflexivity). congruence.
  - apply key_eqb_eq in E2. subst.
    assert (key_eqb a a = true) by (apply key_eqb_eq; reflexivity). congruence.
Qed.

(** The first row of each unseen key is the one kept. *)
Lemma drop_duplicates_from_first (df : DataFrame) :
  forall seen k,
  find (has_key k) (drop_duplicates_from seen df)
  = if seen_key k seen then None else find (has_key k) df.
Proof.
  induction df as [| r rest IH]; intros seen k; simpl.
  - destruct (seen_key k seen); reflexivity.
  - destruct (seen_key (dedup_key r) seen) eqn:Hseen.
    + rewrite IH. destruct (seen_key k seen) eqn:Hk; [reflexivity |].
      unfold has_key at 2. destruct (key_eqb (dedup_key r) k) eqn:E; [| reflexivity].
      apply key_eqb_eq in E. congruence.
    + simpl. unfold has_key at 1 3.
      destruct (key_eqb (dedup_key r) k) eqn:E.
      * apply key_eqb_eq in E. subst k. rewrite Hseen. reflexivity.
      * rewrite IH, seen_key_cons, key_eqb_sym, E. reflexivity.
Qed.

Lemma merge_cumulative_idempotent (df_existing df_new : DataFrame) :
  merge_cumulative (merge_cumulative df_existing df_new) df_new
  = merge_cumulative df_existing df_new.
Proof.
  unfold merge_cumulative, drop_duplicates.
  set (m := drop_duplicates_from [] (df_existing ++ df_new)).
  rewrite drop_duplicates_from_app.
  assert (drop_duplicates_from [] m = m) as ->.
  { apply drop_duplicates_from_fixed.
    - apply (drop_duplicates_from_keys (df_existing ++ df_new) []).
    - intros; reflexivity. }
  rewrite drop_duplicates_from_absorbed; [apply app_nil_r |].
  intros r Hr. unfold m. rewrite drop_duplicates_from_covers.
  apply seen_key_In. rewrite app_nil_r, map_app. apply in_or_app. right.
  apply in_map. assumption.
Qed.

(** A row whose key is not the key of a record is kept beside it. *)
Lemma merge_cumulative_unmatched (stored : Row) (r : PostRecord) :
  dedup_key stored <> key_of_record r ->
  merge_cumulative [stored] [Fresh r] = [stored; Fresh r].
Proof.
  intros Hkey. unfold merge_cumulative, drop_duplicates.
  cbn [app drop_duplicates_from]. unfold seen_key. cbn [existsb orb].
  change (dedup_key (Fresh r)) with (key_of_record r).
  destruct (key_eqb (key_of_record r) (dedup_key stored)) eqn:E; [| reflexivity].
  apply key_eqb_eq in E. exfalso. apply Hkey. symmetry. exact E.
Qed.

Lemma NoDup_twice {A : Type} (x : A) (l : list A) : ~ NoDup (x :: x :: l).
Proof. intros H. inversion H as [| ? ? Hnotin _]; subst. apply Hnotin. left. reflexivity. Qed.

(** C5. Where the cumulative file exists, the merge deduplicates the
    rows it has before it, those that [pd.read_csv] gave and then those
    of the session, on (post text, profile name), keeping the first: the
    merged frame has no two rows with the same key, for each key it holds
    the first row of that key, so a row read from the file keeps its
    place, and merging the session rows into the merged frame once more
    changes nothing. The cumulative dataset can hold a post twice all the
    same. Without a cumulative file the session rows are returned
    and written as they are, two rows of one key both staying: a run over
    a list that names one profile twice leaves every post of it twice in
    the cumulative dataset. And a row that does not have, as read from
    the file, the texts of the record it was written from is not taken
    for that record: the record is added again beside it. *)
Theorem C5_cumulative_dataset_keeps_duplicates
        (self : Scraper) (df_existing : DataFrame) (all_posts : list PostRecord) :
  let df_new := map Fresh all_posts in
  let merged := merge_cumulative df_existing df_new in
  NoDup (map dedup_key merged)
  /\ (forall r, In r merged -> In r (df_existing ++ df_new))
  /\ (forall k, find (has_key k) merged = find (has_key k) (df_existing ++ df_new))
  /\ (forall k r, find (has_key k) df_existing = Some r -> find (has_key k) merged = Some r)
  /\ merge_cumulative merged df_new = merged
  /\ (all_posts <> [] ->
      write_datasets self all_posts (mkFiles (Some df_existing))
      = ((df_new, merged), [(session_file self, df_new); (output_file, merged)]))
  /\ (all_posts <> [] ->
      write_datasets self all_posts (mkFiles None)
      = ((df_new, df_new), [(session_file self, df_new); (output_file, df_new)]))
  /\ (forall r,
        snd (fst (write_datasets self [r; r] (mkFiles None))) = [Fresh r; Fresh r]
        /\ ~ NoDup (map dedup_key (snd (fst (write_datasets self [r; r] (mkFiles None))))))
  /\ (forall stored r,
        dedup_key stored <> key_of_record r ->
        merge_cumulative [stored] [Fresh r] = [stored; Fresh r])
  /\ (let run := scrape_multiple_profiles (Sample.scraper 5) Sample.web true Sample.no_files
                   ["https://www.linkedin.com/in/jane-doe"%string;
                    "https://www.linkedin.com/in/jane-doe"%string] in
      List.length (snd (fst run)) = 4%nat
      /\ List.length (drop_duplicates (snd (fst run))) = 2%nat
      /\ In (output_file, snd (fst run)) (snd run)).
Proof.
  intros df_new merged. unfold merged, merge_cumulative, drop_duplicates.
  destruct (drop_duplicates_from_keys (df_existing ++ df_new) []) as [Hnd Hin].
  assert (forall k, find (has_key k) (drop_duplicates_from [] (df_existing ++ df_new))
                    = find (has_key k) (df_existing ++ df_new)) as Hfirst.
  { intros k. rewrite drop_duplicates_from_first. reflexivity. }
  split; [exact Hnd |].
  split; [intros r Hr; apply (Hin r Hr) |].
  split; [exact Hfirst |].
  split.
  { intros k r Hr. rewrite Hfirst.
    clear - Hr. induction df_existing as [| x rest IH]; simpl in *; [discriminate |].
    destruct (has_key k x); [assumption | auto]. }
  split; [apply merge_cumulative_idempotent |].
  split.
  { intros Hne. unfold df_new. destruct all_posts; [congruence | reflexivity]. }
  split.
  { intros Hne. unfold df_new. destruct all_posts; [congruence | reflexivity]. }
  split.
  { intros r. split; [reflexivity |]. apply NoDup_twice. }
  split; [apply merge_cumulative_unmatched |].
  vm_compute. repeat split. right. left. reflexivity.
Qed.

(** A post with the text NA, once read from the file as a missing
    value, is added again by the run that scrapes it again. *)
Lemma C5_cumulative_dataset_keeps_duplicates_witness :
  merge_cumulative [Stored Missing (Text "Jane Doe"%string) []]
                   [Fresh (Sample.post_reading "NA"%string)]
  = [Stored Missing (Text "Jane Doe"%string) []; Fresh (Sample.post_reading "NA"%string)].
Proof.
  destruct (C5_cumulative_dataset_keeps_duplicates
              (Sample.scraper 5) [] [Sample.post_reading "NA"%string])
    as [_ [_ [_ [_ [_ [_ [_ [_ [Hkept _]]]]]]]]].
  apply Hkept. discriminate.
Defined.

(** ** The locator *)
Lemma locate_cons (page : Page) (s : string) (rest : list string) :
  locate page (s :: rest)
  = match find_elements page s with
    | [] => locate page rest
    | p :: ps => firstn 15 (p :: ps)
    end.
Proof. reflexivity. Qed.

Lemma locate_first_match (page : Page) (selectors : list string) :
  (locate page selectors = []
   /\ forall s, In s selectors -> find_elements page s = [])
  \/ exists before selector after,
       selectors = before ++ selector :: after
       /\ (forall s, In s before -> find_elements page s = [])
       /\ find_elements page selector <> []
       /\ locate page selectors = firstn 15 (find_elements page selector).
Proof.
  induction selectors as [| s rest IH].
  - left. split; [reflexivity | intros ? []].
  - rewrite locate_cons. destruct (find_elements page s) as [| p ps] eqn:E.
    + destruct IH as [[Hnil Hall] | [before [sel [after [Hsplit [Hbefore [Hne Hloc]]]]]]].
      * left. split; [assumption |]. intros x [<- | Hx]; auto.
      * right. exists (s :: before), sel, after. repeat split.
        -- simpl. f_equal. assumption.
        -- intros x [<- | Hx]; auto.
        -- assumption.
        -- assumption.
    + right. exists [], s, rest. rewrite E. repeat split.
      * intros ? [].
      * discriminate.
Qed.

Lemma locate_length (page : Page) (selectors : list string) :
  (List.length (locate page selectors) <= 15)%nat.
Proof.
  induction selectors as [| s rest IH]; [simpl; lia |].
  rewrite locate_cons.
  destruct (find_elements page s) as [| p ps]; [assumption |].
  apply firstn_le_length.
Qed.

(** C8. The locator tries its container selectors in order and takes its
    candidates from the first selector that has any match, never from two
    selectors, and it keeps at most the first fifteen of them: either no
    selector matches and there is no candidate, or the candidates are the
    first fifteen matches of one selector, all selectors before it having
    none. *)
Theorem C8_locate_first_selector_first_fifteen (page : Page) :
  (List.length (locate page post_selectors) <= 15)%nat
  /\ ((locate page post_selectors = []
       /\ forall s, In s post_selectors -> find_elements page s = [])
      \/ exists before selector after,
           post_selectors = before ++ selector :: after
           /\ (forall s, In s before -> find_elements page s = [])
           /\ find_elements page selector <> []
           /\ locate page post_selectors = firstn 15 (find_elements page selector)).
Proof.
  split; [apply locate_length | apply locate_first_match].
Qed.

Lemma C8_locate_first_selector_first_fifteen_witness :
  (List.length (locate Sample.page post_selectors) <= 15)%nat.
Proof.
  exact (proj1 (C8_locate_first_selector_first_fifteen Sample.page)).
Defined.

(** ** The loop over the candidates *)
Lemma extract_loop_spec (self : Scraper) (page : Page) (posts : list WebElement) :
  forall i post_data post_count,
  extract_loop self page i posts post_data post_count
  = post_data
    ++ firstn (Z.to_nat (Z.max 1 (self_max_posts self - post_count)))
              (records_of self page i posts).
Proof.
  induction posts as [| post rest IH]; intros i post_data post_count; simpl.
  - rewrite firstn_nil, app_nil_r. reflexivity.
  - destruct (process_post self page i post) as [[record |] | e]; try apply IH.
    destruct (Z.geb_spec (post_count + 1) (self_max_posts self)) as [Hge | Hlt].
    + replace (Z.to_nat (Z.max 1 (self_max_posts self - post_count))) with 1%nat by lia.
      simpl. reflexivity.
    + rewrite IH, <- app_assoc. simpl. f_equal.
      replace (Z.to_nat (Z.max 1 (self_max_posts self - post_count)))
        with (S (Z.to_nat (Z.max 1 (self_max_posts self - (post_count + 1))))) by lia.
      reflexivity.
Qed.

Lemma extract_posts_spec (self : Scraper) (page : Page) (post_data : list PostRecord) :
  extract_posts self page = Ok post_data ->
  post_data = []
  \/ post_data = firstn (Z.to_nat (Z.max 1 (self_max_posts self)))
                        (records_of self page 0 (locate page post_selectors)).
Proof.
  unfold extract_posts, bind.
  destruct (shot self page "before_extraction") as [[] | e].
  - destruct (locate page post_selectors) as [| p ps] eqn:E.
    + destruct (shot self page "no_posts") as [[] | e].
      * intros H; inversion H; auto.
      * destruct (shot self page "extraction_error") as [[] | e'];
          intros H; inversion H; auto.
    + intros H. right.
      assert (extract_loop self page 0 (p :: ps) [] 0 = post_data) as <- by congruence.
      rewrite extract_loop_spec, Z.sub_0_r. reflexivity.
  - destruct (shot self page "extraction_error") as [[] | e'];
      intros H; inversion H; auto.
Qed.

(** C10 (amended). [extract_posts] returns at most [max (max_posts, 1)]
    records, so at most [max_posts] of them whenever [max_posts] is at
    least 1: the limit is tested after a record is appended. The records
    returned are the first [max (max_posts, 1)] of those that the located
    containers, at most fifteen, give in order, and no later one. *)
Theorem C10_at_most_max_posts (self : Scraper) (page : Page) (post_data : list PostRecord) :
  extract_posts self page = Ok post_data ->
  (post_data = []
   \/ post_data = firstn (Z.to_nat (Z.max 1 (self_max_posts self)))
                         (records_of self page 0 (locate page post_selectors)))
  /\ (List.length (locate page post_selectors) <= 15)%nat
  /\ (Z.of_nat (List.length post_data) <= Z.max 1 (self_max_posts self))%Z
  /\ (1 <= self_max_posts self -> Z.of_nat (List.length post_data) <= self_max_posts self)%Z.
Proof.
  intros H. apply extract_posts_spec in H.
  assert (Z.of_nat (List.length post_data) <= Z.max 1 (self_max_posts self))%Z as Hlen.
  { destruct H as [-> | ->]; [simpl; lia |].
    pose proof (firstn_le_length (Z.to_nat (Z.max 1 (self_max_posts self)))
                 (records_of self page 0 (locate page post_selectors))). lia. }
  repeat split; try assumption; [apply locate_length | lia].
Qed.

Lemma C10_at_most_max_posts_witness :
  exists r, extract_posts (Sample.scraper 1) Sample.page = Ok [r]
            /\ (Z.of_nat (List.length [r]) <= 1)%Z.
Proof.
  assert (exists r, extract_posts (Sample.scraper 1) Sample.page = Ok [r]) as [r E]
      by (eexists; vm_compute; reflexivity).
  exists r. split; [exact E |].
  refine (proj2 (proj2 (proj2 (C10_at_most_max_posts (Sample.scraper 1) Sample.page [r] E))) _).
  simpl. lia.
Defined.

(** With the limit 0 the page of the scenario still gives one record. *)
Lemma C10_counterexample_limit_zero :
  ~ (forall self page post_data,
       extract_posts self page = Ok post_data ->
       (Z.of_nat (List.length post_data) <= self_max_posts self)%Z).
Proof.
  intros H.
  assert (exists r, extract_posts (Sample.scraper 0) Sample.page = Ok [r]) as [r E]
      by (eexists; vm_compute; reflexivity).
  specialize (H (Sample.scraper 0) Sample.page [r] E). simpl in H. lia.
Qed.

(** ** The loop over the profiles *)
Lemma scrape_all_spec (self : Scraper) (web : Web) (profile_urls : list string) :
  forall logged_in all_posts,
  scrape_all self web logged_in profile_urls all_posts
  = all_posts ++ List.concat (profile_results self web logged_in profile_urls).
Proof.
  induction profile_urls as [| url rest IH]; intros logged_in all_posts; simpl.
  - rewrite app_nil_r. reflexivity.
  - destruct (scrape_profile self web logged_in url) as [profile_posts logged_in'].
    simpl. rewrite IH, app_assoc. reflexivity.
Qed.

Lemma profile_results_length (self : Scraper) (web : Web) (profile_urls : list string) :
  forall logged_in,
  List.length (profile_results self web logged_in profile_urls) = List.length profile_urls.
Proof.
  induction profile_urls as [| url rest IH]; intros logged_in; simpl; [reflexivity |].
  rewrite IH. reflexivity.
Qed.

Lemma scrape_profile_failed (self : Scraper) (web : Web) (logged_in : bool) (url : string) :
  fst (navigate_to_profile self web logged_in url) <> Ok true ->
  fst (scrape_profile self web logged_in url) = [].
Proof.
  unfold scrape_profile.
  destruct (navigate_to_profile self web logged_in url) as [[[|] | e] logged_in'];
    simpl; intros H; [congruence | reflexivity | reflexivity].
Qed.

(** C9 (amended). Failures are contained at the narrowest scope. A
    container whose handling raises is skipped and the loop goes on with
    the containers after it, the records so far being kept. A profile whose
    navigation fails gives no record and the loop goes on with the profiles
    after it. Every profile is visited, and the run returns the records of
    all profiles, in order, paired with the cumulative dataset; it returns
    no list of statuses per profile. *)
Theorem C9_failures_are_contained
        (self : Scraper) (web : Web) (files : Files)
        (page : Page) (i : nat) (post : WebElement) (posts : list WebElement)
        (post_data : list PostRecord) (post_count : Z) (e : exn)
        (logged_in : bool) (url : string) (profile_urls : list string)
        (all_posts : list PostRecord) :
  process_post self page i post = Raise e ->
  fst (navigate_to_profile self web logged_in url) <> Ok true ->
  extract_loop self page i (post :: posts) post_data post_count
  = extract_loop self page (S i) posts post_data post_count
  /\ fst (scrape_profile self web logged_in url) = []
  /\ scrape_all self web logged_in (url :: profile_urls) all_posts
     = scrape_all self web (snd (scrape_profile self web logged_in url))
                  profile_urls all_posts
  /\ List.length (profile_results self web logged_in profile_urls)
     = List.length profile_urls
  /\ fst (fst (scrape_multiple_profiles self web logged_in files profile_urls))
     = map Fresh (List.concat (profile_results self web logged_in profile_urls))
  /\ snd (fst (scrape_multiple_profiles self web logged_in files profile_urls))
     = match List.concat (profile_results self web logged_in profile_urls),
             cumulative_file files with
       | [], _ => []
       | all_posts, Some df_existing => merge_cumulative df_existing (map Fresh all_posts)
       | all_posts, None => map Fresh all_posts
       end.
Proof.
  intros Hraise Hnav. repeat split.
  - simpl. rewrite Hraise. reflexivity.
  - apply scrape_profile_failed; assumption.
  - pose proof (scrape_profile_failed self web logged_in url Hnav) as Hnil.
    simpl. destruct (scrape_profile self web logged_in url) as [profile_posts logged_in'].
    simpl in *. subst. rewrite app_nil_r. reflexivity.
  - apply profile_results_length.
  - unfold scrape_multiple_profiles. rewrite scrape_all_spec. simpl.
    unfold write_datasets.
    destruct (List.concat (profile_results self web logged_in profile_urls)); [reflexivity |].
    destruct (cumulative_file files); reflexivity.
  - unfold scrape_multiple_profiles. rewrite scrape_all_spec. simpl.
    unfold write_datasets.
    destruct (List.concat (profile_results self web logged_in profile_urls)); [reflexivity |].
    destruct (cumulative_file files); reflexivity.
Qed.

Lemma C9_failures_are_contained_witness :
  extract_loop (Sample.debugging_scraper 5) Sample.flaky_page 0
               [Sample.hello; Sample.world] [] 0
  = extract_loop (Sample.debugging_scraper 5) Sample.flaky_page 1 [Sample.world] [] 0
  /\ fst (scrape_profile (Sample.debugging_scraper 5) Sample.web true
                         "https://www.linkedin.com/in/gone") = [].
Proof.
  assert (process_post (Sample.debugging_scraper 5) Sample.flaky_page 0 Sample.hello
          = Raise WebDriverException) as H1 by (vm_compute; reflexivity).
  assert (fst (navigate_to_profile (Sample.debugging_scraper 5) Sample.web true
                 "https://www.linkedin.com/in/gone") <> Ok true) as H2
      by (vm_compute; discriminate).
  destruct (C9_failures_are_contained
              (Sample.debugging_scraper 5) Sample.web Sample.no_files
              Sample.flaky_page 0 Sample.hello [Sample.world] [] 0
              WebDriverException true "https://www.linkedin.com/in/gone" [] [] H1 H2)
    as [A [B _]].
  split; assumption.
Defined.

(** The run over one unreachable profile returns two empty datasets: the
    second component holds no entry for the profile. *)
Lemma C9_counterexample_no_status_list :
  ~ (forall self web logged_in files profile_urls,
       List.length (snd (fst (scrape_multiple_profiles self web logged_in files profile_urls)))
       = List.length profile_urls).
Proof.
  intros H.
  specialize (H (Sample.scraper 5) Sample.web true Sample.no_files
                ["https://www.linkedin.com/in/gone"]).
  vm_compute in H. discriminate.
Qed.

(** ** The classifier *)
Lemma any_text_live (elements : list Node) :
  any_text (map Live elements) = Ok (existsb has_text elements).
Proof.
  induction elements as [| el rest IH]; simpl; [reflexivity |].
  unfold has_text at 1. destruct (negb (Str.is_empty (Str.strip (text el)))).
  - reflexivity.
  - exact IH.
Qed.

Lemma content_found_live (n : Node) (selectors : list string) :
  content_found (Live n) selectors
  = Ok (existsb (fun selector => existsb has_text (query n selector)) selectors).
Proof.
  induction selectors as [| selector rest IH]; simpl; [reflexivity |].
  rewrite any_text_live. simpl.
  destruct (existsb has_text (query n selector)); [reflexivity | exact IH].
Qed.

Lemma is_original_post_live (n : Node) :
  is_original_post (Live n)
  = (negb (existsb (activity_at_start (Str.lower (text n))) activity_texts)
     && existsb (fun selector => existsb has_text (query n selector))
                classifier_content_selectors)%bool.
Proof.
  unfold is_original_post. cbn [element_text bind].
  destruct (existsb (activity_at_start (Str.lower (text n))) activity_texts);
    [reflexivity |].
  rewrite content_found_live. reflexivity.
Qed.

Lemma is_empty_false (s : string) : Str.is_empty s = false <-> s <> "".
Proof. destruct s; simpl; split; congruence. Qed.

(** C6. The classifier answers "not original" for every container whose
    lower-cased text starts with an activity phrase, or has one at the
    start of a line within its first fifty characters, such as a container
    that starts "liked a post"; "original" for a container without such a
    phrase in which some content selector finds an element whose stripped
    text is not empty; and "not original" for a container without such a
    phrase in which no content selector finds one. A handle that cannot be
    read is "not original" too. *)
Theorem C6_classifier :
  (forall post t activity,
      element_text post = Ok t ->
      In activity activity_texts ->
      Str.startswith activity (Str.lower t) = true
      \/ Str.contains (newline ++ activity)%string (Str.take 50 (Str.lower t)) = true ->
      is_original_post post = false)
  /\ (forall n rest, text n = ("liked a post" ++ rest)%string ->
                     is_original_post (Live n) = false)
  /\ (forall n selector el,
         (forall activity, In activity activity_texts ->
                           activity_at_start (Str.lower (text n)) activity = false) ->
         In selector classifier_content_selectors ->
         In el (query n selector) ->
         Str.strip (text el) <> "" ->
         is_original_post (Live n) = true)
  /\ (forall n,
         (forall activity, In activity activity_texts ->
                           activity_at_start (Str.lower (text n)) activity = false) ->
         (forall selector el, In selector classifier_content_selectors ->
                              In el (query n selector) -> Str.strip (text el) = "") ->
         is_original_post (Live n) = false)
  /\ is_original_post Stale = false.
Proof.
  assert (forall n, (forall activity, In activity activity_texts ->
                       activity_at_start (Str.lower (text n)) activity = false) ->
                    existsb (activity_at_start (Str.lower (text n))) activity_texts = false)
    as Hquiet.
  { intros n H. destruct (existsb _ activity_texts) eqn:E; [| reflexivity].
    apply existsb_exists in E. destruct E as [a [Hin Ha]].
    rewrite (H a Hin) in Ha. discriminate. }
  assert (forall post t activity,
      element_text post = Ok t ->
      In activity activity_texts ->
      Str.startswith activity (Str.lower t) = true
      \/ Str.contains (newline ++ activity)%string (Str.take 50 (Str.lower t)) = true ->
      is_original_post post = false) as Hactivity.
  { intros post t activity Ht Hin Hstart.
    unfold is_original_post. rewrite Ht. cbn [bind].
    replace (existsb (activity_at_start (Str.lower t)) activity_texts) with true;
      [reflexivity |].
    symmetry. apply existsb_exists. exists activity. split; [assumption |].
    unfold activity_at_start. apply orb_true_iff. assumption. }
  repeat split.
  - exact Hactivity.
  - intros n rest Hn.
    apply (Hactivity (Live n) (text n) "liked"); [reflexivity | simpl; auto |].
    left. rewrite Hn. reflexivity.
  - intros n selector el Hq Hsel Hel Htext.
    rewrite is_original_post_live, (Hquiet n Hq). cbn [negb andb].
    apply existsb_exists. exists selector. split; [assumption |].
    apply existsb_exists. exists el. split; [assumption |].
    unfold has_text. apply negb_true_iff. apply is_empty_false. assumption.
  - intros n Hq Hnone.
    rewrite is_original_post_live, (Hquiet n Hq). cbn [negb andb].
    destruct (existsb _ classifier_content_selectors) eqn:E; [| reflexivity].
    apply existsb_exists in E. destruct E as [selector [Hsel E]].
    apply existsb_exists in E. destruct E as [el [Hel E]].
    unfold has_text in E. rewrite (Hnone selector el Hsel Hel) in E. discriminate.
Qed.

Lemma C6_classifier_witness :
  is_original_post Sample.reshare = false /\ is_original_post Sample.hello = true.
Proof.
  destruct C6_classifier as [_ [Hliked [Horiginal _]]]. split.
  - apply (Hliked _ ""). reflexivity.
  - apply (Horiginal _ ".feed-shared-text" (Sample.text_node "Hello #AI #Tech")).
    + intros activity Hin. each_member Hin.
    + simpl. auto.
    + simpl. auto.
    + discriminate.
Defined.

(** ** Where the records come from *)
Lemma process_post_fields (self : Scraper) (page : Page) (i : nat) (post : WebElement)
      (r : PostRecord) :
  process_post self page i post = Ok (Some r) ->
  is_original_post post = true
  /\ post_text r = extract_post_text post
  /\ post_date_text r = extract_post_date post
  /\ (reactions r, comments r, reposts r) = extract_engagement post
  /\ total_engagement r = Num.add (Num.add (reactions r) (comments r)) (reposts r)
  /\ hashtags r = Str.join ", " (findall hashtag_regex (post_text r))
  /\ hashtag_count r = List.length (findall hashtag_regex (post_text r))
  /\ post_date r = unknown_or format_timestamp (parse_date (clock page i) (post_date_text r))
  /\ day_of_week r = unknown_or format_weekday (parse_date (clock page i) (post_date_text r))
  /\ hour_of_day r = unknown_or format_hour (parse_date (clock page i) (post_date_text r)).
Proof.
  unfold process_post, bind.
  destruct (shot self page _) as [[] | e]; [| discriminate].
  destruct (is_original_post post); [| discriminate]. cbn [negb].
  destruct (extract_engagement post) as [[a b] c].
  destruct (current_url page) as [url | e]; [| discriminate].
  intros H. injection H as <-. cbn. repeat split.
Qed.

Lemma In_firstn {A : Type} (x : A) (n : nat) (l : list A) :
  In x (firstn n l) -> In x l.
Proof.
  intros H. rewrite <- (firstn_skipn n l). apply in_or_app. left. assumption.
Qed.

Lemma records_of_In (self : Scraper) (page : Page) (r : PostRecord)
      (posts : list WebElement) :
  forall i, In r (records_of self page i posts) ->
  exists j post, In post posts /\ process_post self page j post = Ok (Some r).
Proof.
  induction posts as [| post rest IH]; intros i H; simpl in H; [destruct H |].
  destruct (process_post self page i post) as [[record |] | e] eqn:E.
  - destruct H as [-> | H].
    + exists i, post. split; [left; reflexivity | assumption].
    + destruct (IH _ H) as [j [p [Hin Hp]]]. exists j, p. split; [right |]; assumption.
  - destruct (IH _ H) as [j [p [Hin Hp]]]. exists j, p. split; [right |]; assumption.
  - destruct (IH _ H) as [j [p [Hin Hp]]]. exists j, p. split; [right |]; assumption.
Qed.

Lemma extract_posts_In (self : Scraper) (page : Page) (post_data : list PostRecord)
      (r : PostRecord) :
  extract_posts self page = Ok post_data -> In r post_data ->
  exists j post, In post (locate page post_selectors)
                 /\ process_post self page j post = Ok (Some r).
Proof.
  intros H Hin. apply extract_posts_spec in H. destruct H as [-> | ->]; [destruct Hin |].
  apply In_firstn in Hin. eapply records_of_In. eassumption.
Qed.

(** C7 (amended). In every record the hashtags field lists, joined by a
    comma and a space, every match of the hashtag pattern in the post text,
    in the order in which the matches appear and with repetitions kept, and
    the hashtag count is the number of these matches; each is a [#] and
    the word characters after it. A post with the text "Hello #AI #Tech"
    gets the hashtags "#AI, #Tech" and the count 2. *)
Theorem C7_hashtags_in_order_of_appearance
        (self : Scraper) (page : Page) (post_data : list PostRecord) (r : PostRecord) :
  extract_posts self page = Ok post_data ->
  In r post_data ->
  hashtags r = Str.join ", " (findall hashtag_regex (post_text r))
  /\ hashtag_count r = List.length (findall hashtag_regex (post_text r))
  /\ Forall (fun h => is_hashtag h = true) (findall hashtag_regex (post_text r))
  /\ occur_in_order (findall hashtag_regex (post_text r)) (post_text r)
  /\ (post_text r = "Hello #AI #Tech" ->
      hashtags r = "#AI, #Tech" /\ hashtag_count r = 2%nat).
Proof.
  intros H Hin. destruct (extract_posts_In _ _ _ _ H Hin) as [j [post [_ Hp]]].
  apply process_post_fields in Hp.
  destruct Hp as [_ [_ [_ [_ [_ [Htags [Hcount _]]]]]]].
  destruct (findall_hashtags (post_text r)) as [Hshape Horder].
  split; [assumption |]. split; [assumption |].
  split; [assumption |]. split; [assumption |].
  intros Htext. rewrite Htags, Hcount, Htext. split; reflexivity.
Qed.

Lemma C7_hashtags_in_order_of_appearance_witness :
  exists r r', extract_posts (Sample.scraper 5) Sample.page = Ok [r; r']
               /\ hashtags r = "#AI, #Tech" /\ hashtag_count r = 2%nat.
Proof.
  assert (exists r r', extract_posts (Sample.scraper 5) Sample.page = Ok [r; r']
                       /\ post_text r = "Hello #AI #Tech") as [r [r' [E Htext]]].
  { do 2 eexists. split; [vm_compute; reflexivity | reflexivity]. }
  exists r, r'. split; [exact E |].
  exact (proj2 (proj2 (proj2 (proj2
           (C7_hashtags_in_order_of_appearance
              (Sample.scraper 5) Sample.page [r; r'] r E (or_introl eq_refl)))))
           Htext).
Defined.

(** A post whose text is "#AI #AI" gets the hashtags "#AI, #AI" and the
    count 2: the repetition is kept. *)
Lemma C7_counterexample_repeated_hashtag :
  ~ (forall self page post_data r,
       extract_posts self page = Ok post_data -> In r post_data ->
       NoDup (findall hashtag_regex (post_text r))).
Proof.
  intros H.
  assert (exists r, extract_posts (Sample.scraper 5) Sample.repeating_page = Ok [r]
                    /\ post_text r = "#AI #AI"
                    /\ hashtags r = "#AI, #AI" /\ hashtag_count r = 2%nat)
    as [r [E [Htext _]]].
  { eexists. split; [vm_compute; reflexivity | repeat split]. }
  specialize (H (Sample.scraper 5) Sample.repeating_page [r] r E (or_introl eq_refl)).
  rewrite Htext in H. vm_compute in H.
  inversion H as [| ? ? Hnotin _]. apply Hnotin. left. reflexivity.
Qed.

Local Open Scope Z_scope.

(** ** Decimal numerals *)
Lemma string_of_uint_digits (d : Decimal.uint) :
  Str.forallb Str.is_digit (NilEmpty.string_of_uint d) = true.
Proof. induction d; simpl; auto. Qed.

Lemma int_of_digits_from_uint (d : Decimal.uint) :
  forall acc : nat,
  Str.int_of_digits_from (Z.of_nat acc) (NilEmpty.string_of_uint d)
  = Z.of_nat (Nat.of_uint_acc d acc).
Proof.
  induction d; intros acc; cbn [NilEmpty.string_of_uint Str.int_of_digits_from Nat.of_uint_acc];
    [reflexivity | ..];
    rewrite <- IHd; f_equal; rewrite Nat.tail_mul_spec;
    match goal with
    | |- context [Str.digit_value ?c] =>
        let v := eval vm_compute in (Str.digit_value c) in
        change (Str.digit_value c) with v
    end;
    lia.
Qed.

Lemma int_of_digits_str_of_nat (n : nat) :
  Str.int_of_digits (Str.str_of_nat n) = Z.of_nat n.
Proof.
  unfold Str.int_of_digits, Str.str_of_nat.
  pose proof (int_of_digits_from_uint (Nat.to_uint n) 0) as H.
  change (Z.of_nat 0) with 0 in H. rewrite H.
  change (Nat.of_uint_acc (Nat.to_uint n) 0) with (Nat.of_uint (Nat.to_uint n)).
  rewrite DecimalNat.Unsigned.of_to. reflexivity.
Qed.

Lemma str_of_nat_digits (n : nat) :
  exists d ds, Str.str_of_nat n = String d ds
               /\ Str.is_digit d = true /\ Str.forallb Str.is_digit ds = true.
Proof.
  pose proof (string_of_uint_digits (Nat.to_uint n)) as Hall.
  unfold Str.str_of_nat.
  assert (Nat.to_uint n <> Decimal.Nil) as Hnil.
  { rewrite <- (DecimalNat.Unsigned.of_to n) at 1.
    rewrite DecimalNat.Unsigned.to_of. unfold Decimal.unorm.
    destruct (Decimal.nzhead (Nat.to_uint n)); discriminate. }
  destruct (NilEmpty.string_of_uint (Nat.to_uint n)) as [| d ds] eqn:E.
  - exfalso. apply Hnil. destruct (Nat.to_uint n); try discriminate. reflexivity.
  - exists d, ds. simpl in Hall. apply andb_true_iff in Hall. tauto.
Qed.

(** ** Text that starts with a number *)
Lemma digit_is_not (c d : ascii) :
  Str.is_digit c = false -> Str.is_digit d = true -> Ascii.eqb c d = false.
Proof.
  intros Hc Hd. destruct (Ascii.eqb_spec c d) as [-> |]; [congruence | reflexivity].
Qed.

Lemma lower_char_digit (d : ascii) : Str.is_digit d = true -> Str.lower_char d = d.
Proof.
  unfold Str.lower_char, Str.is_upper, Str.is_digit, Str.between. intros H.
  apply andb_true_iff in H. destruct H as [_ H]. apply Nat.leb_le in H.
  destruct (Nat.leb_spec 65 (Str.code d)); [lia | reflexivity].
Qed.

Lemma lower_digits (ds rest : string) :
  Str.forallb Str.is_digit ds = true ->
  Str.lower (ds ++ rest) = (ds ++ Str.lower rest)%string.
Proof.
  induction ds as [| d ds IH]; simpl; intros H; [reflexivity |].
  apply andb_true_iff in H. destruct H as [Hd Hds].
  unfold Str.lower in *. simpl. rewrite (lower_char_digit _ Hd), (IH Hds). reflexivity.
Qed.

Lemma contains_after_digits (c : ascii) (pat ds rest : string) :
  Str.is_digit c = false ->
  Str.forallb Str.is_digit ds = true ->
  Str.contains (String c pat) (ds ++ rest) = Str.contains (String c pat) rest.
Proof.
  intros Hc. induction ds as [| d ds IH]; intros H; [reflexivity |].
  simpl in H. apply andb_true_iff in H. destruct H as [Hd Hds].
  change ((String d ds ++ rest)%string) with (String d (ds ++ rest)).
  cbn [Str.contains Str.startswith]. rewrite (digit_is_not _ _ Hc Hd), (IH Hds).
  reflexivity.
Qed.

Lemma eqb_digit_head (c d : ascii) (s pat : string) :
  Str.is_digit c = false -> Str.is_digit d = true ->
  String.eqb (String d s) (String c pat) = false.
Proof.
  intros Hc Hd. simpl. rewrite Ascii.eqb_sym, (digit_is_not _ _ Hc Hd). reflexivity.
Qed.

Lemma int_of_digits_from_nonneg (s : string) :
  forall acc, 0 <= acc -> 0 <= Str.int_of_digits_from acc s.
Proof.
  induction s as [| c s IH]; intros acc H; cbn [Str.int_of_digits_from]; [assumption |].
  apply IH. unfold Str.digit_value. lia.
Qed.

(** ** The number at the head of a match *)
Lemma star_match_prefix {R : Type} (p : ascii -> bool) (ds rest : string)
      (k : string -> option R) (x : R) :
  Str.forallb p ds = true ->
  star_match p rest k = Some x ->
  star_match p (ds ++ rest) k = Some x.
Proof.
  induction ds as [| d ds IH]; simpl; intros H Hk; [assumption |].
  apply andb_true_iff in H. destruct H as [Hd Hds].
  rewrite Hd, (IH Hds Hk). reflexivity.
Qed.

Lemma match_here_number (tail : regex) (d : ascii) (ds rest : string) (x : match_obj) :
  Str.is_digit d = true ->
  Str.forallb Str.is_digit ds = true ->
  star_match Str.is_digit rest
    (fun s' => rmatch tail s'
                 [(1%nat, Str.consumed (String d (ds ++ rest)) s')]
                 (found_in (String d (ds ++ rest)))) = Some x ->
  match_here (Cat number_regex tail) (String d (ds ++ rest)) = Some x.
Proof.
  intros Hd Hds H. unfold match_here, number_regex, Plus. cbn [rmatch].
  rewrite Hd. apply star_match_prefix; assumption.
Qed.

Lemma search_number (tail : regex) (d : ascii) (ds rest : string) (x : match_obj) :
  Str.is_digit d = true ->
  Str.forallb Str.is_digit ds = true ->
  star_match Str.is_digit rest
    (fun s' => rmatch tail s'
                 [(1%nat, Str.consumed (String d (ds ++ rest)) s')]
                 (found_in (String d (ds ++ rest)))) = Some x ->
  search (Cat number_regex tail) (String d (ds ++ rest)) = Some x.
Proof.
  intros Hd Hds H. cbn [search].
  rewrite (match_here_number tail d ds rest x Hd Hds H). reflexivity.
Qed.

Lemma consumed_all (s : string) : Str.consumed s "" = s.
Proof.
  rewrite <- (append_nil_r s) at 1. apply consumed_append.
Qed.

Lemma consumed_number (d : ascii) (ds rest : string) :
  Str.consumed (String d (ds ++ rest)) rest = String d ds.
Proof. apply (consumed_append (String d ds) rest). Qed.

(** ** Durations and subtraction *)
Lemma make_timedelta_ok (x : Z) :
  0 <= x < end_of_time -> make_timedelta x = Ok x.
Proof.
  unfold make_timedelta, end_of_time, max_ordinal, us_per_day, us_per_second.
  intros H.
  assert (0 <= x / (86400 * 1000000) <= 3652059) as Hq.
  { split; [apply Z.div_pos; lia |].
    apply Z.div_le_upper_bound; lia. }
  destruct (Z.leb_spec (-999999999) (x / (86400 * 1000000))); [| lia].
  destruct (Z.leb_spec (x / (86400 * 1000000)) 999999999); [| lia].
  reflexivity.
Qed.

Lemma minus_ok (now x : Z) :
  in_range now = true -> 0 <= x <= now -> minus now x = Ok (now - x).
Proof.
  unfold minus, in_range. intros H Hx.
  apply andb_true_iff in H. destruct H as [H1 H2].
  apply Z.leb_le in H1. apply Z.ltb_lt in H2.
  destruct (Z.leb_spec 0 (now - x)); [| lia].
  destruct (Z.ltb_spec (now - x) end_of_time); [| lia].
  reflexivity.
Qed.

Lemma in_range_bounds (now : Z) : in_range now = true -> 0 <= now < end_of_time.
Proof.
  unfold in_range. intros H. apply andb_true_iff in H. destruct H as [H1 H2].
  apply Z.leb_le in H1. apply Z.ltb_lt in H2. lia.
Qed.

Lemma subtract_ok (now x : Z) (delta : result timedelta) :
  in_range now = true -> 0 <= x <= now -> delta = make_timedelta x ->
  try_except (d <- delta ;; t <- minus now d ;; Ok (Some t)) None = Some (now - x).
Proof.
  intros Hnow Hx ->. pose proof (in_range_bounds _ Hnow).
  rewrite make_timedelta_ok by lia. cbn [bind].
  rewrite minus_ok by assumption. reflexivity.
Qed.

Lemma ago_rest_facts (unit : string) (us : Z) (plural : bool) :
  In (unit, us) ago_units ->
  Str.lower (ago_rest unit plural) = ago_rest unit plural
  /\ Str.contains "just now" (ago_rest unit plural) = false
  /\ (forall (c1 : string -> string) (s0 : string),
        star_match Str.is_digit (ago_rest unit plural)
          (fun s' => rmatch ago_tail s' [(1%nat, c1 s')] (found_in s0))
        = Some (MatchObj (Str.consumed s0 "")
                         [(2%nat, unit); (1%nat, c1 (ago_rest unit plural))] ""))
  /\ (forall v, exists x, ago_delta unit v = Some (make_timedelta x) /\ x = v * us).
Proof.
  intros Hunit. each_unit Hunit;
    (split; [destruct plural; reflexivity |]);
    (split; [destruct plural; reflexivity |]);
    (split; [intros c1 s0; destruct plural; reflexivity |]);
    intros v; eexists; (split; [reflexivity |]);
    unfold us_per_day, us_per_second; lia.
Qed.

Lemma subtract_none (now x : Z) (delta : result timedelta) :
  now < x -> delta = make_timedelta x ->
  try_except (d <- delta ;; t <- minus now d ;; Ok (Some t)) None = None.
Proof.
  intros H ->. unfold make_timedelta.
  destruct ((-999999999 <=? x / us_per_day) && (x / us_per_day <=? 999999999))%bool;
    [| reflexivity].
  cbn [bind]. unfold minus, in_range.
  destruct (Z.leb_spec 0 (now - x)); [lia | reflexivity].
Qed.

(** What [parse_date] comes to on a number and a unit of the first
    pattern: the subtraction, with what it raises. *)
Lemma parse_date_ago_form (now : datetime) (d : ascii) (ds unit : string) (us : Z)
      (plural : bool) :
  In (unit, us) ago_units ->
  Str.is_digit d = true ->
  Str.forallb Str.is_digit ds = true ->
  parse_date now (String d ds ++ ago_rest unit plural)
  = try_except (delta <- make_timedelta (Str.int_of_digits (String d ds) * us) ;;
                t <- minus now delta ;; Ok (Some t)) None.
Proof.
  intros Hunit Hd Hds.
  set (v := Str.int_of_digits (String d ds)) in *.
  assert (Str.forallb Str.is_digit (String d ds) = true) as Hall
      by (simpl; rewrite Hd, Hds; reflexivity).
  destruct (ago_rest_facts unit us plural Hunit) as [Hlower [Hnow' [Htail Hdelta]]].
  destruct (Hdelta v) as [x [Hx ->]].
  set (rest := ago_rest unit plural) in *.
  unfold parse_date.
  rewrite (lower_digits (String d ds) rest Hall), Hlower.
  rewrite (contains_after_digits "j" "ust now" (String d ds) rest eq_refl Hall), Hnow'.
  change ((String d ds ++ rest)%string) with (String d (ds ++ rest)).
  rewrite (eqb_digit_head "U" d (ds ++ rest) "nknown date" eq_refl Hd).
  rewrite (eqb_digit_head "n" d (ds ++ rest) "ow" eq_refl Hd).
  cbn [Str.is_empty orb]. unfold ago_regex.
  rewrite (search_number ago_tail d ds rest _ Hd Hds (Htail _ _)).
  cbn [delta_of groups group Nat.eqb].
  rewrite consumed_number. fold v. rewrite Hx. reflexivity.
Qed.

Lemma parse_date_ago_digits (now : datetime) (d : ascii) (ds unit : string) (us : Z)
      (plural : bool) :
  in_range now = true ->
  In (unit, us) ago_units ->
  Str.is_digit d = true ->
  Str.forallb Str.is_digit ds = true ->
  Str.int_of_digits (String d ds) * us <= now ->
  parse_date now (String d ds ++ ago_rest unit plural)
  = Some (now - Str.int_of_digits (String d ds) * us).
Proof.
  intros Hnow Hunit Hd Hds Hle.
  assert (0 <= Str.int_of_digits (String d ds)) as Hv
      by (apply int_of_digits_from_nonneg; lia).
  assert (0 < us) as Hus.
  { each_unit Hunit; reflexivity. }
  rewrite (parse_date_ago_form now d ds unit us plural Hunit Hd Hds).
  apply subtract_ok; [assumption | nia | reflexivity].
Qed.

(** The time asked for is before the first instant: the subtraction
    raises, or the duration cannot be made, and the result is [None]. *)
Lemma parse_date_ago_before_time (now : datetime) (d : ascii) (ds unit : string) (us : Z)
      (plural : bool) :
  In (unit, us) ago_units ->
  Str.is_digit d = true ->
  Str.forallb Str.is_digit ds = true ->
  now < Str.int_of_digits (String d ds) * us ->
  parse_date now (String d ds ++ ago_rest unit plural) = None.
Proof.
  intros Hunit Hd Hds Hlt.
  rewrite (parse_date_ago_form now d ds unit us plural Hunit Hd Hds).
  eapply subtract_none; [exact Hlt | reflexivity].
Qed.

(** ** Text that is not dated *)
Lemma star_match_split {R : Type} (p : ascii -> bool) (s : string) :
  forall (k : string -> option R) (x : R),
  star_match p s k = Some x ->
  exists run s', s = (run ++ s')%string /\ Str.forallb p run = true /\ k s' = Some x.
Proof.
  induction s as [| c s IH]; intros k x H; cbn [star_match] in H.
  - exists ""%string, ""%string. repeat split. exact H.
  - destruct (p c) eqn:Hc.
    + destruct (star_match p s k) as [y |] eqn:E.
      * injection H as <-. destruct (IH k y E) as [run [s' [-> [Hrun Hk]]]].
        exists (String c run), s'. cbn [Str.forallb append]. rewrite Hc, Hrun.
        repeat split. exact Hk.
      * exists ""%string, (String c s). repeat split. exact H.
    + exists ""%string, (String c s). repeat split. exact H.
Qed.

Lemma rmatch_Lit_startswith {R : Type} (word : string) :
  forall (s : string) (caps : captures) (k : string -> captures -> option R) (x : R),
  rmatch (Lit word) s caps k = Some x -> Str.startswith word s = true.
Proof.
  induction word as [| a word IH]; intros s caps k x H; [reflexivity |].
  cbn [Lit rmatch] in H. destruct s as [| b s]; [discriminate H |].
  unfold is_char in H. cbn [Str.startswith].
  destruct (Ascii.eqb a b); [| discriminate H].
  cbn [andb]. eapply IH. exact H.
Qed.

Lemma rmatch_Alts_startswith {R : Type} (words : list string) :
  forall (s : string) (caps : captures) (k : string -> captures -> option R) (x : R),
  rmatch (Alts (List.map Lit words)) s caps k = Some x ->
  exists word, In word words /\ Str.startswith word s = true.
Proof.
  induction words as [| w rest IH]; intros s caps k x H.
  - cbn [List.map Alts rmatch] in H. destruct s; discriminate H.
  - destruct rest as [| w' rest'].
    + exists w. split; [left; reflexivity |]. eapply rmatch_Lit_startswith. exact H.
    + change (Alts (List.map Lit (w :: w' :: rest')))
        with (Alt (Lit w) (Alts (List.map Lit (w' :: rest')))) in H.
      cbn [rmatch] in H.
      destruct (rmatch (Lit w) s caps k) as [y |] eqn:E.
      * exists w. split; [left; reflexivity |]. eapply rmatch_Lit_startswith. exact E.
      * destruct (IH s caps k x H) as [word [Hin Hs]].
        exists word. split; [right; exact Hin | exact Hs].
Qed.

Lemma startswith_shorter (a b s : string) :
  Str.startswith (a ++ b) s = true -> Str.startswith a s = true.
Proof.
  revert s. induction a as [| c a IH]; intros s H; [reflexivity |].
  destruct s as [| x s]; cbn [append Str.startswith] in *; [discriminate H |].
  apply andb_true_iff in H. destruct H as [H1 H2]. rewrite H1. exact (IH s H2).
Qed.

(** A word of either pattern begins with one of the dating units. *)
Lemma dating_unit_of (word s : string) :
  In word ["minute"; "hour"; "day"; "week"; "month"; "year";
           "s"; "m"; "h"; "d"; "w"; "mo"; "yr"]%string ->
  Str.startswith word s = true ->
  existsb (fun unit => Str.startswith unit s) dating_units = true.
Proof.
  intros Hin Hs. apply existsb_exists.
  assert (exists unit more, In unit dating_units /\ word = (unit ++ more)%string)
    as [unit [more [Hunit ->]]].
  { simpl in Hin.
    repeat (destruct Hin as [<- | Hin];
            [first [ exists "s"%string, ""%string; split; [simpl; tauto | reflexivity]
                   | exists "m"%string, "inute"%string; split; [simpl; tauto | reflexivity]
                   | exists "m"%string, "onth"%string; split; [simpl; tauto | reflexivity]
                   | exists "m"%string, "o"%string; split; [simpl; tauto | reflexivity]
                   | exists "m"%string, ""%string; split; [simpl; tauto | reflexivity]
                   | exists "h"%string, "our"%string; split; [simpl; tauto | reflexivity]
                   | exists "h"%string, ""%string; split; [simpl; tauto | reflexivity]
                   | exists "d"%string, "ay"%string; split; [simpl; tauto | reflexivity]
                   | exists "d"%string, ""%string; split; [simpl; tauto | reflexivity]
                   | exists "w"%string, "eek"%string; split; [simpl; tauto | reflexivity]
                   | exists "w"%string, ""%string; split; [simpl; tauto | reflexivity]
                   | exists "year"%string, ""%string; split; [simpl; tauto | reflexivity]
                   | exists "yr"%string, ""%string; split; [simpl; tauto | reflexivity] ] |]).
    destruct Hin. }
  exists unit. split; [exact Hunit | eapply startswith_shorter; exact Hs].
Qed.

Lemma lstrip_skips (blanks s : string) :
  Str.forallb Str.py_isspace blanks = true ->
  Str.lstrip Str.py_isspace (blanks ++ s) = Str.lstrip Str.py_isspace s.
Proof.
  induction blanks as [| c blanks IH]; cbn [append Str.forallb Str.lstrip]; [reflexivity |].
  intros H. apply andb_true_iff in H. destruct H as [H1 H2]. rewrite H1. exact (IH H2).
Qed.

(** A text that begins with a dating unit begins with no blank. *)
Lemma lstrip_at_unit (s : string) :
  existsb (fun unit => Str.startswith unit s) dating_units = true ->
  Str.lstrip Str.py_isspace s = s.
Proof.
  intros H. destruct s as [| c s]; [reflexivity |].
  cbn [Str.lstrip]. destruct (Str.py_isspace c) eqn:Hc; [| reflexivity].
  exfalso. apply existsb_exists in H. destruct H as [unit [Hin Hs]].
  simpl in Hin.
  repeat (destruct Hin as [<- | Hin];
          [cbn [Str.startswith] in Hs; apply andb_true_iff in Hs; destruct Hs as [Hs _];
           apply Ascii.eqb_eq in Hs; subst c; discriminate Hc |]).
  destruct Hin.
Qed.

(** What matches after the number, in either pattern, makes a dating
    unit follow. *)
Lemma tail_match_unit_follows {R : Type} (body : regex)
      (s : string) (caps : captures) (k : string -> captures -> option R) (x : R) :
  (forall s' caps' (k' : string -> captures -> option R) x',
     rmatch body s' caps' k' = Some x' ->
     exists word,
       In word ["minute"; "hour"; "day"; "week"; "month"; "year";
                "s"; "m"; "h"; "d"; "w"; "mo"; "yr"]%string
       /\ Str.startswith word s' = true) ->
  rmatch (Cat (Star Str.py_isspace) body) s caps k = Some x ->
  unit_follows dating_units s = true.
Proof.
  intros Hbody H. cbn [rmatch] in H.
  apply star_match_split in H. destruct H as [blanks [s' [-> [Hblanks H]]]].
  apply Hbody in H. destruct H as [word [Hin Hs]].
  pose proof (dating_unit_of word s' Hin Hs) as Hunit.
  unfold unit_follows. rewrite (lstrip_skips blanks s' Hblanks).
  rewrite (lstrip_at_unit s' Hunit). exact Hunit.
Qed.

Lemma ago_tail_unit_follows {R : Type}
      (s : string) (caps : captures) (k : string -> captures -> option R) (x : R) :
  rmatch ago_tail s caps k = Some x -> unit_follows dating_units s = true.
Proof.
  apply tail_match_unit_follows. intros s' caps' k' x' H.
  cbn [rmatch] in H.
  apply (rmatch_Alts_startswith ["minute"; "hour"; "day"; "week"; "month"; "year"]%string)
    in H.
  destruct H as [word [Hin Hs]]. exists word. split; [| exact Hs].
  simpl in Hin. simpl. tauto.
Qed.

Lemma short_tail_unit_follows {R : Type}
      (s : string) (caps : captures) (k : string -> captures -> option R) (x : R) :
  rmatch short_tail s caps k = Some x -> unit_follows dating_units s = true.
Proof.
  apply tail_match_unit_follows. intros s' caps' k' x' H.
  cbn [rmatch] in H.
  apply (rmatch_Alts_startswith ["s"; "m"; "h"; "d"; "w"; "mo"; "yr"]%string) in H.
  destruct H as [word [Hin Hs]]. exists word. split; [| exact Hs].
  simpl in Hin. simpl. tauto.
Qed.

Lemma number_then_cons (units : list string) (c : ascii) (rest : string) :
  number_then units (String c rest)
  = ((Str.is_digit c && unit_follows units rest) || number_then units rest)%bool.
Proof. reflexivity. Qed.

Lemma number_then_digits (units : list string) (ds s : string) :
  forall d,
  Str.is_digit d = true ->
  Str.forallb Str.is_digit ds = true ->
  unit_follows units s = true ->
  number_then units (String d (ds ++ s)) = true.
Proof.
  induction ds as [| d' ds IH]; intros d Hd Hds Hs; rewrite number_then_cons.
  - cbn [append]. rewrite Hd, Hs. reflexivity.
  - cbn [Str.forallb] in Hds. apply andb_true_iff in Hds. destruct Hds as [Hd' Hds].
    change ((String d' ds ++ s)%string) with (String d' (ds ++ s)).
    rewrite (IH d' Hd' Hds Hs). apply orb_true_r.
Qed.

(** Where a number pattern is found, a digit is followed by a dating
    unit. *)
Lemma search_number_dated (tail : regex) (s : string) (m : match_obj) :
  (forall s' caps (k : string -> captures -> option match_obj) x,
     rmatch tail s' caps k = Some x -> unit_follows dating_units s' = true) ->
  search (Cat number_regex tail) s = Some m ->
  number_then dating_units s = true.
Proof.
  intros Htail. induction s as [| c s IH]; intros H.
  - cbn [search] in H. unfold match_here, number_regex, Plus in H.
    cbn [rmatch] in H. discriminate H.
  - cbn [search] in H.
    destruct (match_here (Cat number_regex tail) (String c s)) as [found |] eqn:E.
    + clear H. unfold match_here, number_regex, Plus in E. cbn [rmatch] in E.
      destruct (Str.is_digit c) eqn:Hc; [| discriminate E].
      apply star_match_split in E. destruct E as [ds [s' [-> [Hds E]]]].
      apply Htail in E. apply number_then_digits; assumption.
    + rewrite number_then_cons, (IH H). apply orb_true_r.
Qed.

(** ** Text that is not a calendar date *)
Lemma contains_at_suffix (c : ascii) (t s : string) :
  is_suffix (String c t) s -> Str.contains (String c "") s = true.
Proof.
  intros [pre ->]. induction pre as [| x pre IH].
  - cbn [append Str.contains Str.startswith]. rewrite Ascii.eqb_refl. reflexivity.
  - change ((String x pre ++ String c t)%string) with (String x (pre ++ String c t)).
    cbn [Str.contains]. rewrite IH. apply orb_true_r.
Qed.

Lemma lower_char_comma (c : ascii) :
  Ascii.eqb "," (Str.lower_char c) = Ascii.eqb "," c.
Proof. destruct c as [[|] [|] [|] [|] [|] [|] [|] [|]]; reflexivity. Qed.

Lemma contains_comma_lower (s : string) :
  Str.contains "," (Str.lower s) = Str.contains "," s.
Proof.
  unfold Str.lower. induction s as [| c s IH]; [reflexivity |].
  cbn [Str.map Str.contains Str.startswith]. rewrite lower_char_comma, IH. reflexivity.
Qed.

Lemma rmatch_Cat {R : Type} (r1 r2 : regex) (s : string) (caps : captures)
      (k : string -> captures -> option R) :
  rmatch (Cat r1 r2) s caps k = rmatch r1 s caps (fun s' caps' => rmatch r2 s' caps' k).
Proof. reflexivity. Qed.

(** Both formats hold a comma. *)
Lemma date_regex_needs_comma (months : list string) (s : string) :
  Str.contains "," s = false -> match_here (date_regex months) s = None.
Proof.
  intros Hno. destruct (match_here (date_regex months) s) as [found |] eqn:E;
    [exfalso | reflexivity].
  unfold match_here, date_regex in E.
  rewrite rmatch_Cat in E. apply rmatch_suffix in E. destruct E as [s1 [c1 [Hs1 E]]].
  rewrite rmatch_Cat in E. apply rmatch_suffix in E. destruct E as [s2 [c2 [Hs2 E]]].
  rewrite rmatch_Cat in E. apply rmatch_suffix in E. destruct E as [s3 [c3 [Hs3 E]]].
  rewrite rmatch_Cat in E. cbn [rmatch] in E.
  destruct s3 as [| c s3]; [discriminate E |].
  unfold is_char in E. destruct (Ascii.eqb "," c) eqn:Hc; [| discriminate E].
  apply Ascii.eqb_eq in Hc. subst c.
  assert (is_suffix (String "," s3) s) as Hsuffix.
  { eapply is_suffix_trans; [exact Hs3 |]. eapply is_suffix_trans; [exact Hs2 | exact Hs1]. }
  apply contains_at_suffix in Hsuffix. congruence.
Qed.

Lemma parse_absolute_needs_comma (date_text : string) :
  Str.contains "," date_text = false -> parse_absolute date_text = None.
Proof.
  intros H. rewrite <- contains_comma_lower in H.
  unfold parse_absolute, strptime_abbr, strptime_full, strptime_with.
  rewrite !(date_regex_needs_comma _ _ H). reflexivity.
Qed.

(** A text without "just now" that is not "now", in which no digit is
    followed by a dating unit and that holds no comma, is not dated. *)
Lemma parse_date_not_dated (now : datetime) (text : string) :
  Str.contains "just now" (Str.lower text) = false ->
  Str.lower text <> "now"%string ->
  number_then dating_units (Str.lower text) = false ->
  Str.contains "," text = false ->
  parse_date now text = None.
Proof.
  intros Hjust Hnow Hnumber Hcomma. unfold parse_date.
  destruct (Str.is_empty text || String.eqb text "Unknown date")%bool; [reflexivity |].
  rewrite Hjust. apply String.eqb_neq in Hnow. rewrite Hnow. cbn [orb].
  destruct (search ago_regex (Str.lower text)) as [found |] eqn:Eago.
  { apply (search_number_dated ago_tail) in Eago;
      [congruence | intros s' caps k x; apply ago_tail_unit_follows]. }
  destruct (search short_regex (Str.lower text)) as [found |] eqn:Eshort.
  { apply (search_number_dated short_tail) in Eshort;
      [congruence | intros s' caps k x; apply short_tail_unit_follows]. }
  cbn [delta_of]. rewrite (parse_absolute_needs_comma text Hcomma). reflexivity.
Qed.

Lemma process_post_kept (self : Scraper) (page : Page) (i : nat) (post : WebElement)
      (url : string) :
  shot self page ("post_" ++ Str.str_of_nat (i + 1)) = Ok tt ->
  is_original_post post = true ->
  current_url page = Ok url ->
  exists r, process_post self page i post = Ok (Some r)
            /\ post_date_text r = extract_post_date post.
Proof.
  intros Hshot Horig Hurl. unfold process_post. rewrite Hshot, Horig, Hurl. cbn [bind negb].
  destruct (extract_engagement post) as [[a b] c]. eexists. split; reflexivity.
Qed.

(** C3 (amended). For every number N and every unit among minute, hour,
    day, week, month and year, with or without the plural s,
    [parse_date] on "N unit ago" gives the current time minus N units, a
    month being 30 days and a year 365, when this time is not before the
    first instant a datetime can hold, and [None] when it is. On
    "just now" it gives the current time. On a text without "just now"
    that is not "now", in which no digit is followed, after blanks if
    any, by s, m, h, d, w, yr or year, and that holds no comma, such as
    "garbage", it gives [None]. The record of a post whose date text
    parses to [None] has "Unknown" as its timestamp, its day of the week
    and its hour, and no post is dropped because of its date text. *)
Theorem C3_temporal_normalizer
        (now : datetime) (n : nat) (unit : string) (us : Z) (plural : bool) :
  in_range now = true ->
  In (unit, us) ago_units ->
  (Z.of_nat n * us <= now ->
   parse_date now (Str.str_of_nat n ++ " " ++ unit ++ (if plural then "s" else "") ++ " ago")
   = Some (now - Z.of_nat n * us))
  /\ (now < Z.of_nat n * us ->
      parse_date now
        (Str.str_of_nat n ++ " " ++ unit ++ (if plural then "s" else "") ++ " ago")
      = None)
  /\ parse_date now "just now" = Some now
  /\ parse_date now "garbage" = None
  /\ (forall text,
        Str.contains "just now" (Str.lower text) = false ->
        Str.lower text <> "now"%string ->
        number_then dating_units (Str.lower text) = false ->
        Str.contains "," text = false ->
        parse_date now text = None)
  /\ (forall self page i post r,
         process_post self page i post = Ok (Some r) ->
         parse_date (clock page i) (post_date_text r) = None ->
         post_date r = "Unknown" /\ day_of_week r = "Unknown" /\ hour_of_day r = "Unknown")
  /\ (forall self page i post url,
         shot self page ("post_" ++ Str.str_of_nat (i + 1)) = Ok tt ->
         is_original_post post = true ->
         current_url page = Ok url ->
         exists r, process_post self page i post = Ok (Some r)
                   /\ post_date_text r = extract_post_date post).
Proof.
  intros Hnow Hunit.
  destruct (str_of_nat_digits n) as [d [ds [Hstr [Hd Hds]]]].
  pose proof (int_of_digits_str_of_nat n) as Hval. rewrite Hstr in *.
  split; [| split; [| split; [reflexivity | split; [reflexivity | split; [| split]]]]].
  - intros Hle. rewrite <- Hval. apply parse_date_ago_digits; try assumption.
    rewrite Hval. assumption.
  - intros Hlt. apply parse_date_ago_before_time with (us := us); try assumption.
    rewrite Hval. assumption.
  - intros text. apply parse_date_not_dated.
  - intros self page i post r Hr Hnone.
    apply process_post_fields in Hr.
    destruct Hr as [_ [_ [_ [_ [_ [_ [_ [Hdate [Hday Hhour]]]]]]]]].
    rewrite Hdate, Hday, Hhour, Hnone. repeat split.
  - intros self page i post url. apply process_post_kept.
Qed.

Lemma C3_temporal_normalizer_witness :
  parse_date Sample.now "3 days ago" = Some (Sample.now - 3 * us_per_day)
  /\ parse_date Sample.now "3000 years ago" = None
  /\ parse_date Sample.now "no date here" = None.
Proof.
  assert (in_range Sample.now = true) as Hnow by reflexivity.
  assert (In ("day"%string, us_per_day) ago_units) as Hday by (simpl; auto).
  assert (In ("year"%string, 365 * us_per_day) ago_units) as Hyear by (simpl; auto 10).
  split; [| split].
  - refine (proj1 (C3_temporal_normalizer Sample.now 3 "day" us_per_day true Hnow Hday) _).
    vm_compute. discriminate.
  - refine (proj1 (proj2 (C3_temporal_normalizer Sample.now 3000 "year" (365 * us_per_day)
                            true Hnow Hyear)) _).
    vm_compute. reflexivity.
  - destruct (C3_temporal_normalizer Sample.now 3 "day" us_per_day true Hnow Hday)
      as [_ [_ [_ [_ [Hnone _]]]]].
    apply Hnone; [reflexivity | discriminate | reflexivity | reflexivity].
Defined.

(** In March 2024 the text "3000 years ago" parses to [None]: the time
    asked for is before year 1. And a text that is none of the forms is
    dated all the same when a digit in it is followed by a letter that
    opens a unit: "room 12 south" is read as twelve seconds ago and
    "3 months" as three minutes ago. *)
Lemma C3_counterexample :
  ~ (forall (now : datetime) (n : nat) (unit : string) (us : Z) (plural : bool),
       in_range now = true -> In (unit, us) ago_units -> (0 < n)%nat ->
       parse_date now (Str.str_of_nat n ++ " " ++ unit
                       ++ (if plural then "s" else "") ++ " ago")
       = Some (now - Z.of_nat n * us))
  /\ parse_date Sample.now "room 12 south" = Some (Sample.now - 12 * us_per_second)
  /\ parse_date Sample.now "3 months" = Some (Sample.now - 3 * (60 * us_per_second)).
Proof.
  split; [| split; vm_compute; reflexivity].
  intros H.
  assert (In ("year", 365 * us_per_day) ago_units) as Hin by (simpl; auto 10).
  assert (0 < 3000)%nat as Hpos by lia.
  pose proof (H Sample.now 3000%nat "year" (365 * us_per_day) true eq_refl Hin Hpos) as Habs.
  vm_compute in Habs. discriminate.
Qed.

(** ** No match inside a number *)
Lemma star_match_none {R : Type} (p : ascii -> bool) (ds rest : string)
      (k : string -> option R) :
  Str.forallb p ds = true ->
  (forall ds', Str.forallb p ds' = true -> k (ds' ++ rest)%string = None) ->
  star_match p rest k = None ->
  star_match p (ds ++ rest) k = None.
Proof.
  induction ds as [| d ds IH]; simpl; intros H Hk Hrest; [assumption |].
  pose proof H as Hall.
  apply andb_true_iff in H. destruct H as [Hd Hds].
  rewrite Hd, (IH Hds Hk Hrest). apply (Hk (String d ds)). assumption.
Qed.

Lemma ago_tail_no_digit_start : no_digit_start ago_tail.
Proof.
  intros d s caps k Hd. apply digit_cases in Hd. each_member Hd.
Qed.

Lemma short_tail_no_digit_start : no_digit_start short_tail.
Proof.
  intros d s caps k Hd. apply digit_cases in Hd. each_member Hd.
Qed.

Lemma search_number_none (tail : regex) (rest : string) :
  no_digit_start tail ->
  (forall caps (k : string -> captures -> option match_obj),
      rmatch tail rest caps k = None) ->
  (forall k : string -> option match_obj, star_match Str.is_digit rest k = k rest) ->
  search (Cat number_regex tail) rest = None ->
  forall ds, Str.forallb Str.is_digit ds = true ->
             search (Cat number_regex tail) (ds ++ rest) = None.
Proof.
  intros Htail Hrest Hstop Hsearch.
  induction ds as [| d ds IH]; intros H; [assumption |].
  simpl in H. apply andb_true_iff in H. destruct H as [Hd Hds].
  change ((String d ds ++ rest)%string) with (String d (ds ++ rest)).
  cbn [search]. rewrite (IH Hds).
  replace (match_here (Cat number_regex tail) (String d (ds ++ rest))) with (@None match_obj);
    [reflexivity |].
  symmetry. unfold match_here, number_regex, Plus. cbn [rmatch]. rewrite Hd.
  apply star_match_none.
  - assumption.
  - intros [| d' ds'] Hds'.
    + apply Hrest.
    + simpl in Hds'. apply andb_true_iff in Hds'. apply Htail. tauto.
  - rewrite Hstop. apply Hrest.
Qed.

(** What the patterns do on the text after the number, for a compact unit:
    the first pattern finds nothing, the second reads [matched]. *)
Lemma compact_unit_facts (unit : string) (us : Z) :
  In (unit, us) compact_units_as_read ->
  Str.lower unit = unit
  /\ Str.contains "just now" unit = false
  /\ (forall caps (k : string -> captures -> option match_obj),
        rmatch ago_tail unit caps k = None)
  /\ (forall k : string -> option match_obj, star_match Str.is_digit unit k = k unit)
  /\ search ago_regex unit = None
  /\ exists matched leftover,
       (forall (c1 : string -> string) (s0 : string),
           star_match Str.is_digit unit
             (fun s' => rmatch short_tail s' [(1%nat, c1 s')] (found_in s0))
           = Some (MatchObj (Str.consumed s0 leftover)
                            [(2%nat, matched); (1%nat, c1 unit)] leftover))
       /\ (forall v, exists x, short_delta matched v = Some (make_timedelta x)
                               /\ x = v * us).
Proof.
  intros Hunit. each_unit Hunit;
    (split; [reflexivity |]); (split; [reflexivity |]);
    (split; [reflexivity |]); (split; [reflexivity |]);
    (split; [reflexivity |]);
    do 2 eexists; (split; [intros c1 s0; reflexivity |]);
    intros v; eexists; (split; [reflexivity |]);
    unfold us_per_day, us_per_second; lia.
Qed.

Lemma parse_date_compact_digits (now : datetime) (d : ascii) (ds unit : string) (us : Z) :
  in_range now = true ->
  In (unit, us) compact_units_as_read ->
  Str.is_digit d = true ->
  Str.forallb Str.is_digit ds = true ->
  Str.int_of_digits (String d ds) * us <= now ->
  parse_date now (String d ds ++ unit)
  = Some (now - Str.int_of_digits (String d ds) * us).
Proof.
  intros Hnow Hunit Hd Hds Hle.
  assert (0 <= Str.int_of_digits (String d ds)) as Hv
      by (apply int_of_digits_from_nonneg; lia).
  assert (0 < us) as Hus.
  { each_unit Hunit; reflexivity. }
  set (v := Str.int_of_digits (String d ds)) in *.
  assert (Str.forallb Str.is_digit (String d ds) = true) as Hall
      by (simpl; rewrite Hd, Hds; reflexivity).
  destruct (compact_unit_facts unit us Hunit)
    as [Hlower [Hnow' [Hago [Hstop [Hsearch [matched [leftover [Hshort Hdelta]]]]]]]].
  destruct (Hdelta v) as [x [Hx ->]].
  unfold parse_date.
  rewrite (lower_digits (String d ds) unit Hall), Hlower.
  rewrite (contains_after_digits "j" "ust now" (String d ds) unit eq_refl Hall), Hnow'.
  unfold ago_regex in *.
  rewrite (search_number_none ago_tail unit ago_tail_no_digit_start Hago Hstop Hsearch
             (String d ds) Hall).
  change ((String d ds ++ unit)%string) with (String d (ds ++ unit)).
  rewrite (eqb_digit_head "U" d (ds ++ unit) "nknown date" eq_refl Hd).
  rewrite (eqb_digit_head "n" d (ds ++ unit) "ow" eq_refl Hd).
  cbn [Str.is_empty orb delta_of]. unfold short_regex.
  rewrite (search_number short_tail d ds unit _ Hd Hds (Hshort _ _)).
  cbn [delta_of groups group Nat.eqb].
  rewrite consumed_number. fold v. rewrite Hx.
  apply subtract_ok; [assumption | nia | reflexivity].
Qed.

(** C2 (what the code does). For every number N the compact forms "Ns",
    "Nm", "Nh", "Nd", "Nw" and "Nyr" give the current time minus N
    seconds, minutes, hours, days, weeks and years of 365 days; the form
    "Nmo" gives the current time minus N minutes, not minus N months of 30
    days. In each case the time asked for must not be before the first
    instant a datetime can hold. *)
Theorem C2_compact_month_is_read_as_minutes (now : datetime) (n : nat) :
  in_range now = true ->
  (0 < n)%nat ->
  Z.of_nat n * (60 * us_per_second) <= now ->
  parse_date now (Str.str_of_nat n ++ "mo")
  = Some (now - Z.of_nat n * (60 * us_per_second))
  /\ parse_date now (Str.str_of_nat n ++ "mo")
     <> Some (now - Z.of_nat n * (30 * us_per_day))
  /\ (forall unit us,
         In (unit, us) compact_units ->
         Z.of_nat n * us <= now ->
         parse_date now (Str.str_of_nat n ++ unit) = Some (now - Z.of_nat n * us)).
Proof.
  intros Hnow Hpos Hle.
  destruct (str_of_nat_digits n) as [d [ds [Hstr [Hd Hds]]]].
  pose proof (int_of_digits_str_of_nat n) as Hval. rewrite Hstr in *.
  assert (parse_date now (String d ds ++ "mo")
          = Some (now - Z.of_nat n * (60 * us_per_second))) as Hmo.
  { rewrite <- Hval. apply parse_date_compact_digits; try assumption.
    - left. reflexivity.
    - rewrite Hval. assumption. }
  split; [exact Hmo |]. split.
  - rewrite Hmo. unfold us_per_day, us_per_second. intros E. injection E as E. lia.
  - intros unit us Hunit Hle'. rewrite <- Hval.
    apply parse_date_compact_digits; try assumption.
    + right. assumption.
    + rewrite Hval. assumption.
Qed.

Lemma C2_compact_month_is_read_as_minutes_witness :
  parse_date Sample.now "3mo" = Some (Sample.now - 3 * (60 * us_per_second)).
Proof.
  refine (proj1 (C2_compact_month_is_read_as_minutes Sample.now 3 _ _ _)).
  - reflexivity.
  - lia.
  - vm_compute. discriminate.
Defined.

(** ** Reversal and stripping *)
Lemma rev_onto_twice (s : string) :
  forall a b, Str.rev_onto (Str.rev_onto s a) b = Str.rev_onto a (s ++ b).
Proof.
  induction s as [| c s IH]; intros a b; simpl; [reflexivity |].
  rewrite IH. reflexivity.
Qed.

Lemma rev_involutive (s : string) : Str.rev (Str.rev s) = s.
Proof.
  unfold Str.rev. rewrite rev_onto_twice. simpl. apply append_nil_r.
Qed.

Lemma forallb_rev_onto (p : ascii -> bool) (s : string) :
  forall acc, Str.forallb p (Str.rev_onto s acc)
              = (Str.forallb p s && Str.forallb p acc)%bool.
Proof.
  induction s as [| c s IH]; intros acc; simpl; [reflexivity |].
  rewrite IH. simpl. destruct (p c), (Str.forallb p s); reflexivity.
Qed.

Lemma digit_not_space (d : ascii) : Str.is_digit d = true -> Str.py_isspace d = false.
Proof.
  intros H. apply digit_cases in H. each_member H.
Qed.

Lemma lstrip_digits (s : string) :
  Str.forallb Str.is_digit s = true -> Str.lstrip Str.py_isspace s = s.
Proof.
  destruct s as [| d s]; simpl; intros H; [reflexivity |].
  apply andb_true_iff in H. destruct H as [Hd _].
  rewrite (digit_not_space _ Hd). reflexivity.
Qed.

Lemma strip_digits (s : string) :
  Str.forallb Str.is_digit s = true -> Str.strip s = s.
Proof.
  intros H. unfold Str.strip, Str.strip_with.
  rewrite (lstrip_digits s H), lstrip_digits; [apply rev_involutive |].
  unfold Str.rev. rewrite forallb_rev_onto, H. reflexivity.
Qed.

Lemma replace_char_digits (c : ascii) (r s : string) :
  Str.is_digit c = false ->
  Str.forallb Str.is_digit s = true -> Str.replace_char c r s = s.
Proof.
  intros Hc. induction s as [| d s IH]; simpl; intros H; [reflexivity |].
  apply andb_true_iff in H. destruct H as [Hd Hs].
  rewrite Ascii.eqb_sym, (digit_is_not _ _ Hc Hd), (IH Hs). reflexivity.
Qed.

Lemma span_digits (s : string) :
  Str.forallb Str.is_digit s = true -> Str.span Str.is_digit s = (s, "").
Proof.
  induction s as [| d s IH]; simpl; intros H; [reflexivity |].
  apply andb_true_iff in H. destruct H as [Hd Hs].
  rewrite Hd, (IH Hs). reflexivity.
Qed.

(** ** Whole numbers as doubles *)
Lemma Qred_inject_Z (z : Z) : Qred (inject_Z z) = inject_Z z.
Proof.
  unfold Qred, inject_Z. cbn [Qnum Qden].
  pose proof (Z.ggcd_gcd z 1) as Hg.
  pose proof (Z.ggcd_correct_divisors z 1) as Hd.
  destruct (Z.ggcd z 1) as [g [a b]]. cbn [fst snd] in *.
  rewrite Z.gcd_1_r in Hg. subst g. destruct Hd as [Ha Hb].
  replace a with z by lia. replace b with 1 by lia. reflexivity.
Qed.

Lemma Qred_whole (z : Z) (j : Z) :
  0 <= j -> Qred (Qmake (z * 2 ^ j) (Z.to_pos (2 ^ j))) = inject_Z z.
Proof.
  intros Hj. assert (0 < 2 ^ j) as Hpow by (apply Z.pow_pos_nonneg; lia).
  rewrite <- (Qred_inject_Z z).
  apply Qred_complete. unfold Qeq, inject_Z. cbn [Qnum Qden].
  rewrite Z2Pos.id by assumption. lia.
Qed.

Lemma of_Z_exact (z : Z) :
  0 <= z < 2 ^ 53 -> Float64.of_Z z = Float64.Finite (inject_Z z).
Proof.
  intros [Hlo Hhi]. unfold Float64.of_Z, Float64.of_ratio.
  destruct (Z.eqb_spec z 0) as [-> | Hnz]; [reflexivity |].
  assert (0 < z) as Hpos by lia.
  assert (Z.log2 z < 53) as Hlog by (apply Z.log2_lt_pow2; lia).
  pose proof (Z.log2_nonneg z) as Hlog0.
  pose proof (Z.log2_spec z Hpos) as [Hspec _].
  assert (Float64.floor_log2_ratio z 1 = Z.log2 z) as ->.
  { unfold Float64.floor_log2_ratio. change (Z.log2 1) with 0. rewrite Z.sub_0_r.
    rewrite Z.max_l by lia. rewrite Z.max_r by lia.
    destruct (Z.ltb_spec (z * 2 ^ 0) (1 * 2 ^ Z.log2 z)); [| reflexivity].
    rewrite Z.pow_0_r in *. lia. }
  assert (forall n, Float64.round_half_even n 1 = n) as Hround.
  { intros n. unfold Float64.round_half_even. rewrite Z.div_1_r, Z.mod_1_r. reflexivity. }
  destruct (Z.max_spec (Z.log2 z - 52) (-1074)) as [[_ He] | [_ He]]; rewrite He.
  - (* exponent -1074: never for a whole number, the other branch is taken *)
    lia.
  - destruct (Z.leb_spec 0 (Z.log2 z - 52)) as [Hnonneg | Hneg].
    + assert (Z.log2 z - 52 = 0) as -> by lia.
      change (Z.max 0 (- 0)) with 0. change (Z.max 0 0) with 0.
      rewrite Z.pow_0_r, !Z.mul_1_r, Hround.
      destruct (Z.leb_spec (2 ^ 1024) z); [| reflexivity].
      assert (2 ^ 53 < 2 ^ 1024) by (apply Z.pow_lt_mono_r; lia). lia.
    + rewrite (Z.max_l 0 (Z.log2 z - 52)) by lia.
      rewrite (Z.max_r 0 (- (Z.log2 z - 52))) by lia.
      rewrite Z.pow_0_r, Z.mul_1_l, Hround.
      f_equal. apply Qred_whole. lia.
Qed.

Lemma to_int_whole (z : Z) : Float64.to_int (Float64.Finite (inject_Z z)) = Ok z.
Proof. unfold Float64.to_int, inject_Z. simpl. rewrite Z.div_1_r. reflexivity. Qed.

(** ** The first alternative wins *)
Lemma search_count_digits (d : ascii) (ds rest : string) :
  Str.is_digit d = true ->
  Str.forallb Str.is_digit ds = true ->
  ends_number rest ->
  search count_regex (String d (ds ++ rest))
  = Some (MatchObj (String d ds) [(1%nat, String d ds)] rest).
Proof.
  intros Hd Hds Hrest. cbn [search]. unfold match_here, count_regex, Plus.
  cbn [rmatch]. rewrite Hd.
  rewrite (star_match_prefix Str.is_digit ds rest _
             (MatchObj (String d ds) [(1%nat, String d ds)] rest) Hds);
    [reflexivity |].
  destruct rest as [| c rest]; cbn [star_match rmatch].
  - rewrite !consumed_number. reflexivity.
  - destruct Hrest as [Hc Hcomma]. rewrite Hc.
    unfold is_char. rewrite (proj2 (Ascii.eqb_neq "," c)) by congruence.
    rewrite !consumed_number. reflexivity.
Qed.

Lemma parse_count_digits (d : ascii) (ds rest : string) :
  Str.is_digit d = true ->
  Str.forallb Str.is_digit ds = true ->
  ends_number rest ->
  parse_count (String d ds ++ rest)
  = try_except (Float64.to_int (Float64.of_Z (Str.int_of_digits (String d ds)))) 0.
Proof.
  intros Hd Hds Hrest.
  assert (Str.forallb Str.is_digit (String d ds) = true) as Hall
      by (simpl; rewrite Hd, Hds; reflexivity).
  unfold parse_count.
  change ((String d ds ++ rest)%string) with (String d (ds ++ rest)).
  rewrite (search_count_digits d ds rest Hd Hds Hrest). cbn [Str.is_empty whole].
  rewrite (strip_digits _ Hall), (replace_char_digits "," "" _ eq_refl Hall).
  pose proof (lower_digits (String d ds) "" Hall) as Hlower.
  rewrite append_nil_r in Hlower. change (Str.lower "") with "" in Hlower.
  rewrite append_nil_r in Hlower. rewrite Hlower.
  pose proof (contains_after_digits "k" "" (String d ds) "" eq_refl Hall) as Hk.
  rewrite append_nil_r in Hk. rewrite Hk.
  pose proof (contains_after_digits "m" "" (String d ds) "" eq_refl Hall) as Hm.
  rewrite append_nil_r in Hm. rewrite Hm.
  change (Str.contains "k" "") with false. change (Str.contains "m" "") with false.
  cbv iota. unfold Float64.float_of_string. rewrite (span_digits _ Hall).
  cbn [Str.is_empty bind try_except]. unfold Float64.of_decimal.
  rewrite append_nil_r. change (10 ^ Z.of_nat (String.length "")) with 1.
  reflexivity.
Qed.

(** C1 (what the code does). On a text that starts with a run of digits
    followed by neither a digit nor a comma, [parse_count] returns the
    value of the run, whatever follows it: a point and further digits, a K
    or an M are not read. So "1.2K reactions" gives 1, not 1200, and "2M"
    gives 2, not 2000000; "3 comments" gives 3 and the empty text 0. A
    suffix is applied only to a number that starts with its point, as in
    ".5K", which gives 500. *)
Theorem C1_parse_count_stops_at_the_first_digits (d : ascii) (ds rest : string) :
  Str.is_digit d = true ->
  Str.forallb Str.is_digit ds = true ->
  ends_number rest ->
  Str.int_of_digits (String d ds) < 2 ^ 53 ->
  parse_count (String d ds ++ rest) = Str.int_of_digits (String d ds)
  /\ parse_count "1.2K reactions" = 1
  /\ parse_count "2M" = 2
  /\ parse_count "3 comments" = 3
  /\ parse_count "" = 0
  /\ parse_count ".5K" = 500.
Proof.
  intros Hd Hds Hrest Hsmall. split; [| vm_compute; repeat split].
  rewrite (parse_count_digits d ds rest Hd Hds Hrest).
  assert (0 <= Str.int_of_digits (String d ds))
    by (apply int_of_digits_from_nonneg; lia).
  rewrite of_Z_exact by lia. rewrite to_int_whole. reflexivity.
Qed.

Lemma C1_parse_count_stops_at_the_first_digits_witness :
  parse_count "15.7M views" = 15.
Proof.
  refine (proj1 (C1_parse_count_stops_at_the_first_digits "1" "5" ".7M views" _ _ _ _)).
  - reflexivity.
  - reflexivity.
  - split; [reflexivity | discriminate].
  - vm_compute. reflexivity.
Defined.

(** ** Counts are never negative *)
Lemma round_half_even_nonneg (n d : Z) :
  0 <= n -> 0 < d -> 0 <= Float64.round_half_even n d.
Proof.
  intros Hn Hd. unfold Float64.round_half_even.
  assert (0 <= n / d) by (apply Z.div_pos; lia).
  destruct (2 * (n mod d) <? d); [assumption |].
  destruct (d <? 2 * (n mod d)); [lia |].
  destruct (Z.even (n / d)); lia.
Qed.

Lemma Qred_nonneg (m : Z) (p : positive) : 0 <= m -> 0 <= Qnum (Qred (Qmake m p)).
Proof.
  intros Hm. pose proof (Qred_correct (Qmake m p)) as H.
  unfold Qeq in H. cbn [Qnum Qden] in H.
  destruct (Qred (Qmake m p)) as [a b]. cbn [Qnum Qden] in *.
  destruct (Z.leb_spec 0 a) as [| Hneg]; [assumption |]. nia.
Qed.

Lemma of_ratio_nonneg (n d : Z) :
  0 <= n -> 0 < d -> float_nonneg (Float64.of_ratio n d).
Proof.
  intros Hn Hd. unfold float_nonneg, Float64.of_ratio.
  destruct (n =? 0); [reflexivity |].
  set (e := Z.max (Float64.floor_log2_ratio n d - 52) (-1074)).
  assert (0 <= Float64.round_half_even (n * 2 ^ Z.max 0 (- e)) (d * 2 ^ Z.max 0 e)) as Hm.
  { apply round_half_even_nonneg.
    - apply Z.mul_nonneg_nonneg; [assumption | apply Z.pow_nonneg; lia].
    - apply Z.mul_pos_pos; [assumption | apply Z.pow_pos_nonneg; lia]. }
  destruct (0 <=? e) eqn:He.
  - destruct (2 ^ 1024 <=? _); [reflexivity |].
    cbn [Num.nonneg inject_Z Qnum]. apply Z.leb_le.
    apply Z.mul_nonneg_nonneg; [assumption | apply Z.pow_nonneg; lia].
  - cbn [Num.nonneg]. apply Z.leb_le. apply Qred_nonneg. assumption.
Qed.

Lemma float_nonneg_Finite (q : Q) : float_nonneg (Float64.Finite q) <-> 0 <= Qnum q.
Proof. unfold float_nonneg. cbn [Num.nonneg]. apply Z.leb_le. Qed.

Lemma mul_nonneg (x y : Float64.float) :
  float_nonneg x -> float_nonneg y -> float_nonneg (Float64.mul x y).
Proof.
  destruct x as [a | |], y as [b | |]; intros Hx Hy;
    try discriminate Hx; try discriminate Hy; try reflexivity.
  apply float_nonneg_Finite in Hx. apply float_nonneg_Finite in Hy.
  cbn [Float64.mul]. apply of_ratio_nonneg; [nia | lia].
Qed.

Lemma add_nonneg (x y : Float64.float) :
  float_nonneg x -> float_nonneg y -> float_nonneg (Float64.add x y).
Proof.
  destruct x as [a | |], y as [b | |]; intros Hx Hy;
    try discriminate Hx; try discriminate Hy; try reflexivity.
  apply float_nonneg_Finite in Hx. apply float_nonneg_Finite in Hy.
  cbn [Float64.add]. apply of_ratio_nonneg; [nia | lia].
Qed.

Lemma of_Z_nonneg (z : Z) : 0 <= z -> float_nonneg (Float64.of_Z z).
Proof. intros H. apply of_ratio_nonneg; lia. Qed.

Lemma of_decimal_nonneg (ip fp : string) : float_nonneg (Float64.of_decimal ip fp).
Proof.
  apply of_ratio_nonneg.
  - apply int_of_digits_from_nonneg. lia.
  - apply Z.pow_pos_nonneg; lia.
Qed.

Lemma to_int_nonneg (x : Float64.float) (z : Z) :
  float_nonneg x -> Float64.to_int x = Ok z -> 0 <= z.
Proof.
  destruct x as [q | |]; intros Hx H; try discriminate H.
  apply float_nonneg_Finite in Hx. injection H as <-. apply Z.div_pos; lia.
Qed.

Lemma float_of_string_nonneg (s : string) (f : Float64.float) :
  Float64.float_of_string s = Ok f -> float_nonneg f.
Proof.
  unfold Float64.float_of_string.
  destruct (Str.span Str.is_digit s) as [ip r1].
  destruct r1 as [| c r2].
  - destruct (Str.is_empty ip); [discriminate |].
    intros H; injection H as <-. apply of_decimal_nonneg.
  - destruct (Ascii.eqb c "."); [| discriminate].
    destruct (Str.span Str.is_digit r2) as [fp r3].
    destruct (Str.is_empty r3 && negb (Str.is_empty ip && Str.is_empty fp))%bool;
      [| discriminate].
    intros H; injection H as <-. apply of_decimal_nonneg.
Qed.

Lemma scaled_nonneg (s : string) (factor z : Z) :
  0 <= factor ->
  (f <- Float64.float_of_string s ;;
   Float64.to_int (Float64.mul f (Float64.of_Z factor))) = Ok z ->
  0 <= z.
Proof.
  intros Hfactor H. destruct (Float64.float_of_string s) as [f | e] eqn:E;
    [| discriminate].
  cbn [bind] in H. eapply to_int_nonneg; [| eassumption].
  apply mul_nonneg; [eapply float_of_string_nonneg; eassumption |].
  apply of_Z_nonneg. assumption.
Qed.

Lemma try_except_nonneg (c : result Z) :
  (forall z, c = Ok z -> 0 <= z) -> 0 <= try_except c 0.
Proof. destruct c as [z | e]; simpl; intros H; [apply H; reflexivity | lia]. Qed.

Lemma parse_count_nonneg (text : string) : 0 <= parse_count text.
Proof.
  unfold parse_count. apply try_except_nonneg. intros z.
  destruct (Str.is_empty text); [intros [= <-]; lia |].
  destruct (search count_regex text) as [m |]; [| intros [= <-]; lia].
  destruct (Str.contains "k" _).
  - apply scaled_nonneg. lia.
  - destruct (Str.contains "m" _).
    + apply scaled_nonneg. lia.
    + intros [= <-]. apply try_except_nonneg. intros z.
      destruct (Float64.float_of_string _) as [f | e] eqn:E; [| discriminate].
      cbn [bind]. apply to_int_nonneg. eapply float_of_string_nonneg; eassumption.
Qed.

(** ** The numbers the scripts read start with a digit *)
Lemma rmatch_group_free {R : Type} (r : regex) :
  group_free r = true ->
  forall s caps (k : string -> captures -> option R) x,
  rmatch r s caps k = Some x ->
  exists s', is_suffix s' s /\ k s' caps = Some x.
Proof.
  induction r as [| p | r1 IH1 r2 IH2 | r1 IH1 r2 IH2 | r1 IH1 | p | n r1 IH1];
    intros Hfree s caps k x H; cbn [rmatch group_free] in *.
  - exists s. split; [apply is_suffix_refl | assumption].
  - destruct s as [| c s]; [discriminate |].
    destruct (p c); [| discriminate].
    exists s. split; [apply is_suffix_tail | assumption].
  - apply andb_true_iff in Hfree. destruct Hfree as [H1 H2].
    apply (IH1 H1) in H. destruct H as [s1 [Hs1 H]].
    apply (IH2 H2) in H. destruct H as [s2 [Hs2 H]].
    exists s2. split; [eapply is_suffix_trans; eassumption | assumption].
  - apply andb_true_iff in Hfree. destruct Hfree as [H1 H2].
    destruct (rmatch r1 s caps k) eqn:E.
    + injection H as <-. apply (IH1 H1) in E. exact E.
    + apply (IH2 H2) in H. exact H.
  - destruct (rmatch r1 s caps k) eqn:E.
    + injection H as <-. apply (IH1 Hfree) in E. exact E.
    + exists s. split; [apply is_suffix_refl | assumption].
  - apply star_match_suffix in H. exact H.
  - discriminate.
Qed.

Lemma group_free_Lit (w : string) : group_free (Lit w) = true.
Proof. induction w as [| c w IH]; simpl; [reflexivity | assumption]. Qed.

Lemma group_free_Alts (rs : list regex) :
  forallb group_free rs = true -> group_free (Alts rs) = true.
Proof.
  induction rs as [| r rest IH]; [reflexivity |].
  intros H. cbn [forallb] in H. apply andb_true_iff in H. destruct H as [Hr Hrest].
  destruct rest as [| r' rest']; [assumption |].
  cbn [Alts group_free]. rewrite Hr. apply IH. assumption.
Qed.

Lemma group_free_words (words : list string) :
  group_free (Alts (List.map Lit words)) = true.
Proof.
  apply group_free_Alts. induction words as [| w ws IH]; simpl; [reflexivity |].
  rewrite group_free_Lit. assumption.
Qed.

Lemma search_match_here (r : regex) (s : string) (m : match_obj) :
  search r s = Some m -> exists s1, match_here r s1 = Some m.
Proof.
  induction s as [| c s IH]; cbn [search].
  - destruct (match_here r "") eqn:E; [| discriminate].
    intros [= <-]. exists "". assumption.
  - destruct (match_here r (String c s)) eqn:E.
    + intros [= <-]. exists (String c s). assumption.
    + apply IH.
Qed.

Lemma consumed_head (d : ascii) (s t : string) :
  Str.is_digit d = true -> is_suffix t s -> digit_headed (Str.consumed (String d s) t).
Proof.
  intros Hd [pre ->]. exists d, pre. split; [| assumption].
  apply (consumed_append (String d pre) t).
Qed.

Lemma search_counted (words : list string) (s : string) (m : match_obj) :
  search (counted_regex words) s = Some m ->
  digit_headed (whole m)
  /\ exists g, groups m = [(1%nat, g)] /\ digit_headed g.
Proof.
  intros H. apply search_match_here in H. destruct H as [s1 H].
  unfold match_here, counted_regex, Plus in H. cbn [rmatch] in H.
  destruct s1 as [| d s2]; [discriminate |].
  destruct (Str.is_digit d) eqn:Hd; [| discriminate].
  apply star_match_suffix in H. destruct H as [t1 [Ht1 H]].
  apply star_match_suffix in H. destruct H as [t2 [Ht2 H]].
  apply star_match_suffix in H. destruct H as [t3 [Ht3 H]].
  apply (rmatch_group_free _ (group_free_words words)) in H.
  destruct H as [t4 [Ht4 H]]. injection H as <-. cbn [whole groups].
  assert (is_suffix t2 s2) as H2 by (eapply is_suffix_trans; eassumption).
  assert (is_suffix t4 s2) as H4.
  { eapply is_suffix_trans; [eassumption |].
    eapply is_suffix_trans; eassumption. }
  split; [apply consumed_head; assumption |].
  eexists. split; [reflexivity | apply consumed_head; assumption].
Qed.

Lemma digit_not_js_space (d : ascii) : Str.is_digit d = true -> Str.js_isspace d = false.
Proof.
  intros H. apply digit_cases in H. each_member H.
Qed.

Lemma parseFloat_nonneg (s : string) : digit_headed s -> float_nonneg (Float64.parseFloat s).
Proof.
  intros [d [w [-> Hd]]]. unfold Float64.parseFloat.
  cbn [Str.lstrip]. rewrite (digit_not_js_space _ Hd). cbn [Str.span]. rewrite Hd.
  destruct (Str.span Str.is_digit w) as [a b].
  destruct b as [| c r2]; cbn [Str.is_empty]; [apply of_decimal_nonneg |].
  destruct (Ascii.eqb c ".").
  - destruct (Str.span Str.is_digit r2) as [fp r3]. cbn [andb]. apply of_decimal_nonneg.
  - apply of_decimal_nonneg.
Qed.

Lemma parseInt_nonneg (s : string) : digit_headed s -> float_nonneg (Float64.parseInt s).
Proof.
  intros [d [w [-> Hd]]]. unfold Float64.parseInt.
  cbn [Str.lstrip]. rewrite (digit_not_js_space _ Hd). cbn [Str.span]. rewrite Hd.
  destruct (Str.span Str.is_digit w) as [a b]. cbn [Str.is_empty].
  apply of_decimal_nonneg.
Qed.

Lemma keep_count_chars_head (s : string) :
  digit_headed s -> digit_headed (keep_count_chars s).
Proof.
  intros [d [w [-> Hd]]]. unfold keep_count_chars. cbn [Str.filter].
  rewrite Hd. cbn [orb]. eexists. eexists. split; [reflexivity | assumption].
Qed.

Lemma js_count_nonneg (s : string) : digit_headed s -> float_nonneg (js_count s).
Proof.
  intros H. unfold js_count.
  destruct (Str.contains "k" s); [| destruct (Str.contains "m" s)].
  - apply mul_nonneg; [apply parseFloat_nonneg; assumption | apply of_Z_nonneg; lia].
  - apply mul_nonneg; [apply parseFloat_nonneg; assumption | apply of_Z_nonneg; lia].
  - apply parseInt_nonneg. assumption.
Qed.

Lemma container_count_nonneg (words : list string) (t : string) :
  float_nonneg (container_count words t).
Proof.
  unfold container_count.
  destruct (search (counted_regex words) t) as [m |] eqn:E; [| reflexivity].
  destruct (search_counted _ _ _ E) as [_ [g [Hg Hhead]]]. rewrite Hg.
  cbn [group Nat.eqb]. apply js_count_nonneg. apply keep_count_chars_head. assumption.
Qed.

Lemma scan_count_nonneg (words : list string) (t : string) (old : Float64.float) :
  float_nonneg old -> float_nonneg (scan_count words t old).
Proof.
  intros Hold. unfold scan_count.
  destruct (existsb _ words); [| assumption].
  destruct (search (counted_regex words) t) as [m |] eqn:E; [| assumption].
  destruct (search_counted _ _ _ E) as [Hwhole _].
  apply js_count_nonneg. apply keep_count_chars_head. assumption.
Qed.

Lemma script_container_counts_nonneg (container : Node) :
  triple_nonneg (script_container_counts container).
Proof.
  unfold script_container_counts, triple_nonneg.
  repeat split; apply container_count_nonneg.
Qed.

Lemma script_scan_counts_nonneg (post : Node) :
  triple_nonneg (script_scan_counts post).
Proof.
  unfold script_scan_counts.
  assert (triple_nonneg (Float64.of_Z 0, Float64.of_Z 0, Float64.of_Z 0)) as Hinit
      by (repeat split).
  revert Hinit. generalize (Float64.of_Z 0, Float64.of_Z 0, Float64.of_Z 0).
  induction (query post "*") as [| el rest IH]; intros acc Hacc; cbn [fold_left];
    [assumption |].
  apply IH. destruct acc as [[a b] c]. destruct Hacc as [Ha [Hb Hc]].
  repeat split; apply scan_count_nonneg; assumption.
Qed.

Lemma of_js_nonneg (x : Float64.float) : float_nonneg x -> Num.nonneg (Num.of_js x) = true.
Proof.
  destruct x as [q | |]; intros H; try discriminate H; [| reflexivity].
  unfold Num.of_js. destruct (Float64.is_integral (Float64.Finite q)); [| assumption].
  apply float_nonneg_Finite in H. cbn [Num.nonneg]. apply Z.leb_le.
  apply Z.div_pos; lia.
Qed.

Lemma of_triple_nonneg (t : triple) : triple_nonneg t -> counts_nonneg (of_triple t).
Proof.
  destruct t as [[a b] c]. intros [Ha [Hb Hc]].
  repeat split; apply of_js_nonneg; assumption.
Qed.

Lemma max_badge_nonneg (words : list string) (elements : list WebElement) :
  forall best b,
  Num.nonneg best = true ->
  max_badge words elements best = Ok b -> Num.nonneg b = true.
Proof.
  induction elements as [| el rest IH]; intros best b Hbest H; cbn [max_badge] in H.
  - injection H as <-. assumption.
  - destruct (element_text el) as [t | e]; [| discriminate]. cbn [bind] in H.
    destruct (negb (Str.is_empty (Str.strip t)) && badge_counts words (Str.strip t))%bool.
    + eapply IH; [| eassumption].
      destruct (Num.ltb best (Int (parse_count (Str.strip t)))); [| assumption].
      cbn [Num.nonneg]. apply Z.leb_le. apply parse_count_nonneg.
    + eapply IH; eassumption.
Qed.

Lemma max_over_nonneg (post : WebElement) (words selectors : list string) :
  forall best b,
  Num.nonneg best = true ->
  max_over post words selectors best = Ok b -> Num.nonneg b = true.
Proof.
  induction selectors as [| selector rest IH]; intros best b Hbest H;
    cbn [max_over] in H.
  - injection H as <-. assumption.
  - destruct (element_find post selector) as [elements | e]; [| discriminate].
    cbn [bind] in H.
    destruct (max_badge words elements best) as [b1 |] eqn:E; [| discriminate].
    cbn [bind] in H. eapply IH; [| eassumption].
    eapply max_badge_nonneg; eassumption.
Qed.

Lemma execute_script_counts (script : Node -> triple) (e : WebElement) (t : triple) :
  (forall n, triple_nonneg (script n)) ->
  execute_script script e = Ok t -> triple_nonneg t.
Proof.
  intros Hscript. destruct e as [n |]; [| discriminate].
  intros [= <-]. apply Hscript.
Qed.

Lemma extract_engagement_nonneg (post : WebElement) :
  counts_nonneg (extract_engagement post).
Proof.
  unfold extract_engagement.
  match goal with |- counts_nonneg (try_except ?c _) => destruct c as [r | e] eqn:E end;
    [| repeat split].
  cbn [try_except].
  destruct (find_container post social_counts_selectors) as [social_container | e];
    cbn [bind] in E; [| discriminate E].
  match type of E with
  | bind ?first ?next = _ =>
      assert (exists c1, counts_nonneg c1 /\ next c1 = Ok r) as [c1 [Hc1 E1]]
  end.
  { destruct social_container as [container |].
    - destruct (execute_script script_container_counts container) as [t | e] eqn:Et;
        cbn [bind] in E; [| discriminate E].
      exists (of_triple t). split; [| assumption].
      apply of_triple_nonneg.
      eapply execute_script_counts; [apply script_container_counts_nonneg | eassumption].
    - cbn [bind] in E. exists (Int 0, Int 0, Int 0). split; [repeat split | assumption]. }
  clear E. cbn beta in E1.
  match type of E1 with
  | bind ?first ?next = _ =>
      assert (exists c2, counts_nonneg c2 /\ next c2 = Ok r) as [c2 [Hc2 E2]]
  end.
  { destruct (all_zero c1).
    - destruct c1 as [[a b] c]. destruct Hc1 as [Ha [Hb Hc]].
      destruct (max_over post ["like"; "reaction"] reaction_selectors a) as [a' | e] eqn:Ea;
        cbn [bind] in E1; [| discriminate E1].
      destruct (max_over post ["comment"] comment_selectors b) as [b' | e] eqn:Eb;
        cbn [bind] in E1; [| discriminate E1].
      destruct (max_over post ["repost"; "share"] repost_selectors c) as [c' | e] eqn:Ec;
        cbn [bind] in E1; [| discriminate E1].
      exists (a', b', c'). split; [| assumption].
      repeat split; (eapply max_over_nonneg; [| eassumption]; assumption).
    - cbn [bind] in E1. exists c1. split; assumption. }
  clear E1. cbn beta in E2.
  destruct (all_zero c2).
  - destruct (execute_script script_scan_counts post) as [t | e] eqn:Et;
      cbn [bind] in E2; [| discriminate E2].
    injection E2 as <-. apply of_triple_nonneg.
    eapply execute_script_counts; [apply script_scan_counts_nonneg | eassumption].
  - injection E2 as <-. assumption.
Qed.

Lemma to_float_nonneg (x : number) : Num.nonneg x = true -> float_nonneg (Num.to_float x).
Proof.
  destruct x as [z | f]; intros H; [| assumption].
  apply of_Z_nonneg. apply Z.leb_le. assumption.
Qed.

Lemma num_add_nonneg (x y : number) :
  Num.nonneg x = true -> Num.nonneg y = true -> Num.nonneg (Num.add x y) = true.
Proof.
  intros Hx Hy.
  assert (float_nonneg (Float64.add (Num.to_float x) (Num.to_float y))) as Hf
      by (apply add_nonneg; apply to_float_nonneg; assumption).
  destruct x as [a | f], y as [b | g]; try exact Hf.
  cbn [Num.add Num.nonneg] in *. apply Z.leb_le.
  apply Z.leb_le in Hx. apply Z.leb_le in Hy. lia.
Qed.

(** C4 (what the code does). In every record the total engagement is the
    sum of the reactions, the comments and the reposts, and none of the
    four is negative. They are not always integers: the scripts multiply a
    K or M count as a double and do not truncate it, unlike
    [parse_count], so a container that shows "16.1K reactions" gives the
    reactions 16100.000000000002, a float, and a total that is no integer
    either. *)
Theorem C4_engagement_sum_nonnegative_not_always_integer
        (self : Scraper) (page : Page) (post_data : list PostRecord) (r : PostRecord) :
  extract_posts self page = Ok post_data ->
  In r post_data ->
  total_engagement r = Num.add (Num.add (reactions r) (comments r)) (reposts r)
  /\ Num.nonneg (reactions r) = true
  /\ Num.nonneg (comments r) = true
  /\ Num.nonneg (reposts r) = true
  /\ Num.nonneg (total_engagement r) = true
  /\ exists r',
       extract_posts (Sample.scraper 5) Sample.popular_page = Ok [r']
       /\ reactions r' = Float (Float64.Finite (Qmake 8851068603596801 549755813888))
       /\ Num.is_int (reactions r') = false
       /\ Num.is_int (total_engagement r') = false.
Proof.
  intros H Hin. destruct (extract_posts_In _ _ _ _ H Hin) as [j [post [_ Hp]]].
  apply process_post_fields in Hp.
  destruct Hp as [_ [_ [_ [Hcounts [Htotal _]]]]].
  pose proof (extract_engagement_nonneg post) as Hnonneg.
  rewrite <- Hcounts in Hnonneg. destruct Hnonneg as [Ha [Hb Hc]].
  split; [assumption |]. split; [assumption |].
  split; [assumption |]. split; [assumption |]. split.
  - rewrite Htotal. apply num_add_nonneg; [apply num_add_nonneg |]; assumption.
  - eexists. split; [vm_compute; reflexivity |]. repeat split.
Qed.

Lemma C4_engagement_sum_nonnegative_not_always_integer_witness :
  exists r r', extract_posts (Sample.scraper 5) Sample.page = Ok [r; r']
               /\ total_engagement r = Int 47 /\ total_engagement r' = Int 0.
Proof.
  assert (exists r r', extract_posts (Sample.scraper 5) Sample.page = Ok [r; r']
                       /\ (reactions r, comments r, reposts r) = (Int 42, Int 5, Int 0)
                       /\ (reactions r', comments r', reposts r') = (Int 0, Int 0, Int 0))
    as [r [r' [E [Hr Hr']]]].
  { do 2 eexists. split; [vm_compute; reflexivity |]. split; reflexivity. }
  exists r, r'. split; [exact E |].
  injection Hr as Ha Hb Hc. injection Hr' as Ha' Hb' Hc'. split.
  - rewrite (proj1 (C4_engagement_sum_nonnegative_not_always_integer
                      (Sample.scraper 5) Sample.page [r; r'] r E (or_introl eq_refl))).
    rewrite Ha, Hb, Hc. reflexivity.
  - rewrite (proj1 (C4_engagement_sum_nonnegative_not_always_integer
                      (Sample.scraper 5) Sample.page [r; r'] r' E
                      (or_intror (or_introl eq_refl)))).
    rewrite Ha', Hb', Hc'. reflexivity.
Defined.

Local Close Scope Z_scope.
Local Open Scope string_scope.

(** ** Prefixes and occurrences *)
Lemma startswith_append (p s t : string) :
  Str.startswith p s = true -> Str.startswith p (s ++ t) = true.
Proof.
  revert s. induction p as [| a p IH]; intros s H; [reflexivity |].
  destruct s as [| b s]; simpl in *; [discriminate |].
  apply andb_true_iff in H. destruct H as [H1 H2].
  rewrite H1. simpl. apply IH; assumption.
Qed.

Lemma startswith_self (p t : string) : Str.startswith p (p ++ t) = true.
Proof.
  induction p as [| a p IH]; simpl; [reflexivity |].
  rewrite Ascii.eqb_refl. exact IH.
Qed.

Lemma startswith_split (p s : string) :
  Str.startswith p s = true <-> exists t, s = p ++ t.
Proof.
  split.
  - revert s. induction p as [| a p IH]; intros s H.
    + exists s. reflexivity.
    + destruct s as [| b s]; simpl in H; [discriminate |].
      apply andb_true_iff in H. destruct H as [H1 H2].
      apply Ascii.eqb_eq in H1. subst b.
      destruct (IH _ H2) as [t ->]. exists t. reflexivity.
  - intros [t ->]. apply startswith_self.
Qed.

Lemma contains_unfold (p s : string) :
  Str.contains p s
  = (Str.startswith p s
     || match s with
        | EmptyString => false
        | String _ s' => Str.contains p s'
        end)%bool.
Proof. destruct s; reflexivity. Qed.

(** [p in s] holds exactly when [s] is some text, [p], and some text. *)
Lemma contains_iff (p s : string) :
  Str.contains p s = true <-> exists pre post, s = pre ++ p ++ post.
Proof.
  split.
  - induction s as [| c s IH]; rewrite contains_unfold; intros H.
    + rewrite orb_false_r in H. apply startswith_split in H.
      destruct H as [t H]. exists "", t. exact H.
    + apply orb_true_iff in H. destruct H as [H | H].
      * apply startswith_split in H. destruct H as [t H]. exists "", t. exact H.
      * destruct (IH H) as [pre [post ->]]. exists (String c pre), post. reflexivity.
  - intros [pre [post ->]]. induction pre as [| c pre IH].
    + simpl append. rewrite contains_unfold, startswith_self. reflexivity.
    + simpl append. rewrite contains_unfold, IH. apply orb_true_r.
Qed.

Lemma contains_self (p a b : string) : Str.contains p (a ++ p ++ b) = true.
Proof. apply contains_iff. exists a, b. reflexivity. Qed.

Lemma contains_inside (p a s b : string) :
  Str.contains p s = true -> Str.contains p (a ++ s ++ b) = true.
Proof.
  intros H. apply contains_iff in H. destruct H as [pre [post ->]].
  apply contains_iff. exists (a ++ pre), (post ++ b).
  rewrite !append_assoc. reflexivity.
Qed.

Lemma contains_outside (p a s b : string) :
  Str.contains p (a ++ s ++ b) = false -> Str.contains p s = false.
Proof.
  intros H. destruct (Str.contains p s) eqn:E; [| reflexivity].
  rewrite (contains_inside p a s b E) in H. discriminate.
Qed.

(** A text that has no occurrence of a pattern has none of a longer one. *)
Lemma contains_longer (a p b s : string) :
  Str.contains p s = false -> Str.contains (a ++ p ++ b) s = false.
Proof.
  intros H. destruct (Str.contains (a ++ p ++ b) s) eqn:E; [| reflexivity].
  apply contains_iff in E. destruct E as [pre [post ->]].
  assert (Str.contains p (pre ++ (a ++ p ++ b) ++ post) = true) as H'.
  { apply contains_iff. exists (pre ++ a), (b ++ post).
    rewrite !append_assoc. reflexivity. }
  congruence.
Qed.

(** A prefix test on [w ++ t] is settled inside [w], or [w] is a proper
    start of the pattern and the rest of the pattern starts [t]. *)
Lemma startswith_straddle (p w t : string) :
  Str.startswith p (w ++ t) = true ->
  Str.startswith p w = true
  \/ exists p2, p = w ++ p2 /\ Str.startswith p2 t = true.
Proof.
  revert p. induction w as [| c w IH]; intros p H.
  - right. exists p. split; [reflexivity | exact H].
  - destruct p as [| a p]; [left; reflexivity |].
    simpl in H. apply andb_true_iff in H. destruct H as [H1 H2].
    apply Ascii.eqb_eq in H1. subst c.
    destruct (IH _ H2) as [Hin | [p2 [-> Hp2]]].
    + left. simpl. rewrite Ascii.eqb_refl. exact Hin.
    + right. exists p2. split; [reflexivity | exact Hp2].
Qed.

(** ** Reversal *)
Lemma rev_onto_append (s acc : string) : Str.rev_onto s acc = Str.rev s ++ acc.
Proof.
  unfold Str.rev. revert acc. induction s as [| c s IH]; intros acc; simpl; [reflexivity |].
  rewrite IH, (IH (String c "")), append_assoc. reflexivity.
Qed.

Lemma rev_append (a b : string) : Str.rev (a ++ b) = Str.rev b ++ Str.rev a.
Proof.
  induction a as [| c a IH]; simpl.
  - rewrite append_nil_r. reflexivity.
  - unfold Str.rev in *. simpl.
    rewrite (rev_onto_append (a ++ b)), (rev_onto_append a).
    unfold Str.rev in *. rewrite IH, append_assoc. reflexivity.
Qed.

Lemma endswith_self (p a : string) : Str.endswith p (a ++ p) = true.
Proof. unfold Str.endswith. rewrite rev_append. apply startswith_self. Qed.

Lemma endswith_split (p s : string) :
  Str.endswith p s = true <-> exists a, s = a ++ p.
Proof.
  split.
  - unfold Str.endswith. intros H. apply startswith_split in H. destruct H as [t H].
    exists (Str.rev t). rewrite <- (rev_involutive s), H, rev_append, rev_involutive.
    reflexivity.
  - intros [a ->]. apply endswith_self.
Qed.

(** ** Stripping *)
Section Strip.
Variable sp : ascii -> bool.

Lemma lstrip_clean (s : string) : left_clean sp (Str.lstrip sp s).
Proof.
  induction s as [| c s IH]; simpl; [exact I |].
  destruct (sp c) eqn:E; [exact IH | exact E].
Qed.

Lemma lstrip_fixed (s : string) : left_clean sp s -> Str.lstrip sp s = s.
Proof. destruct s as [| c s]; simpl; [reflexivity | intros ->; reflexivity]. Qed.

Lemma lstrip_split (s : string) :
  exists pre, s = pre ++ Str.lstrip sp s /\ Str.forallb sp pre = true.
Proof.
  induction s as [| c s IH]; simpl.
  - exists "". split; reflexivity.
  - destruct (sp c) eqn:E.
    + destruct IH as [pre [H1 H2]]. exists (String c pre). split.
      * simpl. rewrite <- H1. reflexivity.
      * simpl. rewrite E, H2. reflexivity.
    + exists "". split; reflexivity.
Qed.

(** What [strip] leaves is a part of the text: blanks come off both ends. *)
Lemma strip_with_split (s : string) :
  exists pre post,
    s = pre ++ Str.strip_with sp s ++ post
    /\ Str.forallb sp pre = true /\ Str.forallb sp post = true.
Proof.
  unfold Str.strip_with.
  destruct (lstrip_split s) as [pre [H1 H2]].
  destruct (lstrip_split (Str.rev (Str.lstrip sp s))) as [pre' [H3 H4]].
  exists pre, (Str.rev pre'). split; [| split].
  - rewrite <- rev_append, <- H3, rev_involutive. exact H1.
  - exact H2.
  - unfold Str.rev. rewrite forallb_rev_onto, H4. reflexivity.
Qed.

Lemma strip_with_left_clean (s : string) : left_clean sp (Str.strip_with sp s).
Proof.
  unfold Str.strip_with.
  destruct (lstrip_split (Str.rev (Str.lstrip sp s))) as [pre' [H3 H4]].
  pose proof (lstrip_clean s) as Hc.
  assert (Str.lstrip sp s
          = Str.rev (Str.lstrip sp (Str.rev (Str.lstrip sp s))) ++ Str.rev pre') as Hs.
  { rewrite <- rev_append, <- H3, rev_involutive. reflexivity. }
  destruct (Str.rev (Str.lstrip sp (Str.rev (Str.lstrip sp s)))) as [| c t]; [exact I |].
  rewrite Hs in Hc. exact Hc.
Qed.

Lemma strip_with_idempotent (s : string) :
  Str.strip_with sp (Str.strip_with sp s) = Str.strip_with sp s.
Proof.
  pose proof (strip_with_left_clean s) as Hc.
  unfold Str.strip_with at 1. rewrite (lstrip_fixed _ Hc).
  unfold Str.strip_with. rewrite rev_involutive.
  rewrite (lstrip_fixed _ (lstrip_clean _)). reflexivity.
Qed.

Lemma strip_with_contains (p s : string) :
  Str.contains p s = false -> Str.contains p (Str.strip_with sp s) = false.
Proof.
  intros H. destruct (strip_with_split s) as [pre [post [Hs _]]].
  rewrite Hs in H. eapply contains_outside. exact H.
Qed.

(** A text without a blank at either end is left as it is. *)
Lemma strip_with_fixed (s : string) :
  left_clean sp s -> left_clean sp (Str.rev s) -> Str.strip_with sp s = s.
Proof.
  intros H1 H2. unfold Str.strip_with.
  rewrite (lstrip_fixed _ H1), (lstrip_fixed _ H2). apply rev_involutive.
Qed.

Lemma left_clean_none (s : string) :
  Str.forallb (fun c => negb (sp c)) s = true -> left_clean sp s.
Proof.
  destruct s as [| c s]; simpl; [intros; exact I |].
  intros H. apply andb_true_iff in H. destruct H as [H _].
  apply negb_true_iff in H. exact H.
Qed.

Lemma strip_with_none (s : string) :
  Str.forallb (fun c => negb (sp c)) s = true -> Str.strip_with sp s = s.
Proof.
  intros H. apply strip_with_fixed; apply left_clean_none; [exact H |].
  unfold Str.rev. rewrite forallb_rev_onto, H. reflexivity.
Qed.

Lemma lstrip_blanks (pre s : string) :
  Str.forallb sp pre = true -> Str.lstrip sp (pre ++ s) = Str.lstrip sp s.
Proof.
  induction pre as [| c pre IH]; simpl; [reflexivity |].
  intros H. apply andb_true_iff in H. destruct H as [H1 H2].
  rewrite H1. apply IH. exact H2.
Qed.

Lemma strip_with_blanks (pre s : string) :
  Str.forallb sp pre = true ->
  Str.strip_with sp (pre ++ s) = Str.strip_with sp s.
Proof. intros H. unfold Str.strip_with. rewrite lstrip_blanks by exact H. reflexivity. Qed.

End Strip.

(** ** The text of a post *)
Lemma sub_from_skip (r : regex) (repl pre s : string) :
  sub_from r repl (String.length pre) (pre ++ s) = sub_from r repl 0 s.
Proof. induction pre as [| c pre IH]; simpl; [reflexivity | exact IH]. Qed.

Lemma span_rest_clean (p : ascii -> bool) (s : string) :
  left_clean p (snd (Str.span p s)).
Proof.
  induction s as [| c s IH]; simpl; [exact I |].
  destruct (p c) eqn:E; [| exact E].
  destruct (Str.span p s) as [a b]. exact IH.
Qed.

Lemma span_rest_length (p : ascii -> bool) (s : string) :
  (String.length (snd (Str.span p s)) <= String.length s)%nat.
Proof.
  rewrite (span_append p s) at 2. rewrite length_append. lia.
Qed.

(** A run [p+] that starts here is read to its end. *)
Lemma match_here_plus (p : ascii -> bool) (c : ascii) (s : string) :
  p c = true ->
  match_here (Plus p) (String c s)
  = Some (MatchObj (String c (fst (Str.span p s))) [] (snd (Str.span p s))).
Proof.
  intros Hc. unfold match_here, Plus. cbn [rmatch]. rewrite Hc.
  rewrite (star_match_greedy p
             (fun s' => MatchObj (Str.consumed (String c s) s') [] s')).
  do 2 f_equal.
  rewrite (span_append p s) at 1.
  change (String c (fst (Str.span p s) ++ snd (Str.span p s)))
    with (String c (fst (Str.span p s)) ++ snd (Str.span p s)).
  apply consumed_append.
Qed.

Lemma match_here_plus_none (p : ascii -> bool) (c : ascii) (s : string) :
  p c = false -> match_here (Plus p) (String c s) = None.
Proof. intros Hc. unfold match_here, Plus. cbn [rmatch]. rewrite Hc. reflexivity. Qed.

(** After [re.sub(r' +', ' ', text)] no two spaces stand side by side. *)
Lemma sub_spaces_single (n : nat) :
  forall s, (String.length s <= n)%nat ->
  Str.contains "  " (sub spaces_regex " " s) = false
  /\ (Str.startswith " " s = false ->
      Str.startswith " " (sub spaces_regex " " s) = false).
Proof.
  induction n as [| n IH]; intros s Hlen.
  - destruct s; [split; reflexivity | simpl in Hlen; lia].
  - destruct s as [| c s]; [split; reflexivity |].
    unfold sub, spaces_regex. cbn [sub_from].
    destruct (is_char " " c) eqn:E.
    + rewrite (match_here_plus _ _ _ E). cbn [whole].
      apply Ascii.eqb_eq in E. subst c.
      replace (String.length (String " " (fst (Str.span (is_char " ") s))) - 1)%nat
        with (String.length (fst (Str.span (is_char " ") s))) by (simpl; lia).
      rewrite (span_append (is_char " ") s) at 2 5.
      rewrite sub_from_skip.
      pose proof (span_rest_clean (is_char " ") s) as Hclean.
      pose proof (span_rest_length (is_char " ") s) as Hshort.
      destruct (IH (snd (Str.span (is_char " ") s))) as [H1 H2];
        [simpl in Hlen; lia |].
      assert (Str.startswith " " (snd (Str.span (is_char " ") s)) = false) as Hhead.
      { destruct (snd (Str.span (is_char " ") s)) as [| d t]; [reflexivity |].
        simpl in Hclean. simpl. unfold is_char in Hclean. rewrite Hclean. reflexivity. }
      specialize (H2 Hhead). unfold sub, spaces_regex in H1, H2.
      split; [| discriminate].
      simpl append. rewrite contains_unfold, H1.
      change (Str.startswith "  " (String " " ?x)) with (Str.startswith " " x).
      rewrite H2. reflexivity.
    + rewrite (match_here_plus_none _ _ _ E).
      destruct (IH s) as [H1 H2]; [simpl in Hlen; lia |].
      unfold sub, spaces_regex in H1, H2.
      unfold is_char in E.
      split.
      * rewrite contains_unfold, H1. cbn [Str.startswith]. rewrite E. reflexivity.
      * intros _. cbn [Str.startswith]. rewrite E. reflexivity.
Qed.

(** X1. Whatever the container, live or stale, the text that
    [extract_post_text] returns has no blank at either end (stripping it
    again changes nothing) and nowhere two spaces side by side. *)
Theorem extract_post_text_is_tidy (post : WebElement) :
  Str.strip (extract_post_text post) = extract_post_text post
  /\ Str.contains "  " (extract_post_text post) = false.
Proof.
  unfold extract_post_text.
  destruct (longest_over post text_content_selectors "") as [t | e];
    [| split; reflexivity].
  cbn [bind].
  destruct (if Str.is_empty t then execute_script script_visible_text post else Ok t)
    as [t' | e]; [| split; reflexivity].
  cbn [bind try_except]. split.
  - apply strip_with_idempotent.
  - apply strip_with_contains.
    eapply (proj1 (sub_spaces_single _ _ (le_n _))).
Qed.

(** ** Which text is taken *)
Lemma longest_text_live (elements : list Node) :
  forall post_text,
  exists t,
    longest_text (map Live elements) post_text = Ok t
    /\ (String.length post_text <= String.length t)%nat
    /\ Forall (fun el => (String.length (Str.strip (text el)) <= String.length t)%nat)
              elements
    /\ (t = post_text \/ exists el, In el elements /\ t = Str.strip (text el)).
Proof.
  induction elements as [| el rest IH]; intros post_text.
  - exists post_text. repeat split; [lia | constructor | left; reflexivity].
  - cbn [map longest_text element_text bind].
    destruct (negb (Str.is_empty (Str.strip (text el)))
              && Nat.ltb (String.length post_text)
                         (String.length (Str.strip (text el))))%bool eqn:E.
    + apply andb_true_iff in E. destruct E as [_ E]. apply Nat.ltb_lt in E.
      destruct (IH (Str.strip (text el))) as [t [H1 [H2 [H3 H4]]]].
      exists t. split; [exact H1 | split; [lia | split]].
      * constructor; [exact H2 | exact H3].
      * right. destruct H4 as [-> | [el' [Hin ->]]].
        -- exists el. split; [left; reflexivity | reflexivity].
        -- exists el'. split; [right; exact Hin | reflexivity].
    + destruct (IH post_text) as [t [H1 [H2 [H3 H4]]]].
      exists t. split; [exact H1 | split; [exact H2 | split]].
      * constructor; [| exact H3].
        apply andb_false_iff in E. destruct E as [E | E].
        -- apply negb_false_iff in E.
           destruct (Str.strip (text el)); [simpl; lia | discriminate E].
        -- apply Nat.ltb_ge in E. lia.
      * destruct H4 as [-> | [el' [Hin ->]]]; [left; reflexivity |].
        right. exists el'. split; [right; exact Hin | reflexivity].
Qed.

Lemma longest_over_live (n : Node) (selectors : list string) :
  forall post_text,
  exists t,
    longest_over (Live n) selectors post_text = Ok t
    /\ (String.length post_text <= String.length t)%nat
    /\ Forall (fun el => (String.length (Str.strip (text el)) <= String.length t)%nat)
              (flat_map (query n) selectors)
    /\ (t = post_text
        \/ exists el, In el (flat_map (query n) selectors) /\ t = Str.strip (text el)).
Proof.
  induction selectors as [| selector rest IH]; intros post_text.
  - exists post_text. repeat split; [lia | constructor | left; reflexivity].
  - cbn [longest_over element_find bind flat_map].
    destruct (longest_text_live (query n selector) post_text) as [t1 [E1 [L1 [F1 C1]]]].
    rewrite E1. cbn [bind].
    destruct (IH t1) as [t [E [L [F C]]]].
    exists t. split; [exact E | split; [lia | split]].
    + apply Forall_app. split; [| exact F].
      eapply Forall_impl; [| exact F1]. cbv beta. intros el H. lia.
    + destruct C as [-> | [el [Hin ->]]].
      * destruct C1 as [-> | [el [Hin ->]]]; [left; reflexivity |].
        right. exists el. split; [apply in_or_app; left; exact Hin | reflexivity].
      * right. exists el. split; [apply in_or_app; right; exact Hin | reflexivity].
Qed.

(** X2. Of the elements that the four content selectors find below a
    live container, [extract_post_text] takes the one whose text, blanks
    stripped from its ends, is longest: the text it goes on to clean is
    the stripped text of one of these elements and no other is longer.
    Only when all of them are blank does it turn to its script. *)
Theorem extract_post_text_takes_the_longest (n : Node) :
  exists t,
    longest_over (Live n) text_content_selectors "" = Ok t
    /\ Forall (fun el => (String.length (Str.strip (text el)) <= String.length t)%nat)
              (flat_map (query n) text_content_selectors)
    /\ (t = ""
        \/ exists el, In el (flat_map (query n) text_content_selectors)
                      /\ t = Str.strip (text el))
    /\ extract_post_text (Live n)
       = Str.strip
           (sub spaces_regex " "
              (sub blank_lines_regex (newline ++ newline)
                   (if Str.is_empty t then script_visible_text n else t))).
Proof.
  destruct (longest_over_live n text_content_selectors "") as [t [E [_ [F C]]]].
  exists t. split; [exact E | split; [exact F | split; [exact C |]]].
  unfold extract_post_text. rewrite E. cbn [bind].
  destruct (Str.is_empty t); reflexivity.
Qed.

(** ** The activity URL *)
(** X3. The URL that [navigate_to_profile] loads always names the activity
    page; computing it again from itself changes nothing; and for a
    profile URL that does not name the activity page it is that URL, one
    slash at its end left out, followed by [/recent-activity/all/]. *)
Theorem activity_url_normal_form (profile_url : string) :
  Str.contains "recent-activity/all" (activity_url profile_url) = true
  /\ activity_url (activity_url profile_url) = activity_url profile_url
  /\ (Str.contains "recent-activity/all" profile_url = false ->
      exists base,
        (profile_url = base \/ profile_url = base ++ "/")
        /\ activity_url profile_url = base ++ "/recent-activity/all/").
Proof.
  assert (Str.contains "recent-activity/all" (activity_url profile_url) = true) as H.
  { unfold activity_url.
    destruct (Str.contains "recent-activity/all" profile_url) eqn:E; [exact E |].
    apply (contains_self "recent-activity/all" _ "/"). }
  split; [exact H | split].
  - unfold activity_url at 1. rewrite H. reflexivity.
  - intros E. unfold activity_url. rewrite E.
    destruct (Str.endswith "/" profile_url) eqn:Hs.
    + apply endswith_split in Hs. destruct Hs as [base ->].
      exists base. split; [right; reflexivity |].
      rewrite append_assoc. reflexivity.
    + exists profile_url. split; [left; reflexivity |].
      rewrite append_assoc. reflexivity.
Qed.

Lemma activity_url_normal_form_witness :
  exists base,
    ("https://www.linkedin.com/in/jane-doe/" = base
     \/ "https://www.linkedin.com/in/jane-doe/" = base ++ "/")
    /\ activity_url "https://www.linkedin.com/in/jane-doe/"
       = base ++ "/recent-activity/all/".
Proof.
  exact (proj2 (proj2 (activity_url_normal_form "https://www.linkedin.com/in/jane-doe/"))
               eq_refl).
Defined.

(** ** The profile URL of a record *)
Lemma before_absent (sep s : string) :
  Str.contains sep s = false -> Str.before sep s = s.
Proof.
  induction s as [| c s IH]; [reflexivity |].
  rewrite contains_unfold. intros H. apply orb_false_iff in H. destruct H as [H1 H2].
  cbn [Str.before]. rewrite H1, (IH H2). reflexivity.
Qed.

(** The text before the first occurrence of [sep], when no occurrence
    starts earlier, not even one that runs into [sep] itself. *)
Lemma before_found (sep v rest : string) :
  Str.contains sep v = false ->
  (forall w a p2, w <> "" -> sep = w ++ String a p2 ->
                  Str.startswith (String a p2) (sep ++ rest) = false) ->
  Str.before sep (v ++ sep ++ rest) = v.
Proof.
  intros Hv Hover. induction v as [| c v IH].
  - simpl append. destruct (sep ++ rest) as [| d t] eqn:E; [reflexivity |].
    cbn [Str.before]. rewrite <- E, startswith_self. reflexivity.
  - rewrite contains_unfold in Hv. apply orb_false_iff in Hv. destruct Hv as [H1 H2].
    simpl append. cbn [Str.before].
    destruct (Str.startswith sep (String c (v ++ sep ++ rest))) eqn:E.
    + exfalso.
      destruct (startswith_straddle sep (String c v) (sep ++ rest) E)
        as [Hin | [p2 [Hsep Hp2]]]; [congruence |].
      destruct p2 as [| a p2].
      * rewrite append_nil_r in Hsep. subst sep.
        pose proof (startswith_self (String c v) "") as Hs.
        rewrite append_nil_r in Hs. congruence.
      * rewrite (Hover (String c v) a p2) in Hp2; [discriminate | discriminate | exact Hsep].
    + rewrite (IH H2). reflexivity.
Qed.

Lemma before_activity (v rest : string) :
  Str.contains "/recent-activity" v = false ->
  Str.before "/recent-activity" (v ++ "/recent-activity" ++ rest) = v.
Proof.
  intros H. apply before_found; [exact H |].
  intros w a p2 Hw Hsep.
  destruct w as [| c w]; [congruence |].
  simpl in Hsep. injection Hsep as _ Hsep.
  repeat (destruct w as [| ? w]; simpl in Hsep;
          [injection Hsep as <- _; reflexivity | injection Hsep as _ Hsep]).
  destruct w; discriminate Hsep.
Qed.

(** An occurrence in a text with one more character at its end lies in
    the text or ends with that character. *)
Lemma contains_snoc (p s : string) (c : ascii) :
  Str.contains p (s ++ String c "") = true ->
  Str.contains p s = true \/ Str.endswith p (s ++ String c "") = true.
Proof.
  intros H. apply contains_iff in H. destruct H as [pre [post H]].
  destruct (Str.rev post) as [| d t] eqn:E.
  - right. apply endswith_split. exists pre.
    assert (post = "") as -> by (rewrite <- (rev_involutive post), E; reflexivity).
    rewrite append_nil_r in H. exact H.
  - left. apply contains_iff. exists pre, (Str.rev t).
    assert (post = Str.rev t ++ String d "") as Hpost.
    { rewrite <- (rev_involutive post), E.
      change (String d t) with (String d "" ++ t). apply rev_append. }
    rewrite Hpost, <- !append_assoc in H.
    apply (f_equal Str.rev) in H. rewrite !(rev_append _ (String _ "")) in H.
    simpl in H. injection H as _ H.
    apply (f_equal Str.rev) in H. rewrite !rev_involutive in H.
    rewrite H, !append_assoc. reflexivity.
Qed.

Lemma process_post_origin (self : Scraper) (page : Page) (i : nat) (post : WebElement)
      (r : PostRecord) :
  process_post self page i post = Ok (Some r) ->
  exists url,
    current_url page = Ok url
    /\ profile_url r = Str.before "/recent-activity" url
    /\ profile_name r = extract_profile_name page
    /\ session_id r = self_session_id self
    /\ scraped_at r = format_timestamp (clock page i)
    /\ post_length r = String.length (post_text r).
Proof.
  unfold process_post, bind.
  destruct (shot self page _) as [[] | e]; [| discriminate].
  destruct (is_original_post post); [| discriminate]. cbn [negb].
  destruct (extract_engagement post) as [[a b] c].
  destruct (current_url page) as [url | e]; [| discriminate].
  intros H. injection H as <-. exists url. cbn. repeat split.
Qed.

(** X4. The profile URL kept in a record is the URL that was entered:
    when the entered URL does not mention [recent-activity] and the
    browser shows the activity URL computed from it, written with or
    without a slash at its end, the record holds it without that slash. *)
Theorem profile_url_is_the_url_entered
        (self : Scraper) (page : Page) (i : nat) (post : WebElement)
        (r : PostRecord) (entered : string) :
  Str.contains "recent-activity" entered = false ->
  Str.endswith "/" entered = false ->
  current_url page = Ok (activity_url entered)
  \/ current_url page = Ok (activity_url (entered ++ "/")) ->
  process_post self page i post = Ok (Some r) ->
  profile_url r = entered.
Proof.
  intros Hno Hslash Hurl Hr.
  destruct (process_post_origin _ _ _ _ _ Hr) as [url [Hcur [Hpu _]]].
  rewrite Hpu. clear Hpu Hr.
  pose proof (contains_longer "/" "recent-activity" "" entered Hno) as Hsep.
  pose proof (contains_longer "" "recent-activity" "/all" entered Hno) as Hall.
  simpl in Hsep, Hall.
  destruct Hurl as [Hurl | Hurl]; rewrite Hurl in Hcur; injection Hcur as <-.
  - unfold activity_url. rewrite Hall, Hslash.
    rewrite append_assoc.
    apply (before_activity entered "/all/" Hsep).
  - unfold activity_url.
    assert (Str.contains "recent-activity/all" (entered ++ "/") = false) as ->.
    { destruct (Str.contains "recent-activity/all" (entered ++ "/")) eqn:E; [| reflexivity].
      apply contains_snoc in E. destruct E as [E | E]; [congruence |].
      unfold Str.endswith in E. rewrite rev_append in E. discriminate E. }
    rewrite endswith_self, append_assoc.
    apply (before_activity entered "/all/" Hsep).
Qed.

Lemma profile_url_is_the_url_entered_witness :
  exists r,
    process_post (Sample.scraper 5) Sample.page 1 Sample.hello = Ok (Some r)
    /\ profile_url r = "https://www.linkedin.com/in/jane-doe".
Proof.
  assert (exists r, process_post (Sample.scraper 5) Sample.page 1 Sample.hello
                    = Ok (Some r)) as [r Hr]
      by (eexists; vm_compute; reflexivity).
  exists r. split; [exact Hr |].
  apply (profile_url_is_the_url_entered
           (Sample.scraper 5) Sample.page 1 Sample.hello r
           "https://www.linkedin.com/in/jane-doe");
    [reflexivity | reflexivity | right; reflexivity | exact Hr].
Defined.

(** ** The profile name *)
Lemma slug_of_path (slug rest : string) :
  Str.contains "/" slug = false ->
  Str.before "/" (Str.before "/in/" (slug ++ "/" ++ rest)) = slug.
Proof.
  induction slug as [| c slug IH]; intros H.
  - simpl append. cbn [Str.before].
    destruct (Str.startswith "/in/" (String "/" rest)); reflexivity.
  - rewrite contains_unfold in H. apply orb_false_iff in H. destruct H as [H1 H2].
    cbn [Str.startswith] in H1. rewrite andb_true_r in H1.
    specialize (IH H2). simpl append in *.
    cbn [Str.before Str.startswith]. rewrite H1. cbn [andb].
    cbn [Str.before Str.startswith]. rewrite H1. cbn [andb].
    rewrite IH. reflexivity.
Qed.

Lemma title_char_keeps_hyphens_out (c : ascii) (prev_cased : bool) :
  Ascii.eqb c "-" = false ->
  Ascii.eqb "-"
    (if Str.is_alpha c
     then (if prev_cased then Str.lower_char c else Str.upper_char c)
     else c) = false.
Proof.
  destruct prev_cased, c as [[|] [|] [|] [|] [|] [|] [|] [|]];
    intros H; try discriminate H; reflexivity.
Qed.

Lemma title_of_slug_has_no_hyphen (s : string) :
  forall prev_cased,
  Str.contains "-" (Str.title_from prev_cased (Str.replace_char "-" " " s)) = false.
Proof.
  induction s as [| c s IH]; intros prev_cased; [reflexivity |].
  cbn [Str.replace_char]. destruct (Ascii.eqb c "-") eqn:E.
  - simpl append. cbn [Str.title_from]. rewrite contains_unfold, IH. reflexivity.
  - cbn [Str.title_from]. rewrite contains_unfold, IH.
    cbn [Str.startswith]. rewrite (title_char_keeps_hyphens_out c prev_cased E).
    reflexivity.
Qed.

Lemma title_of_slug_length (s : string) :
  forall prev_cased,
  String.length (Str.title_from prev_cased (Str.replace_char "-" " " s))
  = String.length s.
Proof.
  induction s as [| c s IH]; intros prev_cased; [reflexivity |].
  cbn [Str.replace_char]. destruct (Ascii.eqb c "-");
    simpl append; cbn [Str.title_from String.length]; rewrite IH; reflexivity.
Qed.

(** X5. On a page without a name heading the profile name is read off the
    URL: for a LinkedIn profile address it is the path segment after
    [/in/], its hyphens turned into spaces and each word capitalised, so
    it has the length of the segment and no hyphen. *)
Theorem extract_profile_name_from_the_url (page : Page) (slug rest : string) :
  query_selector page "h1.text-heading-xlarge" = None ->
  query_selector page ".pv-text-details__left-panel h1" = None ->
  current_url page = Ok ("https://www.linkedin.com/in/" ++ slug ++ "/" ++ rest) ->
  Str.contains "/" slug = false ->
  extract_profile_name page = Str.title (Str.replace_char "-" " " slug)
  /\ Str.contains "-" (extract_profile_name page) = false
  /\ String.length (extract_profile_name page) = String.length slug.
Proof.
  intros H1 H2 Hurl Hslug.
  assert (extract_profile_name page = Str.title (Str.replace_char "-" " " slug)) as E.
  { unfold extract_profile_name. rewrite H1, H2, Hurl.
    cbn [Str.is_empty negb bind].
    change (Str.after_first "/in/" ("https://www.linkedin.com/in/" ++ slug ++ "/" ++ rest))
      with (Some (Str.before "/in/" (slug ++ "/" ++ rest))).
    cbv beta iota. cbn [try_except].
    rewrite (slug_of_path slug rest Hslug). reflexivity. }
  rewrite E. split; [reflexivity | split].
  - apply title_of_slug_has_no_hyphen.
  - apply title_of_slug_length.
Qed.

Lemma extract_profile_name_from_the_url_witness :
  extract_profile_name Sample.page = "Jane Doe".
Proof.
  exact (proj1 (extract_profile_name_from_the_url
                  Sample.page "jane-doe" "recent-activity/all/"
                  eq_refl eq_refl eq_refl eq_refl)).
Defined.

Local Close Scope Z_scope.
Local Open Scope string_scope.
Local Open Scope list_scope.

(** ** The records of a page, in page order *)
Lemma records_of_texts (self : Scraper) (page : Page) (url : string)
      (posts : list WebElement) :
  (forall label, shot self page label = Ok tt) ->
  current_url page = Ok url ->
  forall i,
  map post_text (records_of self page i posts)
  = map extract_post_text (filter is_original_post posts)
  /\ map post_date_text (records_of self page i posts)
     = map extract_post_date (filter is_original_post posts).
Proof.
  intros Hshot Hurl. induction posts as [| post rest IH]; intros i; [split; reflexivity |].
  cbn [records_of filter]. unfold process_post, bind.
  rewrite Hshot, Hurl.
  destruct (is_original_post post); cbn [negb]; [| apply IH].
  destruct (extract_engagement post) as [[a b] c].
  cbn [map post_text post_date_text].
  destruct (IH (S i)) as [-> ->]. split; reflexivity.
Qed.

(** X6. When the screenshots, if any are taken, succeed and the browser
    tells its address, [extract_posts] returns a record for the original
    posts among the located containers and for nothing else, in the order
    of the page, up to the limit: the texts and the date texts of its
    records are those of the first [max(1, max_posts)] containers that
    [is_original_post] accepts. *)
Theorem extract_posts_keeps_the_page_order (self : Scraper) (page : Page) (url : string) :
  (forall label, shot self page label = Ok tt) ->
  current_url page = Ok url ->
  exists post_data,
    extract_posts self page = Ok post_data
    /\ map post_text post_data
       = firstn (Z.to_nat (Z.max 1 (self_max_posts self)))
           (map extract_post_text
                (filter is_original_post (locate page post_selectors)))
    /\ map post_date_text post_data
       = firstn (Z.to_nat (Z.max 1 (self_max_posts self)))
           (map extract_post_date
                (filter is_original_post (locate page post_selectors))).
Proof.
  intros Hshot Hurl. unfold extract_posts, bind. rewrite !Hshot.
  destruct (locate page post_selectors) as [| p ps] eqn:E.
  - exists []. rewrite !firstn_nil. repeat split.
  - exists (extract_loop self page 0 (p :: ps) [] 0). split; [reflexivity |].
    rewrite extract_loop_spec. cbn [app]. rewrite Z.sub_0_r.
    destruct (records_of_texts self page url (p :: ps) Hshot Hurl 0%nat) as [H1 H2].
    rewrite <- !firstn_map, H1, H2. split; reflexivity.
Qed.

Lemma extract_posts_keeps_the_page_order_witness :
  exists post_data,
    extract_posts (Sample.scraper 1) Sample.page = Ok post_data
    /\ map post_text post_data = ["Hello #AI #Tech"%string].
Proof.
  destruct (extract_posts_keeps_the_page_order
              (Sample.scraper 1) Sample.page
              "https://www.linkedin.com/in/jane-doe/recent-activity/all/"
              (fun _ => eq_refl) eq_refl) as [post_data [H1 [H2 _]]].
  exists post_data. split; [exact H1 | exact H2].
Defined.

(** ** One profile *)
Lemma scrape_profile_cases (self : Scraper) (web : Web) (logged_in : bool) (url : string) :
  fst (scrape_profile self web logged_in url) = []
  \/ extract_posts self (page (visit web (activity_url url)))
     = Ok (fst (scrape_profile self web logged_in url)).
Proof.
  unfold scrape_profile.
  destruct (navigate_to_profile self web logged_in url) as [[[|] | e] logged_in'];
    cbn [fst bind try_except negb]; try (left; reflexivity).
  destruct (scroll_and_expand_posts self _) as [b | e];
    cbn [bind try_except]; [| left; reflexivity].
  destruct (extract_posts self _) as [d | e]; [right | left]; reflexivity.
Qed.

Lemma navigate_true (self : Scraper) (web : Web) (logged_in : bool) (profile_url : string) :
  fst (navigate_to_profile self web logged_in profile_url) = Ok true ->
  get (visit web (activity_url profile_url)) = Ok tt
  /\ posts_present (visit web (activity_url profile_url)) = true
  /\ exists url,
       current_url (page (visit web (activity_url profile_url))) = Ok url
       /\ Str.contains "recent-activity" url = true.
Proof.
  unfold navigate_to_profile.
  destruct (if logged_in then (Ok tt, true) else login web) as [[[] | e] l];
    [| discriminate].
  cbn [fst]. unfold bind.
  destruct (get _) as [[] | e]; [| destruct (shot _ _ _) as [[] | e']; discriminate].
  destruct (shot self _ "profile_page") as [[] | e];
    [| destruct (shot _ _ _) as [[] | e']; discriminate].
  destruct (current_url _) as [url | e];
    [| destruct (shot _ _ _) as [[] | e']; discriminate].
  destruct (Str.contains "recent-activity" url) eqn:Hc; cbn [negb].
  - destruct (posts_present _) eqn:Hp.
    + intros _. split; [reflexivity | split; [reflexivity |]].
      exists url. split; [reflexivity | exact Hc].
    + destruct (shot _ _ "no_posts_found") as [[] | e];
        [discriminate | destruct (shot _ _ _) as [[] | e']; discriminate].
  - destruct (shot _ _ "wrong_page") as [[] | e];
      [discriminate | destruct (shot _ _ _) as [[] | e']; discriminate].
Qed.

(** X7. [scrape_profile] takes records from the activity page only: if
    it returns any record, the page was loaded, the browser's address
    names [recent-activity] and a post container was present. With debug
    screenshots off and these conditions met it returns what
    [extract_posts] gives on that page, whatever became of the scrolling. *)
Theorem scrape_profile_reads_the_activity_page
        (self : Scraper) (web : Web) (logged_in : bool) (profile_url : string) :
  let v := visit web (activity_url profile_url) in
  (fst (scrape_profile self web logged_in profile_url) <> [] ->
   get v = Ok tt
   /\ posts_present v = true
   /\ exists url, current_url (page v) = Ok url
                  /\ Str.contains "recent-activity" url = true)
  /\ (self_debug self = false ->
      (logged_in = true \/ exists b, login web = (Ok tt, b)) ->
      get v = Ok tt ->
      posts_present v = true ->
      (exists url, current_url (page v) = Ok url
                   /\ Str.contains "recent-activity" url = true) ->
      extract_posts self (page v)
      = Ok (fst (scrape_profile self web logged_in profile_url))).
Proof.
  cbv zeta. split.
  - intros Hne. apply (navigate_true self web logged_in).
    destruct (fst (navigate_to_profile self web logged_in profile_url))
      as [[|] | e] eqn:E; [reflexivity | |];
      exfalso; apply Hne; apply scrape_profile_failed; rewrite E; discriminate.
  - intros Hdebug Hlogin Hget Hposts [url [Hurl Hc]].
    assert (forall p label, shot self p label = Ok tt) as Hshot
        by (intros; unfold shot; rewrite Hdebug; reflexivity).
    unfold scrape_profile, navigate_to_profile.
    assert (exists l, (if logged_in then (Ok tt, true) else login web) = (Ok tt, l))
      as [l ->].
    { destruct Hlogin as [-> | [b Hb]]; [exists true; reflexivity |].
      destruct logged_in; [exists true; reflexivity | exists b; exact Hb]. }
    unfold bind. rewrite Hget, !Hshot, Hurl, Hc, Hposts.
    cbn [negb fst try_except].
    unfold scroll_and_expand_posts, bind. rewrite !Hshot.
    assert (extract_posts self (page (visit web (activity_url profile_url)))
            = Ok (try_except
                    (extract_posts self (page (visit web (activity_url profile_url))))
                    [])) as Hx.
    { unfold extract_posts, bind. rewrite !Hshot.
      destruct (locate _ post_selectors); reflexivity. }
    destruct (scroll_rounds self _ 5 0) as [[] | e]; exact Hx.
Qed.

Lemma scrape_profile_reads_the_activity_page_witness :
  extract_posts (Sample.scraper 5) Sample.page
  = Ok (fst (scrape_profile (Sample.scraper 5) Sample.web false
                            "https://www.linkedin.com/in/jane-doe")).
Proof.
  refine (proj2 (scrape_profile_reads_the_activity_page
                   (Sample.scraper 5) Sample.web false
                   "https://www.linkedin.com/in/jane-doe")
                eq_refl _ eq_refl eq_refl _).
  - right. exists true. reflexivity.
  - exists "https://www.linkedin.com/in/jane-doe/recent-activity/all/"%string.
    split; reflexivity.
Defined.

(** ** The whole run *)
Lemma write_datasets_new (self : Scraper) (all_posts : list PostRecord) (files : Files) :
  fst (fst (write_datasets self all_posts files)) = map Fresh all_posts.
Proof.
  unfold write_datasets. destruct all_posts as [| r rest]; [reflexivity |].
  destruct (cumulative_file files); reflexivity.
Qed.

Lemma scrape_profile_length (self : Scraper) (web : Web) (logged_in : bool) (url : string) :
  (List.length (fst (scrape_profile self web logged_in url))
   <= Z.to_nat (Z.max 1 (self_max_posts self)))%nat.
Proof.
  destruct (scrape_profile_cases self web logged_in url) as [-> | H]; [simpl; lia |].
  apply extract_posts_spec in H. destruct H as [-> | ->]; [simpl; lia |].
  apply firstn_le_length.
Qed.

Lemma profile_results_total (self : Scraper) (web : Web) (profile_urls : list string) :
  forall logged_in,
  (List.length (List.concat (profile_results self web logged_in profile_urls))
   <= List.length profile_urls * Z.to_nat (Z.max 1 (self_max_posts self)))%nat.
Proof.
  induction profile_urls as [| url rest IH]; intros logged_in; [simpl; lia |].
  cbn [profile_results List.concat List.length]. rewrite length_app.
  pose proof (scrape_profile_length self web logged_in url).
  pose proof (IH (snd (scrape_profile self web logged_in url))).
  lia.
Qed.

(** X8. A run over a list of profiles returns, as its new rows, at most
    [max(1, max_posts)] records for each profile URL given. *)
Theorem run_is_bounded_by_the_limit_per_profile
        (self : Scraper) (web : Web) (logged_in : bool) (files : Files)
        (profile_urls : list string) :
  (Z.of_nat (List.length
               (fst (fst (scrape_multiple_profiles self web logged_in files profile_urls))))
   <= Z.of_nat (List.length profile_urls) * Z.max 1 (self_max_posts self))%Z.
Proof.
  unfold scrape_multiple_profiles. rewrite write_datasets_new, scrape_all_spec.
  cbn [app]. rewrite length_map.
  pose proof (profile_results_total self web profile_urls logged_in) as H.
  apply Nat2Z.inj_le in H. rewrite Nat2Z.inj_mul, Z2Nat.id in H by lia.
  exact H.
Qed.

Lemma scrape_all_In (self : Scraper) (web : Web) (r : PostRecord)
      (profile_urls : list string) :
  forall logged_in,
  In r (List.concat (profile_results self web logged_in profile_urls)) ->
  exists page j post, process_post self page j post = Ok (Some r).
Proof.
  induction profile_urls as [| url rest IH]; intros logged_in H; [destruct H |].
  cbn [profile_results List.concat] in H. apply in_app_or in H.
  destruct H as [H | H]; [| eapply IH; eassumption].
  destruct (scrape_profile_cases self web logged_in url) as [E | E].
  - rewrite E in H. destruct H.
  - destruct (extract_posts_In _ _ _ _ E H) as [j [post [_ Hp]]].
    exists (page (visit web (activity_url url))), j, post. exact Hp.
Qed.

Lemma append_same_end (a b c : string) : (a ++ c = b ++ c)%string -> a = b.
Proof.
  revert b. induction a as [| x a IH]; intros b H.
  - destruct b as [| y b]; [reflexivity |].
    apply (f_equal String.length) in H. cbn [append String.length] in H.
    rewrite length_append in H. lia.
  - destruct b as [| y b].
    + apply (f_equal String.length) in H. cbn [append String.length] in H.
      rewrite length_append in H. lia.
    + cbn [append] in H. injection H as -> H. f_equal. exact (IH b H).
Qed.

(** X9. Every new row of a run carries the session identifier of the
    scraper that made it. When there is any new row, two files are
    written and no other: first the session file of that identifier,
    with the new rows, then the cumulative file, with the combined rows.
    The session file of another identifier is another file, and no
    session file is the cumulative file. When there is no new row, both
    frames returned are empty and nothing is written. *)
Theorem run_rows_carry_the_session_id
        (self : Scraper) (web : Web) (logged_in : bool) (files : Files)
        (profile_urls : list string) :
  let run := scrape_multiple_profiles self web logged_in files profile_urls in
  let all_posts := List.concat (profile_results self web logged_in profile_urls) in
  fst (fst run) = map Fresh all_posts
  /\ Forall (fun r => session_id r = self_session_id self) all_posts
  /\ (all_posts <> [] ->
      snd run = [(session_file self, fst (fst run)); (output_file, snd (fst run))])
  /\ (all_posts = [] -> fst run = ([], []) /\ snd run = [])
  /\ (forall other : Scraper,
        session_file other = session_file self ->
        self_session_id other = self_session_id self)
  /\ session_file self <> output_file.
Proof.
  cbv zeta. unfold scrape_multiple_profiles.
  rewrite write_datasets_new, scrape_all_spec. cbn [app].
  set (all_posts := List.concat (profile_results self web logged_in profile_urls)).
  split; [reflexivity |]. split; [| split; [| split; [| split]]].
  - apply Forall_forall. intros r Hr.
    destruct (scrape_all_In _ _ _ _ _ Hr) as [page [j [post Hp]]].
    destruct (process_post_origin _ _ _ _ _ Hp) as [url [_ [_ [_ [Hs _]]]]].
    exact Hs.
  - intros Hne. unfold write_datasets.
    destruct all_posts as [| r rest]; [congruence |].
    destruct (cumulative_file files); reflexivity.
  - intros ->. split; reflexivity.
  - unfold session_file. intros other H.
    cbn [append] in H. injection H as H. eapply append_same_end. exact H.
  - unfold session_file, output_file. cbn [append]. discriminate.
Qed.

Lemma run_rows_carry_the_session_id_witness :
  snd (scrape_multiple_profiles (Sample.scraper 5) Sample.web true Sample.no_files
         ["https://www.linkedin.com/in/jane-doe"%string])
  = [("data/linkedin_posts_0a1b2c3d.csv"%string,
      fst (fst (scrape_multiple_profiles (Sample.scraper 5) Sample.web true Sample.no_files
                  ["https://www.linkedin.com/in/jane-doe"%string])));
     ("data/linkedin_original_posts.csv"%string,
      snd (fst (scrape_multiple_profiles (Sample.scraper 5) Sample.web true Sample.no_files
                  ["https://www.linkedin.com/in/jane-doe"%string])))].
Proof.
  destruct (run_rows_carry_the_session_id
              (Sample.scraper 5) Sample.web true Sample.no_files
              ["https://www.linkedin.com/in/jane-doe"%string])
    as [_ [_ [Hwritten _]]].
  apply Hwritten. vm_compute. discriminate.
Defined.

(** ** Logging in *)
Lemma scrape_profile_logged_out (self : Scraper) (web : Web) (url : string) (e : exn)
      (flag : bool) :
  login web = (Raise e, flag) -> scrape_profile self web false url = ([], flag).
Proof.
  intros H. unfold scrape_profile, navigate_to_profile. rewrite H. reflexivity.
Qed.

Lemma scrape_all_logged_out (self : Scraper) (web : Web) (e : exn)
      (profile_urls : list string) :
  login web = (Raise e, false) ->
  forall all_posts, scrape_all self web false profile_urls all_posts = all_posts.
Proof.
  intros H. induction profile_urls as [| url rest IH]; intros all_posts; [reflexivity |].
  cbn [scrape_all]. rewrite (scrape_profile_logged_out self web url e false H).
  rewrite IH. apply app_nil_r.
Qed.

(** X10. What becomes of a run by a scraper that is not logged in depends
    on what the login leaves in [self.logged_in]. When it raises and the
    flag is not set, it is tried again for every profile and every
    profile is given up: the run returns two empty frames and writes
    nothing. When it raises with the flag set, as it does when the
    screenshot after the login fails, the first profile is given up and
    the others are scraped without a further login. When it returns, the
    profile is scraped as by a scraper that is logged in, whether the
    flag is set or not. *)
Theorem run_after_a_failed_login
        (self : Scraper) (web : Web) (files : Files) (url : string)
        (profile_urls : list string) (e : exn) (flag : bool) :
  (login web = (Raise e, false) ->
   scrape_multiple_profiles self web false files profile_urls = (([], []), []))
  /\ (login web = (Raise e, true) ->
      scrape_multiple_profiles self web false files (url :: profile_urls)
      = scrape_multiple_profiles self web true files profile_urls)
  /\ (login web = (Ok tt, flag) ->
      scrape_profile self web false url
      = (fst (scrape_profile self web true url), flag)).
Proof.
  split; [| split].
  - intros H. unfold scrape_multiple_profiles.
    rewrite (scrape_all_logged_out self web e profile_urls H). reflexivity.
  - intros H. unfold scrape_multiple_profiles. cbn [scrape_all].
    rewrite (scrape_profile_logged_out self web url e true H). reflexivity.
  - intros H. unfold scrape_profile, navigate_to_profile. rewrite H. reflexivity.
Qed.

Lemma run_after_a_failed_login_witness :
  scrape_multiple_profiles (Sample.scraper 5)
    (mkWeb (Raise WebDriverException, false) (visit Sample.web)) false Sample.no_files
    ["https://www.linkedin.com/in/jane-doe"%string]
  = (([], []), [])
  /\ scrape_multiple_profiles (Sample.scraper 5)
       (mkWeb (Raise WebDriverException, true) (visit Sample.web)) false Sample.no_files
       ["https://www.linkedin.com/in/jane-doe"%string;
        "https://www.linkedin.com/in/jane-doe"%string]
     = scrape_multiple_profiles (Sample.scraper 5)
         (mkWeb (Raise WebDriverException, true) (visit Sample.web)) true Sample.no_files
         ["https://www.linkedin.com/in/jane-doe"%string].
Proof.
  split.
  - apply (proj1 (run_after_a_failed_login _ _ _ ""%string _ WebDriverException false)).
    reflexivity.
  - apply (proj1 (proj2 (run_after_a_failed_login _ _ _ _ _ WebDriverException false))).
    reflexivity.
Defined.

Lemma scrape_profile_logged_in (self : Scraper) (web web' : Web) (url : string) :
  (forall u, visit web u = visit web' u) ->
  scrape_profile self web true url = scrape_profile self web' true url
  /\ snd (scrape_profile self web true url) = true.
Proof.
  intros H. unfold scrape_profile, navigate_to_profile. rewrite H.
  split; reflexivity.
Qed.

(** X11. A scraper that is logged in stays logged in and does not log in
    again: its run depends on what the profile pages show and not on what
    a login would do. *)
Theorem logged_in_run_does_not_log_in
        (self : Scraper) (web web' : Web) (files : Files) (profile_urls : list string) :
  (forall u, visit web u = visit web' u) ->
  scrape_multiple_profiles self web true files profile_urls
  = scrape_multiple_profiles self web' true files profile_urls.
Proof.
  intros H. unfold scrape_multiple_profiles. f_equal.
  generalize (@nil PostRecord).
  induction profile_urls as [| url rest IH]; intros all_posts; [reflexivity |].
  cbn [scrape_all].
  destruct (scrape_profile_logged_in self web web' url H) as [E1 E2].
  rewrite <- E1.
  destruct (scrape_profile self web true url) as [profile_posts logged_in'].
  cbn [snd] in E2. subst logged_in'. apply IH.
Qed.

Lemma logged_in_run_does_not_log_in_witness :
  scrape_multiple_profiles (Sample.scraper 5) Sample.web true Sample.no_files
    ["https://www.linkedin.com/in/jane-doe"%string]
  = scrape_multiple_profiles (Sample.scraper 5)
      (mkWeb (Raise WebDriverException, false) (visit Sample.web)) true Sample.no_files
      ["https://www.linkedin.com/in/jane-doe"%string].
Proof.
  apply logged_in_run_does_not_log_in. intros u. reflexivity.
Defined.

Local Open Scope string_scope.
Local Open Scope list_scope.
Local Open Scope Z_scope.

(** ** What [parse_date] can return *)
Lemma make_timedelta_value (x : Z) (d : timedelta) : make_timedelta x = Ok d -> d = x.
Proof.
  unfold make_timedelta. destruct (_ && _)%bool; [| discriminate].
  intros H. injection H as <-. reflexivity.
Qed.

Lemma minus_value (now d t : Z) :
  minus now d = Ok t -> t = now - d /\ in_range t = true.
Proof.
  unfold minus. destruct (in_range (now - d)) eqn:E; [| discriminate].
  intros H. injection H as <-. split; [reflexivity | exact E].
Qed.

Lemma ago_delta_length (unit : string) (v : Z) (delta : result timedelta) :
  0 <= v -> ago_delta unit v = Some delta ->
  exists x, 0 <= x /\ delta = make_timedelta x.
Proof.
  intros Hv. unfold ago_delta, td_minutes, td_hours, td_days, td_weeks,
    us_per_day, us_per_second.
  repeat (destruct (String.eqb unit _);
          [intros H; injection H as <-; eexists; split; [| reflexivity]; lia |]).
  discriminate.
Qed.

Lemma short_delta_length (unit : string) (v : Z) (delta : result timedelta) :
  0 <= v -> short_delta unit v = Some delta ->
  exists x, 0 <= x /\ delta = make_timedelta x.
Proof.
  intros Hv. unfold short_delta, td_seconds, td_minutes, td_hours, td_days, td_weeks,
    us_per_day, us_per_second.
  repeat (destruct (String.eqb unit _);
          [intros H; injection H as <-; eexists; split; [| reflexivity]; lia |]).
  discriminate.
Qed.

Lemma delta_of_length (chain : string -> Z -> option (result timedelta))
      (m : option match_obj) (delta : result timedelta) :
  (forall unit v delta, 0 <= v -> chain unit v = Some delta ->
                        exists x, 0 <= x /\ delta = make_timedelta x) ->
  delta_of chain m = Some delta ->
  exists x, 0 <= x /\ delta = make_timedelta x.
Proof.
  intros Hchain. unfold delta_of. destruct m as [found |]; [| discriminate].
  destruct (group 1 (groups found)) as [value |]; [| discriminate].
  destruct (group 2 (groups found)) as [unit |]; [| discriminate].
  apply Hchain. apply int_of_digits_from_nonneg. lia.
Qed.

Lemma subtract_value (now t : Z) (delta : result timedelta) :
  (exists x, 0 <= x /\ delta = make_timedelta x) ->
  try_except (d <- delta ;; t <- minus now d ;; Ok (Some t)) None = Some t ->
  in_range t = true /\ t <= now.
Proof.
  intros [x [Hx ->]]. unfold bind.
  destruct (make_timedelta x) as [d |] eqn:Ed; [| discriminate].
  apply make_timedelta_value in Ed. subst d.
  destruct (minus now x) as [t' |] eqn:Em; [| discriminate].
  apply minus_value in Em. destruct Em as [-> Hr].
  cbn [try_except]. intros H. injection H as <-. split; [exact Hr | lia].
Qed.

Lemma days_before_year_bounds (y : Z) :
  1 <= y <= 9998 -> 0 <= days_before_year y <= 3651329.
Proof.
  intros Hy. unfold days_before_year. cbv zeta.
  pose proof (Z.div_mod (y - 1) 4 ltac:(lia)).
  pose proof (Z.mod_pos_bound (y - 1) 4 ltac:(lia)).
  pose proof (Z.div_mod (y - 1) 100 ltac:(lia)).
  pose proof (Z.mod_pos_bound (y - 1) 100 ltac:(lia)).
  pose proof (Z.div_mod (y - 1) 400 ltac:(lia)).
  pose proof (Z.mod_pos_bound (y - 1) 400 ltac:(lia)).
  lia.
Qed.

Lemma day_of_year_bounds (y m d : Z) :
  1 <= m <= 12 -> 1 <= d <= days_in_month y m ->
  1 <= days_before_month y m + d <= 366
  /\ (is_leap y = false -> days_before_month y m + d <= 365).
Proof.
  intros Hm Hd.
  assert (forallb (fun m => (0 <=? days_before_month y m)
                            && (days_before_month y m + days_in_month y m
                                <=? (if is_leap y then 366 else 365)))%bool
                  [1; 2; 3; 4; 5; 6; 7; 8; 9; 10; 11; 12] = true) as Hall.
  { unfold days_before_month, days_in_month.
    destruct (is_leap y); vm_compute; reflexivity. }
  rewrite forallb_forall in Hall.
  assert (In m [1; 2; 3; 4; 5; 6; 7; 8; 9; 10; 11; 12]) as Hin by (simpl; lia).
  specialize (Hall m Hin). apply andb_true_iff in Hall. destruct Hall as [H1 H2].
  apply Z.leb_le in H1, H2.
  split; [destruct (is_leap y); lia | intros E; rewrite E in H2; lia].
Qed.

(** The dates that [datetime(y, m, d)] accepts lie in the range. *)
Lemma make_date_in_range (y m d : Z) (t : datetime) :
  make_date y m d = Ok t -> in_range t = true.
Proof.
  unfold make_date.
  destruct (_ && _)%bool eqn:E; [| discriminate].
  intros H. injection H as <-.
  repeat (apply andb_true_iff in E; destruct E as [E ?]).
  assert (1 <= y <= 9999 /\ 1 <= m <= 12 /\ 1 <= d <= days_in_month y m) as [Hy [Hm Hd]] by lia.
  destruct (day_of_year_bounds y m d Hm Hd) as [Hdoy Hcommon].
  unfold in_range, end_of_time, max_ordinal, ymd2ord.
  apply andb_true_iff. split; [apply Z.leb_le | apply Z.ltb_lt].
  - assert (0 <= days_before_year y).
    { destruct (Z.eq_dec y 9999) as [-> | Hne]; [vm_compute; discriminate |].
      apply days_before_year_bounds. lia. }
    unfold us_per_day, us_per_second. lia.
  - assert (days_before_year y + days_before_month y m + d <= 3652059).
    { destruct (Z.eq_dec y 9999) as [-> | Hne].
      - specialize (Hcommon eq_refl).
        change (days_before_year 9999) with 3651694. lia.
      - pose proof (days_before_year_bounds y ltac:(lia)). lia. }
    unfold us_per_day, us_per_second. lia.
Qed.

Lemma strptime_with_in_range (pattern_months months : list string) (text : string)
      (t : datetime) :
  strptime_with pattern_months months text = Ok t -> in_range t = true.
Proof.
  unfold strptime_with.
  destruct (match_here _ _) as [found |]; [| discriminate].
  destruct (negb _); [discriminate |].
  destruct (group 1 _) as [b |]; [| discriminate].
  destruct (group 2 _) as [d |]; [| discriminate].
  destruct (group 3 _) as [y |]; [| discriminate].
  destruct (index_of b months) as [i |]; [| discriminate].
  apply make_date_in_range.
Qed.

Lemma parse_absolute_in_range (text : string) (t : datetime) :
  parse_absolute text = Some t -> in_range t = true.
Proof.
  unfold parse_absolute, strptime_abbr, strptime_full.
  destruct (strptime_with month_abbrs month_abbrs text) as [t1 | e] eqn:E1.
  - intros H. injection H as <-. eapply strptime_with_in_range. exact E1.
  - destruct (strptime_with month_names_by_length month_names text) as [t2 | e2] eqn:E2;
      [| discriminate].
    intros H. injection H as <-. eapply strptime_with_in_range. exact E2.
Qed.

(** X12. Every time that [parse_date] returns lies within the range of
    [datetime], and it is not later than the current time unless the text
    was read as a calendar date: a relative date is never in the future. *)
Theorem parse_date_is_in_range_and_not_ahead (now : datetime) (date_text : string)
        (t : datetime) :
  in_range now = true ->
  parse_date now date_text = Some t ->
  in_range t = true /\ (t <= now \/ parse_absolute date_text = Some t).
Proof.
  intros Hnow. unfold parse_date.
  destruct (_ || _)%bool; [discriminate |].
  destruct (_ || _)%bool.
  - intros H. injection H as <-. split; [exact Hnow | left; lia].
  - destruct (delta_of ago_delta _) as [delta |] eqn:Ea.
    + intros H.
      destruct (subtract_value now t delta
                  (delta_of_length _ _ _ ago_delta_length Ea) H) as [H1 H2].
      split; [exact H1 | left; exact H2].
    + destruct (delta_of short_delta _) as [delta |] eqn:Es.
      * intros H.
        destruct (subtract_value now t delta
                    (delta_of_length _ _ _ short_delta_length Es) H) as [H1 H2].
        split; [exact H1 | left; exact H2].
      * cbn [try_except]. intros H. split; [| right; exact H].
        eapply parse_absolute_in_range. exact H.
Qed.

Lemma parse_date_is_in_range_and_not_ahead_witness :
  in_range (Sample.now - 2 * us_per_day) = true
  /\ (Sample.now - 2 * us_per_day <= Sample.now
      \/ parse_absolute "2d" = Some (Sample.now - 2 * us_per_day)).
Proof.
  apply (parse_date_is_in_range_and_not_ahead Sample.now "2d"); reflexivity.
Defined.

(** ** The date fields of a record *)
Lemma pad2_digit_headed (n : nat) : digit_headed (Str.pad2 n).
Proof.
  unfold Str.pad2. destruct (Nat.ltb n 10).
  - exists "0"%char, (Str.str_of_nat n). split; reflexivity.
  - destruct (str_of_nat_digits n) as [d [ds [E [Hd _]]]].
    exists d, ds. split; assumption.
Qed.

Lemma pad4_digit_headed (n : nat) : digit_headed (Str.pad4 n).
Proof.
  unfold Str.pad4.
  destruct (Nat.ltb n 10); [eexists _, _; split; reflexivity |].
  destruct (Nat.ltb n 100); [eexists _, _; split; reflexivity |].
  destruct (Nat.ltb n 1000); [eexists _, _; split; reflexivity |].
  destruct (str_of_nat_digits n) as [d [ds [E [Hd _]]]].
  exists d, ds. split; assumption.
Qed.

Lemma digit_headed_append (s t : string) : digit_headed s -> digit_headed (s ++ t).
Proof. intros [d [w [-> Hd]]]. exists d, (w ++ t)%string. split; [reflexivity | exact Hd]. Qed.

Lemma digit_headed_known (s : string) : digit_headed s -> s <> "Unknown"%string.
Proof. intros [d [w [-> Hd]]] H. injection H as -> _. discriminate Hd. Qed.

Lemma format_timestamp_digit_headed (t : datetime) : digit_headed (format_timestamp t).
Proof.
  unfold format_timestamp. destruct (ord2ymd (ordinal_of t)) as [[y m] d].
  apply digit_headed_append. apply pad4_digit_headed.
Qed.

Lemma hour_of_bounds (t : datetime) : 0 <= hour_of t < 24.
Proof.
  unfold hour_of, us_per_day, us_per_second.
  pose proof (Z.mod_pos_bound t (86400 * 1000000) ltac:(lia)) as H.
  split.
  - apply Z.div_pos; lia.
  - apply Z.div_lt_upper_bound; lia.
Qed.

Lemma format_weekday_named (t : datetime) : In (format_weekday t) weekday_names.
Proof.
  unfold format_weekday. apply nth_In.
  pose proof (Z.mod_pos_bound (ordinal_of t + 6) 7 ltac:(lia)).
  change (List.length weekday_names) with 7%nat. lia.
Qed.

Lemma weekday_names_known (s : string) : In s weekday_names -> s <> "Unknown"%string.
Proof.
  intros H E. subst s. simpl in H.
  repeat (destruct H as [H | H]; [discriminate H |]). destruct H.
Qed.

Lemma date_fields_of_record (self : Scraper) (page : Page) (i : nat) (post : WebElement)
      (r : PostRecord) :
  process_post self page i post = Ok (Some r) ->
  ((post_date r = "Unknown" /\ day_of_week r = "Unknown" /\ hour_of_day r = "Unknown")%string
   \/ (post_date r <> "Unknown"%string
       /\ In (day_of_week r) weekday_names
       /\ day_of_week r <> "Unknown"%string
       /\ hour_of_day r <> "Unknown"%string
       /\ exists h, (h < 24)%nat /\ hour_of_day r = Str.pad2 h))
  /\ scraped_at r <> "Unknown"%string.
Proof.
  intros Hp.
  destruct (process_post_fields _ _ _ _ _ Hp)
    as [_ [_ [_ [_ [_ [_ [_ [Hd [Hw Hh]]]]]]]]].
  destruct (process_post_origin _ _ _ _ _ Hp) as [url [_ [_ [_ [_ [Hs _]]]]]].
  split.
  - rewrite Hd, Hw, Hh.
    destruct (parse_date (clock page i) (post_date_text r)) as [t |]; cbn [unknown_or].
    + right. split; [| split; [| split; [| split]]].
      * apply digit_headed_known, format_timestamp_digit_headed.
      * apply format_weekday_named.
      * apply weekday_names_known, format_weekday_named.
      * apply digit_headed_known. unfold format_hour, dec2. apply pad2_digit_headed.
      * exists (Z.to_nat (hour_of t)). split; [| reflexivity].
        pose proof (hour_of_bounds t). lia.
    + left. repeat split.
  - rewrite Hs. apply digit_headed_known, format_timestamp_digit_headed.
Qed.

(** X13. The three date fields of a record stand or fall together: either
    the date text was not understood and the date, the day of the week
    and the hour are all ["Unknown"], or none of them is, the day is one
    of the seven English day names and the hour is written on two digits
    and is less than 24. The time of scraping is never ["Unknown"]. *)
Theorem date_fields_are_known_together
        (self : Scraper) (page : Page) (post_data : list PostRecord) (r : PostRecord) :
  extract_posts self page = Ok post_data ->
  In r post_data ->
  ((post_date r = "Unknown" /\ day_of_week r = "Unknown" /\ hour_of_day r = "Unknown")%string
   \/ (post_date r <> "Unknown"%string
       /\ In (day_of_week r) weekday_names
       /\ day_of_week r <> "Unknown"%string
       /\ hour_of_day r <> "Unknown"%string
       /\ exists h, (h < 24)%nat /\ hour_of_day r = Str.pad2 h))
  /\ scraped_at r <> "Unknown"%string.
Proof.
  intros H Hin.
  destruct (extract_posts_In _ _ _ _ H Hin) as [j [post [_ Hp]]].
  eapply date_fields_of_record. exact Hp.
Qed.

Lemma date_fields_are_known_together_witness :
  exists r r',
    extract_posts (Sample.scraper 5) Sample.page = Ok [r; r']
    /\ scraped_at r <> "Unknown"%string.
Proof.
  assert (exists r r', extract_posts (Sample.scraper 5) Sample.page = Ok [r; r'])
    as [r [r' E]] by (eexists _, _; vm_compute; reflexivity).
  exists r, r'. split; [exact E |].
  exact (proj2 (date_fields_are_known_together
                  (Sample.scraper 5) Sample.page [r; r'] r E (or_introl eq_refl))).
Defined.

(** ** The date text of a post *)
Lemma first_date_text_filled (elements : list WebElement) (t : string) :
  first_date_text elements = Ok (Some t) -> t <> ""%string.
Proof.
  induction elements as [| el rest IH]; [discriminate |].
  cbn [first_date_text]. unfold bind.
  destruct (element_text el) as [s | e]; [| discriminate].
  destruct (Str.strip s) as [| c w] eqn:E; cbn [Str.is_empty negb andb]; [exact IH |].
  destruct (has_date_indicator _); [| exact IH].
  intros H. injection H as <-. discriminate.
Qed.

Lemma first_date_over_filled (post : WebElement) (selectors : list string) (t : string) :
  first_date_over post selectors = Ok (Some t) -> t <> ""%string.
Proof.
  induction selectors as [| selector rest IH]; [discriminate |].
  cbn [first_date_over]. unfold bind.
  destruct (element_find post selector) as [elements | e]; [| discriminate].
  destruct (first_date_text elements) as [[t' |] | e] eqn:E; [| exact IH | discriminate].
  intros H. injection H as <-. eapply first_date_text_filled. exact E.
Qed.

Lemma script_date_text_filled (post : Node) : script_date_text post <> ""%string.
Proof.
  unfold script_date_text.
  destruct (find _ (query post "time")) as [el |] eqn:E1.
  - apply find_some in E1. destruct E1 as [_ E1].
    destruct (Str.trim (textContent el)); [discriminate E1 | discriminate].
  - destruct (find _ (query post "span, div")) as [el |] eqn:E2; [| discriminate].
    apply find_some in E2. destruct E2 as [_ E2]. cbv zeta in E2.
    apply andb_true_iff in E2. destruct E2 as [E2 _].
    destruct (Str.trim (textContent el)); [discriminate E2 | discriminate].
Qed.

Lemma first_date_text_found (elements : list Node) (t : string) :
  first_date_text (List.map Live elements) = Ok (Some t) ->
  exists el, In el elements
             /\ t = Str.strip (text el)
             /\ has_date_indicator (Str.lower (Str.strip (text el))) = true.
Proof.
  induction elements as [| el rest IH]; [discriminate |].
  cbn [List.map first_date_text element_text bind].
  destruct (negb (Str.is_empty (Str.strip (text el)))
            && has_date_indicator (Str.lower (Str.strip (text el))))%bool eqn:E.
  - intros H. injection H as <-. exists el.
    apply andb_true_iff in E. destruct E as [_ E].
    split; [left; reflexivity | split; [reflexivity | exact E]].
  - intros H. destruct (IH H) as [el' [Hin Hel]].
    exists el'. split; [right; exact Hin | exact Hel].
Qed.

Lemma first_date_over_found (n : Node) (selectors : list string) (t : string) :
  first_date_over (Live n) selectors = Ok (Some t) ->
  exists selector el,
    In selector selectors /\ In el (query n selector)
    /\ t = Str.strip (text el)
    /\ has_date_indicator (Str.lower (Str.strip (text el))) = true.
Proof.
  induction selectors as [| selector rest IH]; [discriminate |].
  cbn [first_date_over element_find bind].
  destruct (first_date_text (List.map Live (query n selector))) as [[t' |] | e] eqn:E;
    [| | discriminate].
  - intros H. injection H as <-.
    destruct (first_date_text_found _ _ E) as [el [Hin Hel]].
    exists selector, el. split; [left; reflexivity | split; [exact Hin | exact Hel]].
  - intros H. destruct (IH H) as [selector' [el [Hs Hel]]].
    exists selector', el. split; [right; exact Hs | exact Hel].
Qed.

Lemma script_date_text_found (post : Node) :
  script_date_text post = "Unknown date"%string
  \/ exists el,
       (In el (query post "time")
        /\ script_date_text post = Str.trim (textContent el))
       \/ (In el (query post "span, div")
           /\ script_date_text post = Str.trim (textContent el)
           /\ has_date_indicator (Str.lower (Str.trim (textContent el))) = true).
Proof.
  unfold script_date_text.
  destruct (find _ (query post "time")) as [el |] eqn:E1.
  - right. exists el. left. apply find_some in E1. destruct E1 as [Hin _].
    split; [exact Hin | reflexivity].
  - destruct (find _ (query post "span, div")) as [el |] eqn:E2; [| left; reflexivity].
    right. exists el. right. apply find_some in E2. destruct E2 as [Hin E2].
    cbv zeta in E2. apply andb_true_iff in E2. destruct E2 as [_ E2].
    split; [exact Hin | split; [reflexivity | exact E2]].
Qed.

(** X14. The date text of a post is never empty, and it is read off the
    page unless it is ["Unknown date"]: it is the stripped text of an
    element that one of the date selectors finds below the container and
    that names a date indicator, or the trimmed text content of a [time]
    element below it, or the trimmed text content of a [span] or [div]
    below it that names a date indicator. For a container that can no
    longer be read it is ["Unknown date"]. *)
Theorem extract_post_date_is_never_empty (post : WebElement) :
  extract_post_date post <> ""%string
  /\ (extract_post_date post = "Unknown date"%string
      \/ exists n el,
           post = Live n
           /\ ((exists selector,
                  In selector date_selectors /\ In el (query n selector)
                  /\ extract_post_date post = Str.strip (text el)
                  /\ has_date_indicator (Str.lower (Str.strip (text el))) = true)
               \/ (In el (query n "time")
                   /\ extract_post_date post = Str.trim (textContent el))
               \/ (In el (query n "span, div")
                   /\ extract_post_date post = Str.trim (textContent el)
                   /\ has_date_indicator (Str.lower (Str.trim (textContent el))) = true)))
  /\ extract_post_date Stale = "Unknown date"%string.
Proof.
  split; [| split; [| reflexivity]].
  - unfold extract_post_date.
    destruct (first_date_over post date_selectors) as [[t |] | e] eqn:E;
      cbn [bind try_except].
    + eapply first_date_over_filled. exact E.
    + destruct post as [n |]; cbn [execute_script try_except]; [| discriminate].
      apply script_date_text_filled.
    + discriminate.
  - destruct post as [n |]; [| left; reflexivity].
    unfold extract_post_date.
    destruct (first_date_over (Live n) date_selectors) as [[t |] | e] eqn:E;
      cbn [bind try_except execute_script].
    + right. exists n. destruct (first_date_over_found _ _ _ E) as [selector [el [Hs [Hin [-> Hi]]]]].
      exists el. split; [reflexivity |]. left. exists selector.
      split; [exact Hs | split; [exact Hin | split; [reflexivity | exact Hi]]].
    + destruct (script_date_text_found n) as [-> | [el Hel]]; [left; reflexivity |].
      right. exists n, el. split; [reflexivity |]. right. exact Hel.
    + left. reflexivity.
Qed.

(** ** Upper and lower case *)
Lemma lower_char_idempotent (c : ascii) :
  Str.lower_char (Str.lower_char c) = Str.lower_char c.
Proof. destruct c as [[|] [|] [|] [|] [|] [|] [|] [|]]; reflexivity. Qed.

Lemma lower_idempotent (s : string) : Str.lower (Str.lower s) = Str.lower s.
Proof.
  unfold Str.lower. induction s as [| c s IH]; [reflexivity |].
  cbn [Str.map]. rewrite lower_char_idempotent, IH. reflexivity.
Qed.

Lemma lower_char_is_not_upper (c : ascii) : Ascii.eqb (Str.lower_char c) "U" = false.
Proof. destruct c as [[|] [|] [|] [|] [|] [|] [|] [|]]; reflexivity. Qed.

Lemma lower_is_not_unknown (s : string) :
  String.eqb (Str.lower s) "Unknown date" = false.
Proof.
  destruct s as [| c s]; [reflexivity |].
  unfold Str.lower. cbn [Str.map String.eqb].
  rewrite lower_char_is_not_upper. reflexivity.
Qed.

Lemma parse_absolute_lower (date_text : string) :
  parse_absolute (Str.lower date_text) = parse_absolute date_text.
Proof.
  unfold parse_absolute, strptime_abbr, strptime_full, strptime_with.
  rewrite lower_idempotent. reflexivity.
Qed.

Lemma parse_date_lower (now : datetime) (date_text : string) :
  parse_date now (Str.lower date_text) = parse_date now date_text.
Proof.
  destruct (String.eqb date_text "Unknown date") eqn:E.
  - apply String.eqb_eq in E. subst date_text. reflexivity.
  - unfold parse_date.
    rewrite lower_idempotent, lower_is_not_unknown, E, parse_absolute_lower.
    destruct date_text; reflexivity.
Qed.

(** X15. [parse_date] does not tell upper case from lower case: two date
    texts that differ only in the case of their letters are read alike,
    as relative dates and as calendar dates. *)
Theorem parse_date_ignores_case (now : datetime) (date_text other : string) :
  Str.lower date_text = Str.lower other ->
  parse_date now date_text = parse_date now other.
Proof.
  intros H.
  rewrite <- (parse_date_lower now date_text), <- (parse_date_lower now other), H.
  reflexivity.
Qed.

Lemma parse_date_ignores_case_witness :
  parse_date Sample.now "3 Days Ago" = parse_date Sample.now "3 days ago".
Proof. apply parse_date_ignores_case. reflexivity. Defined.

(** ** Numbers written with digits *)
Lemma filter_append (p : ascii -> bool) (a b : string) :
  Str.filter p (a ++ b) = (Str.filter p a ++ Str.filter p b)%string.
Proof.
  induction a as [| c a IH]; simpl; [reflexivity |].
  destruct (p c); rewrite IH; reflexivity.
Qed.

Lemma filter_digits_kept (p : ascii -> bool) (s : string) :
  (forall c, Str.is_digit c = true -> p c = true) ->
  Str.forallb Str.is_digit s = true -> Str.filter p s = s.
Proof.
  intros Hp. induction s as [| c s IH]; simpl; [reflexivity |].
  intros H. apply andb_true_iff in H. destruct H as [Hc Hs].
  rewrite (Hp c Hc), (IH Hs). reflexivity.
Qed.

Lemma filter_is_digit (s : string) :
  Str.forallb Str.is_digit (Str.filter Str.is_digit s) = true.
Proof.
  induction s as [| c s IH]; simpl; [reflexivity |].
  destruct (Str.is_digit c) eqn:E; simpl; [rewrite E |]; exact IH.
Qed.

Lemma forallb_append (p : ascii -> bool) (a b : string) :
  Str.forallb p (a ++ b) = (Str.forallb p a && Str.forallb p b)%bool.
Proof.
  induction a as [| c a IH]; simpl; [reflexivity |].
  rewrite IH, andb_assoc. reflexivity.
Qed.

Lemma span_digits_then (ds rest : string) :
  Str.forallb Str.is_digit ds = true ->
  left_clean Str.is_digit rest ->
  Str.span Str.is_digit (ds ++ rest) = (ds, rest).
Proof.
  intros Hds Hrest. induction ds as [| d ds IH]; cbn [append Str.span].
  - destruct rest as [| c rest]; [reflexivity |].
    cbn [left_clean] in Hrest. cbn [Str.span]. rewrite Hrest. reflexivity.
  - cbn [Str.forallb] in Hds. apply andb_true_iff in Hds. destruct Hds as [Hd Hds].
    rewrite Hd, (IH Hds). reflexivity.
Qed.

(** The double of a whole number written with digits, and its product
    with a whole factor, are exact below [2^53]. *)
Lemma of_decimal_whole (ds : string) :
  Str.forallb Str.is_digit ds = true ->
  Str.int_of_digits ds < 2 ^ 53 ->
  Float64.of_decimal ds "" = Float64.Finite (inject_Z (Str.int_of_digits ds)).
Proof.
  intros Hds Hsmall. unfold Float64.of_decimal.
  rewrite append_nil_r. change (10 ^ Z.of_nat (String.length "")) with 1.
  apply of_Z_exact. split; [| exact Hsmall].
  apply int_of_digits_from_nonneg. lia.
Qed.

Lemma mul_whole (a b : Z) :
  0 <= a -> 0 <= b -> a * b < 2 ^ 53 ->
  Float64.mul (Float64.Finite (inject_Z a)) (Float64.Finite (inject_Z b))
  = Float64.Finite (inject_Z (a * b)).
Proof.
  intros Ha Hb Hab. unfold Float64.mul, inject_Z. cbn [Qnum Qden].
  change (Z.pos 1 * Z.pos 1) with 1. apply of_Z_exact. nia.
Qed.

(** ** [parse_count] and the thousands separator *)
Lemma search_count_separated (d : ascii) (ds ds2 rest : string) :
  Str.is_digit d = true ->
  Str.forallb Str.is_digit ds = true ->
  Str.forallb Str.is_digit ds2 = true ->
  left_clean Str.is_digit rest ->
  search count_regex (String d (ds ++ "," ++ ds2 ++ rest))
  = Some (MatchObj (String d ds ++ "," ++ ds2)
                   [(1%nat, (String d ds ++ "," ++ ds2)%string)] rest).
Proof.
  intros Hd Hds Hds2 Hrest. cbn [search]. unfold match_here, count_regex, Plus.
  cbn [rmatch]. rewrite Hd.
  rewrite (star_match_prefix Str.is_digit ds _ _
             (MatchObj (String d ds ++ "," ++ ds2)
                       [(1%nat, (String d ds ++ "," ++ ds2)%string)] rest) Hds);
    [reflexivity |].
  simpl append. cbn [star_match]. change (Str.is_digit ",") with false. cbv iota.
  cbn [rmatch]. unfold is_char at 1. rewrite Ascii.eqb_refl.
  rewrite (star_match_greedy Str.is_digit
             (fun s' => MatchObj
                          (Str.consumed (String d (ds ++ String "," (ds2 ++ rest))) s')
                          [(1%nat, Str.consumed (String d (ds ++ String "," (ds2 ++ rest))) s')]
                          s')).
  rewrite (span_digits_then ds2 rest Hds2 Hrest). cbn [snd].
  replace (String d (ds ++ String "," (ds2 ++ rest)))
    with ((String d (ds ++ String "," ds2)) ++ rest)%string
    by (simpl; rewrite append_assoc; reflexivity).
  rewrite consumed_append. reflexivity.
Qed.

Lemma digits_have_no_blank (s : string) :
  Str.forallb is_digit_or_comma s = true ->
  Str.forallb (fun c => negb (Str.py_isspace c)) s = true.
Proof.
  induction s as [| c s IH]; simpl; [reflexivity |].
  intros H. apply andb_true_iff in H. destruct H as [Hc Hs].
  rewrite (IH Hs), andb_true_r. unfold is_digit_or_comma in Hc.
  apply orb_true_iff in Hc. destruct Hc as [Hc | Hc].
  - rewrite (digit_not_space c Hc). reflexivity.
  - apply Ascii.eqb_eq in Hc. subst c. reflexivity.
Qed.

Lemma digits_are_digits_or_commas (s : string) :
  Str.forallb Str.is_digit s = true -> Str.forallb is_digit_or_comma s = true.
Proof.
  induction s as [| c s IH]; simpl; [reflexivity |].
  intros H. apply andb_true_iff in H. destruct H as [Hc Hs].
  unfold is_digit_or_comma at 1. rewrite Hc, (IH Hs). reflexivity.
Qed.

Lemma replace_char_append (c : ascii) (r a b : string) :
  Str.replace_char c r (a ++ b)
  = (Str.replace_char c r a ++ Str.replace_char c r b)%string.
Proof.
  induction a as [| x a IH]; simpl; [reflexivity |].
  destruct (Ascii.eqb x c); rewrite IH; [rewrite append_assoc |]; reflexivity.
Qed.

(** What [parse_count] returns once the match, cleaned, is a run of digits. *)
Lemma parse_count_matched (text : string) (m : match_obj) (number : string) :
  text <> ""%string ->
  search count_regex text = Some m ->
  Str.replace_char "," "" (Str.strip (whole m)) = number ->
  Str.forallb Str.is_digit number = true ->
  number <> ""%string ->
  Str.int_of_digits number < 2 ^ 53 ->
  parse_count text = Str.int_of_digits number.
Proof.
  intros Htext Hm Hnumber Hall Hne Hsmall. unfold parse_count.
  destruct text as [| c text]; [congruence |].
  rewrite Hm. cbn [Str.is_empty]. rewrite Hnumber.
  pose proof (lower_digits number "" Hall) as Hlower.
  rewrite append_nil_r in Hlower. change (Str.lower "") with ""%string in Hlower.
  rewrite append_nil_r in Hlower. rewrite Hlower.
  pose proof (contains_after_digits "k" "" number "" eq_refl Hall) as Hk.
  rewrite append_nil_r in Hk. rewrite Hk.
  pose proof (contains_after_digits "m" "" number "" eq_refl Hall) as Hm'.
  rewrite append_nil_r in Hm'. rewrite Hm'.
  change (Str.contains "k" "") with false. change (Str.contains "m" "") with false.
  cbv iota. unfold Float64.float_of_string. rewrite (span_digits _ Hall).
  destruct number as [| d ds]; [congruence |].
  cbn [Str.is_empty bind try_except].
  rewrite (of_decimal_whole _ Hall Hsmall), to_int_whole. reflexivity.
Qed.

(** X16. [parse_count] reads one thousands separator and no more: on a
    run of digits, a comma and a further run of digits it returns the
    number that the digits of both runs write, and whatever follows, a
    second separator and its digits included, is not read. *)
Theorem parse_count_reads_one_separator (d : ascii) (ds ds2 rest : string) :
  Str.is_digit d = true ->
  Str.forallb Str.is_digit ds = true ->
  Str.forallb Str.is_digit ds2 = true ->
  left_clean Str.is_digit rest ->
  Str.int_of_digits (String d ds ++ ds2) < 2 ^ 53 ->
  parse_count (String d ds ++ "," ++ ds2 ++ rest)
  = Str.int_of_digits (String d ds ++ ds2).
Proof.
  intros Hd Hds Hds2 Hrest Hsmall.
  assert (Str.forallb Str.is_digit (String d ds) = true) as Hall
      by (simpl; rewrite Hd, Hds; reflexivity).
  apply (parse_count_matched
           _ (MatchObj (String d ds ++ "," ++ ds2)
                       [(1%nat, (String d ds ++ "," ++ ds2)%string)] rest)).
  - discriminate.
  - exact (search_count_separated d ds ds2 rest Hd Hds Hds2 Hrest).
  - cbn [whole]. unfold Str.strip. rewrite strip_with_none.
    + rewrite !replace_char_append.
      rewrite (replace_char_digits "," "" _ eq_refl Hall).
      rewrite (replace_char_digits "," "" _ eq_refl Hds2). reflexivity.
    + apply digits_have_no_blank. rewrite !forallb_append.
      rewrite (digits_are_digits_or_commas _ Hall), (digits_are_digits_or_commas _ Hds2).
      reflexivity.
  - rewrite forallb_append, Hall, Hds2. reflexivity.
  - discriminate.
  - exact Hsmall.
Qed.

Lemma parse_count_reads_one_separator_witness :
  parse_count "1,234,567 views" = 1234.
Proof.
  apply (parse_count_reads_one_separator "1" "" "234" ",567 views");
    try reflexivity.
Defined.

(** ** [parse_count] on a text without a number *)
Lemma match_here_count_none (s : string) :
  Str.forallb (fun c => negb (Str.is_digit c)) s = true ->
  match_here count_regex s = None.
Proof.
  intros H. unfold match_here, count_regex, Plus. cbn [rmatch].
  destruct s as [| c s]; [reflexivity |].
  cbn [Str.forallb] in H. apply andb_true_iff in H. destruct H as [Hc Hs].
  apply negb_true_iff in Hc. rewrite Hc. cbn [star_match]. rewrite Hc.
  unfold is_char at 1.
  destruct (Ascii.eqb "." c); [| reflexivity].
  destruct s as [| c2 s]; [reflexivity |].
  cbn [Str.forallb] in Hs. apply andb_true_iff in Hs. destruct Hs as [Hc2 Hs].
  apply negb_true_iff in Hc2. rewrite Hc2. reflexivity.
Qed.

Lemma search_count_none (s : string) :
  Str.forallb (fun c => negb (Str.is_digit c)) s = true ->
  search count_regex s = None.
Proof.
  induction s as [| c s IH]; intros H.
  - reflexivity.
  - cbn [search]. rewrite (match_here_count_none _ H).
    cbn [Str.forallb] in H. apply andb_true_iff in H. apply IH. tauto.
Qed.

(** X17. [parse_count] never returns a negative number, and it returns 0
    on every text in which no digit occurs. *)
Theorem parse_count_without_a_digit_is_zero (text : string) :
  0 <= parse_count text
  /\ (Str.forallb (fun c => negb (Str.is_digit c)) text = true ->
      parse_count text = 0).
Proof.
  split; [apply parse_count_nonneg |].
  intros H. unfold parse_count. rewrite (search_count_none _ H).
  destruct (Str.is_empty text); reflexivity.
Qed.

Lemma parse_count_without_a_digit_is_zero_witness :
  parse_count "Be the first to react" = 0.
Proof.
  exact (proj2 (parse_count_without_a_digit_is_zero "Be the first to react") eq_refl).
Defined.

(** ** The counts that the scripts read *)
Lemma count_char_covers (c : ascii) : is_digit_or_comma c = true -> count_char c = true.
Proof.
  unfold is_digit_or_comma, count_char. intros H. apply orb_true_iff in H.
  destruct H as [H | H]; [rewrite H; reflexivity |].
  apply Ascii.eqb_eq in H. subst c. reflexivity.
Qed.

(** The number at the head of the pattern is read up to [tail]. *)
Lemma star_match_number {R : Type} (cs tail : string) (k : string -> option R) (x : R) :
  Str.forallb is_digit_or_comma cs = true ->
  left_clean count_char tail ->
  k tail = Some x ->
  star_match Str.is_digit (cs ++ tail) (fun s' => star_match count_char s' k) = Some x.
Proof.
  intros Hcs Htail Hk.
  assert (star_match count_char tail k = Some x) as Hcc.
  { destruct tail as [| c t]; [exact Hk |].
    cbn [left_clean] in Htail. cbn [star_match]. rewrite Htail. exact Hk. }
  induction cs as [| c cs IH].
  - simpl append. destruct tail as [| c t]; [exact Hk |].
    cbn [left_clean] in Htail. cbn [star_match].
    assert (Str.is_digit c = false) as ->.
    { unfold count_char in Htail. apply orb_false_iff in Htail. tauto. }
    cbn [star_match]. rewrite Htail. exact Hk.
  - cbn [Str.forallb] in Hcs. apply andb_true_iff in Hcs. destruct Hcs as [Hc Hcs].
    simpl append. cbn [star_match]. rewrite (IH Hcs).
    destruct (Str.is_digit c); [reflexivity |].
    cbn [star_match]. rewrite (count_char_covers c Hc).
    rewrite (star_match_prefix count_char cs tail k x); [reflexivity | | exact Hcc].
    clear -Hcs. induction cs as [| a cs IH]; [reflexivity |].
    cbn [Str.forallb] in *. apply andb_true_iff in Hcs. destruct Hcs as [Ha Hcs].
    rewrite (count_char_covers a Ha), (IH Hcs). reflexivity.
Qed.

(** What the scripts meet after the number, for each keyword: the blank
    and the keyword are read; of their characters the cleaning keeps
    [kept]; and [kept] decides the factor. *)
Lemma keyword_facts (words : list string) (kw : string) (factor : Z) :
  In (words, kw, factor) scan_keywords ->
  (forall (g s0 rest : string),
      star_match Str.js_isspace (" " ++ kw ++ rest)
        (fun s1 => rmatch (Alts (map Lit words)) s1 [(1%nat, g)] (found_in s0))
      = Some (MatchObj (Str.consumed s0 rest) [(1%nat, g)] rest))
  /\ (forall rest, left_clean count_char (" " ++ kw ++ rest))
  /\ In kw words
  /\ exists kept,
       keep_count_chars (" " ++ kw) = kept
       /\ left_clean Str.is_digit kept
       /\ left_clean (is_char ".") kept
       /\ (if Str.contains "k" kept then 1000
           else if Str.contains "m" kept then 1000000 else 1) = factor.
Proof.
  intros H. simpl in H.
  repeat (destruct H as [H | H];
          [injection H as <- <- <-;
           split; [intros g s0 rest; reflexivity |];
           split; [intros rest; reflexivity |];
           split; [simpl; tauto |];
           eexists; split; [reflexivity |];
           split; [exact I || reflexivity |];
           split; [exact I || reflexivity | reflexivity] |]).
  destruct H.
Qed.

Lemma keep_digits_or_commas (s : string) :
  Str.forallb is_digit_or_comma s = true ->
  keep_count_chars s = Str.filter Str.is_digit s.
Proof.
  unfold keep_count_chars. induction s as [| c s IH]; [reflexivity |].
  cbn [Str.forallb Str.filter]. intros H.
  apply andb_true_iff in H. destruct H as [Hc Hs]. rewrite (IH Hs).
  unfold is_digit_or_comma in Hc. destruct (Str.is_digit c); [reflexivity |].
  cbn [orb] in Hc. apply Ascii.eqb_eq in Hc. subst c. reflexivity.
Qed.

Lemma search_counted_number (words : list string) (kw : string) (factor : Z)
      (d : ascii) (cs rest : string) :
  In (words, kw, factor) scan_keywords ->
  Str.is_digit d = true ->
  Str.forallb is_digit_or_comma cs = true ->
  search (counted_regex words) (String d (cs ++ " " ++ kw ++ rest))
  = Some (MatchObj (String d cs ++ " " ++ kw) [(1%nat, String d cs)] rest).
Proof.
  intros Hkw Hd Hcs.
  destruct (keyword_facts words kw factor Hkw) as [Hread [Hclean _]].
  cbn [search]. unfold match_here, counted_regex, Plus.
  cbn [rmatch]. rewrite Hd.
  rewrite (star_match_number cs (" " ++ kw ++ rest) _
             (MatchObj (String d cs ++ " " ++ kw) [(1%nat, String d cs)] rest)
             Hcs (Hclean rest)); [reflexivity |].
  cbv beta.
  etransitivity;
    [exact (Hread (Str.consumed (String d (cs ++ " " ++ kw ++ rest)) (" " ++ kw ++ rest))
                  (String d (cs ++ " " ++ kw ++ rest)) rest) |].
  rewrite consumed_number.
  replace (String d (cs ++ " " ++ kw ++ rest))
    with ((String d cs ++ " " ++ kw) ++ rest)%string
    by (simpl; rewrite !append_assoc; reflexivity).
  rewrite consumed_append. reflexivity.
Qed.

(** The numeral that the cleaning leaves, and what the scripts make of it. *)
Lemma js_count_value (number kept : string) :
  Str.forallb Str.is_digit number = true ->
  number <> ""%string ->
  left_clean Str.is_digit kept ->
  left_clean (is_char ".") kept ->
  let factor := if Str.contains "k" kept then 1000
                else if Str.contains "m" kept then 1000000 else 1 in
  Str.int_of_digits number * factor < 2 ^ 53 ->
  js_count (number ++ kept)
  = Float64.Finite (inject_Z (Str.int_of_digits number * factor)).
Proof.
  intros Hall Hne Hkept Hpoint factor Hsmall.
  assert (0 <= Str.int_of_digits number) as Hpos
      by (apply int_of_digits_from_nonneg; lia).
  assert (Str.int_of_digits number < 2 ^ 53) as Hnum.
  { subst factor. destruct (Str.contains "k" kept); [nia |].
    destruct (Str.contains "m" kept); nia. }
  assert (Str.lstrip Str.js_isspace (number ++ kept) = (number ++ kept)%string) as Hstrip.
  { destruct number as [| d ds]; [congruence |].
    cbn [Str.forallb] in Hall. apply andb_true_iff in Hall. destruct Hall as [Hd _].
    simpl. rewrite (digit_not_js_space d Hd). reflexivity. }
  assert (Float64.parseFloat (number ++ kept) = Float64.of_decimal number "") as Hfloat.
  { unfold Float64.parseFloat. rewrite Hstrip, (span_digits_then _ _ Hall Hkept).
    destruct number as [| d ds]; [congruence |]. cbn [Str.is_empty].
    destruct kept as [| c kept]; [reflexivity |].
    cbn [left_clean] in Hpoint. unfold is_char in Hpoint.
    rewrite Ascii.eqb_sym, Hpoint. reflexivity. }
  assert (Float64.parseInt (number ++ kept) = Float64.of_decimal number "") as Hint.
  { unfold Float64.parseInt. rewrite Hstrip, (span_digits_then _ _ Hall Hkept).
    destruct number as [| d ds]; [congruence |]. reflexivity. }
  unfold js_count. rewrite Hfloat, Hint.
  rewrite (contains_after_digits "k" "" number kept eq_refl Hall).
  rewrite (contains_after_digits "m" "" number kept eq_refl Hall).
  rewrite (of_decimal_whole _ Hall Hnum).
  subst factor.
  destruct (Str.contains "k" kept).
  - rewrite (of_Z_exact 1000) by (split; [lia | reflexivity]).
    apply mul_whole; lia.
  - destruct (Str.contains "m" kept).
    + rewrite (of_Z_exact 1000000) by (split; [lia | reflexivity]).
      apply mul_whole; lia.
    + rewrite Z.mul_1_r. reflexivity.
Qed.

(** X18. The script that reads the social-counts container takes a count
    written with digits and thousands separators, followed by a blank and
    a keyword of the category, for the number that its digits write,
    whatever the keyword. *)
Theorem container_count_reads_the_number
        (words : list string) (kw : string) (factor : Z)
        (d : ascii) (cs rest : string) :
  In (words, kw, factor) scan_keywords ->
  Str.is_digit d = true ->
  Str.forallb is_digit_or_comma cs = true ->
  Str.int_of_digits (Str.filter Str.is_digit (String d cs)) < 2 ^ 53 ->
  container_count words (String d cs ++ " " ++ kw ++ rest)
  = Float64.Finite (inject_Z (Str.int_of_digits (Str.filter Str.is_digit (String d cs))))
  /\ Num.of_js (container_count words (String d cs ++ " " ++ kw ++ rest))
     = Int (Str.int_of_digits (Str.filter Str.is_digit (String d cs))).
Proof.
  intros Hkw Hd Hcs Hsmall.
  assert (Str.forallb is_digit_or_comma (String d cs) = true) as Hall.
  { cbn [Str.forallb]. unfold is_digit_or_comma at 1. rewrite Hd, Hcs. reflexivity. }
  assert (container_count words (String d cs ++ " " ++ kw ++ rest)
          = Float64.Finite
              (inject_Z (Str.int_of_digits (Str.filter Str.is_digit (String d cs))))) as E.
  { unfold container_count.
    change ((String d cs ++ " " ++ kw ++ rest)%string)
      with (String d (cs ++ " " ++ kw ++ rest)).
    rewrite (search_counted_number words kw factor d cs rest Hkw Hd Hcs).
    cbn [groups group Nat.eqb]. rewrite (keep_digits_or_commas _ Hall).
    pose proof (js_count_value (Str.filter Str.is_digit (String d cs)) ""
                  (filter_is_digit _)) as H.
    rewrite append_nil_r in H. cbv zeta in H.
    change (Str.contains "k" "") with false in H.
    change (Str.contains "m" "") with false in H. cbv iota in H.
    rewrite Z.mul_1_r in H. apply H; [| exact I | exact I | exact Hsmall].
    cbn [Str.filter]. rewrite Hd. discriminate. }
  split; [exact E |]. rewrite E. unfold Num.of_js, Float64.is_integral, inject_Z.
  cbn [Qnum Qden]. rewrite Z.mod_1_r, Z.div_1_r. reflexivity.
Qed.

Lemma container_count_reads_the_number_witness :
  Num.of_js (container_count ["like"; "reaction"]%string "1,234,567 likes") = Int 1234567.
Proof.
  refine (proj2 (container_count_reads_the_number
                   ["like"; "reaction"]%string "like" 1000 "1" ",234,567" "s" _ _ _ _)).
  - left. reflexivity.
  - reflexivity.
  - reflexivity.
  - vm_compute. reflexivity.
Defined.

(** X19. The script that scans every element of the post cleans the whole
    match, keyword included, so that the k of "like" and the m of
    "comment" are taken for suffixes: a count followed by "like" comes out
    multiplied by 1000 and a count followed by "comment" by 1000000, while
    a count followed by "reaction", "repost" or "share" is the number
    written. A post whose only element reads "5 comments" gets five
    million comments. *)
Theorem scan_count_takes_keyword_letters_for_suffixes
        (words : list string) (kw : string) (factor : Z)
        (d : ascii) (cs rest : string) (old : Float64.float) :
  In (words, kw, factor) scan_keywords ->
  Str.is_digit d = true ->
  Str.forallb is_digit_or_comma cs = true ->
  Str.int_of_digits (Str.filter Str.is_digit (String d cs)) * factor < 2 ^ 53 ->
  scan_count words (String d cs ++ " " ++ kw ++ rest) old
  = Float64.Finite
      (inject_Z (Str.int_of_digits (Str.filter Str.is_digit (String d cs)) * factor))
  /\ extract_engagement
       (Live (mkNode "" "" true
                (fun selector =>
                   if String.eqb selector "*"
                   then [Sample.text_node "5 comments"] else [])))
     = (Int 0, Int 5000000, Int 0).
Proof.
  intros Hkw Hd Hcs Hsmall. split; [| vm_compute; reflexivity].
  assert (Str.forallb is_digit_or_comma (String d cs) = true) as Hall.
  { cbn [Str.forallb]. unfold is_digit_or_comma at 1. rewrite Hd, Hcs. reflexivity. }
  destruct (keyword_facts words kw factor Hkw)
    as [_ [_ [Hin [kept [Hkept [Hclean [Hpoint Hfactor]]]]]]].
  unfold scan_count.
  assert (existsb (fun w => Str.contains w (String d cs ++ " " ++ kw ++ rest)) words = true)
    as ->.
  { apply existsb_exists. exists kw. split; [exact Hin |].
    rewrite <- append_assoc. apply contains_self. }
  change ((String d cs ++ " " ++ kw ++ rest)%string)
    with (String d (cs ++ " " ++ kw ++ rest)).
  rewrite (search_counted_number words kw factor d cs rest Hkw Hd Hcs).
  cbn [whole]. unfold keep_count_chars at 1. rewrite filter_append.
  fold (keep_count_chars (String d cs)). fold (keep_count_chars (" " ++ kw)).
  rewrite (keep_digits_or_commas _ Hall), Hkept.
  pose proof (js_count_value (Str.filter Str.is_digit (String d cs)) kept
                (filter_is_digit _)) as H.
  cbv zeta in H. rewrite Hfactor in H. apply H; [| exact Hclean | exact Hpoint | exact Hsmall].
  cbn [Str.filter]. rewrite Hd. discriminate.
Qed.

Lemma scan_count_takes_keyword_letters_for_suffixes_witness :
  scan_count ["like"; "reaction"]%string "42 likes" (Float64.of_Z 0)
  = Float64.Finite (inject_Z 42000).
Proof.
  refine (proj1 (scan_count_takes_keyword_letters_for_suffixes
                   ["like"; "reaction"]%string "like" 1000 "4" "2" "s" (Float64.of_Z 0)
                   _ _ _ _)).
  - left. reflexivity.
  - reflexivity.
  - reflexivity.
  - vm_compute. reflexivity.
Defined.

(** ** Text before the number *)
Lemma endswith_cons (p c : ascii) (s : string) :
  Str.endswith (String p "") (String c s)
  = match s with
    | EmptyString => Ascii.eqb p c
    | _ => Str.endswith (String p "") s
    end.
Proof.
  unfold Str.endswith.
  change (String c s) with (String c "" ++ s)%string. rewrite rev_append.
  change (Str.rev (String p "")) with (String p "").
  change (Str.rev (String c "")) with (String c "").
  destruct s as [| a s].
  - cbn. rewrite andb_true_r. reflexivity.
  - destruct (Str.rev (String a s)) as [| x y] eqn:E.
    + apply (f_equal Str.rev) in E. rewrite rev_involutive in E. discriminate E.
    + reflexivity.
Qed.

(** No number is found in a text without a digit that does not end with
    a point, whatever follows it. *)
Lemma search_count_after (pre tail : string) :
  Str.forallb (fun c => negb (Str.is_digit c)) pre = true ->
  Str.endswith "." pre = false ->
  search count_regex (pre ++ tail) = search count_regex tail.
Proof.
  induction pre as [| c pre IH]; intros Hpre Hend; [reflexivity |].
  cbn [Str.forallb] in Hpre. apply andb_true_iff in Hpre. destruct Hpre as [Hc Hpre].
  apply negb_true_iff in Hc. rewrite endswith_cons in Hend.
  simpl append. cbn [search].
  assert (match_here count_regex (String c (pre ++ tail)) = None) as ->.
  { unfold match_here, count_regex, Plus. cbn [rmatch]. rewrite Hc.
    cbn [star_match]. rewrite Hc. unfold is_char at 1.
    destruct (Ascii.eqb "." c) eqn:Ep; [| reflexivity].
    destruct pre as [| c2 pre]; [congruence |].
    cbn [Str.forallb] in Hpre. apply andb_true_iff in Hpre. destruct Hpre as [Hc2 _].
    apply negb_true_iff in Hc2.
    change ((String c2 pre ++ tail)%string) with (String c2 (pre ++ tail)).
    cbv beta iota. rewrite Hc2. reflexivity. }
  destruct pre as [| c2 pre]; [reflexivity |].
  apply IH; assumption.
Qed.

(** X20. Text before the number does not change what [parse_count]
    reads: if the text in front holds no digit and does not end with a
    point, the result is that of the rest of the text alone. *)
Theorem parse_count_skips_the_text_before (pre : string) (d : ascii) (s : string) :
  Str.forallb (fun c => negb (Str.is_digit c)) pre = true ->
  Str.endswith "." pre = false ->
  parse_count (pre ++ String d s) = parse_count (String d s).
Proof.
  intros Hpre Hend. unfold parse_count.
  rewrite (search_count_after pre (String d s) Hpre Hend).
  destruct pre; reflexivity.
Qed.

Lemma parse_count_skips_the_text_before_witness :
  parse_count "about 1.2K reactions" = parse_count "1.2K reactions".
Proof.
  apply (parse_count_skips_the_text_before "about " "1" ".2K reactions");
    reflexivity.
Defined.

(** ** The counts read off the badges *)
Lemma max_badge_live (words : list string) (elements : list Node) :
  forall best,
  exists b,
    max_badge words (map Live elements) (Int best) = Ok (Int b)
    /\ best <= b
    /\ Forall (fun el => counting_badge words el = true ->
                         parse_count (Str.strip (text el)) <= b) elements
    /\ (b = best
        \/ exists el, In el elements /\ counting_badge words el = true
                      /\ b = parse_count (Str.strip (text el))).
Proof.
  induction elements as [| el rest IH]; intros best.
  - exists best. repeat split; [lia | constructor | left; reflexivity].
  - cbn [map max_badge element_text bind]. fold (counting_badge words el).
    destruct (counting_badge words el) eqn:E.
    + cbn [Num.ltb].
      destruct (Z.ltb_spec best (parse_count (Str.strip (text el)))) as [Hlt | Hge].
      * destruct (IH (parse_count (Str.strip (text el)))) as [b [H1 [H2 [H3 H4]]]].
        exists b. split; [exact H1 | split; [lia | split]].
        -- constructor; [intros _; exact H2 | exact H3].
        -- right. destruct H4 as [-> | [el' [Hin [Hc ->]]]].
           ++ exists el. split; [left; reflexivity | split; [exact E | reflexivity]].
           ++ exists el'. split; [right; exact Hin | split; [exact Hc | reflexivity]].
      * destruct (IH best) as [b [H1 [H2 [H3 H4]]]].
        exists b. split; [exact H1 | split; [exact H2 | split]].
        -- constructor; [intros _; lia | exact H3].
        -- destruct H4 as [-> | [el' [Hin [Hc ->]]]]; [left; reflexivity |].
           right. exists el'. split; [right; exact Hin | split; [exact Hc | reflexivity]].
    + destruct (IH best) as [b [H1 [H2 [H3 H4]]]].
      exists b. split; [exact H1 | split; [exact H2 | split]].
      * constructor; [intros Hc; congruence | exact H3].
      * destruct H4 as [-> | [el' [Hin [Hc ->]]]]; [left; reflexivity |].
        right. exists el'. split; [right; exact Hin | split; [exact Hc | reflexivity]].
Qed.

Lemma max_over_live (n : Node) (words selectors : list string) :
  forall best,
  exists b,
    max_over (Live n) words selectors (Int best) = Ok (Int b)
    /\ best <= b
    /\ Forall (fun el => counting_badge words el = true ->
                         parse_count (Str.strip (text el)) <= b)
              (flat_map (query n) selectors)
    /\ (b = best
        \/ exists el, In el (flat_map (query n) selectors)
                      /\ counting_badge words el = true
                      /\ b = parse_count (Str.strip (text el))).
Proof.
  induction selectors as [| selector rest IH]; intros best.
  - exists best. repeat split; [lia | constructor | left; reflexivity].
  - cbn [max_over element_find bind flat_map].
    destruct (max_badge_live words (query n selector) best) as [b1 [E1 [L1 [F1 C1]]]].
    rewrite E1. cbn [bind].
    destruct (IH b1) as [b [E [L [F C]]]].
    exists b. split; [exact E | split; [lia | split]].
    + apply Forall_app. split; [| exact F].
      eapply Forall_impl; [| exact F1]. cbv beta. intros el H Hc. specialize (H Hc). lia.
    + destruct C as [-> | [el [Hin [Hc ->]]]].
      * destruct C1 as [-> | [el [Hin [Hc ->]]]]; [left; reflexivity |].
        right. exists el. split; [apply in_or_app; left; exact Hin |].
        split; [exact Hc | reflexivity].
      * right. exists el. split; [apply in_or_app; right; exact Hin |].
        split; [exact Hc | reflexivity].
Qed.

(** X21. For a readable post without a social-counts container, the
    reactions, the comments and the reposts are each the largest
    [parse_count] among the badges of the category that count (a badge
    counts when its text names a word of the category, is all digits or
    holds a k), and 0 when there is none; the script that scans every
    element is run only when all three are 0. *)
Theorem extract_engagement_takes_the_largest_badge (n : Node) :
  (forall selector, In selector social_counts_selectors -> query n selector = []) ->
  exists r c p,
    largest_badge ["like"; "reaction"]%string reaction_selectors n r
    /\ largest_badge ["comment"]%string comment_selectors n c
    /\ largest_badge ["repost"; "share"]%string repost_selectors n p
    /\ extract_engagement (Live n)
       = if ((r =? 0) && (c =? 0) && (p =? 0))%bool
         then of_triple (script_scan_counts n)
         else (Int r, Int c, Int p).
Proof.
  intros Hnone.
  destruct (max_over_live n ["like"; "reaction"]%string reaction_selectors 0)
    as [r [Er [_ [Fr Cr]]]].
  destruct (max_over_live n ["comment"]%string comment_selectors 0)
    as [c [Ec [_ [Fc Cc]]]].
  destruct (max_over_live n ["repost"; "share"]%string repost_selectors 0)
    as [p [Ep [_ [Fp Cp]]]].
  exists r, c, p. split; [split; assumption |].
  split; [split; assumption |]. split; [split; assumption |].
  unfold extract_engagement, social_counts_selectors in *.
  cbn [find_container element_find bind].
  rewrite !Hnone by (simpl; tauto). cbn [map bind all_zero Num.is_zero andb].
  change (0 =? 0) with true. cbv iota.
  rewrite Er. cbn [bind]. rewrite Ec. cbn [bind]. rewrite Ep.
  cbn [andb bind all_zero Num.is_zero].
  destruct ((r =? 0) && (c =? 0) && (p =? 0))%bool; reflexivity.
Qed.

Lemma extract_engagement_takes_the_largest_badge_witness :
  exists r c p,
    largest_badge ["like"; "reaction"]%string reaction_selectors
                  (Sample.text_node "Hello") r
    /\ largest_badge ["comment"]%string comment_selectors (Sample.text_node "Hello") c
    /\ largest_badge ["repost"; "share"]%string repost_selectors
                     (Sample.text_node "Hello") p
    /\ extract_engagement (Live (Sample.text_node "Hello"))
       = if ((r =? 0) && (c =? 0) && (p =? 0))%bool
         then of_triple (script_scan_counts (Sample.text_node "Hello"))
         else (Int r, Int c, Int p).
Proof.
  apply extract_engagement_takes_the_largest_badge. intros selector _. reflexivity.
Defined.

Local Close Scope Z_scope.
Local Open Scope string_scope.
Local Open Scope list_scope.

(** ** Cutting a text at a character *)
Lemma split_cons (sep : ascii) (s : string) :
  exists piece pieces, App.split sep s = piece :: pieces.
Proof.
  destruct s as [| c s]; [exists "", []; reflexivity |].
  cbn [App.split]. destruct (Ascii.eqb c sep); [eexists _, _; reflexivity |].
  destruct (App.split sep s); eexists _, _; reflexivity.
Qed.

Lemma split_plain (sep : ascii) (x : string) :
  Str.forallb (fun c => negb (Ascii.eqb c sep)) x = true ->
  App.split sep x = [x].
Proof.
  induction x as [| c x IH]; [reflexivity |].
  cbn [Str.forallb App.split]. intros H.
  apply andb_true_iff in H. destruct H as [Hc Hx].
  apply negb_true_iff in Hc. rewrite Hc, (IH Hx). reflexivity.
Qed.

Lemma split_at_first (sep : ascii) (x t : string) :
  Str.forallb (fun c => negb (Ascii.eqb c sep)) x = true ->
  App.split sep (x ++ String sep t) = x :: App.split sep t.
Proof.
  induction x as [| c x IH]; intros H.
  - simpl append. cbn [App.split]. rewrite Ascii.eqb_refl. reflexivity.
  - cbn [Str.forallb] in H. apply andb_true_iff in H. destruct H as [Hc Hx].
    apply negb_true_iff in Hc.
    simpl append. cbn [App.split]. rewrite Hc, (IH Hx). reflexivity.
Qed.

Lemma split_pieces (sep : ascii) (s piece : string) :
  In piece (App.split sep s) ->
  Str.forallb (fun c => negb (Ascii.eqb c sep)) piece = true.
Proof.
  revert piece. induction s as [| c s IH]; intros piece H.
  - cbn [App.split] in H. destruct H as [<- | []]. reflexivity.
  - cbn [App.split] in H. destruct (Ascii.eqb c sep) eqn:E.
    + destruct H as [<- | H]; [reflexivity | apply IH; exact H].
    + destruct (App.split sep s) as [| p ps].
      * destruct H as [<- | []]. cbn [Str.forallb]. rewrite E. reflexivity.
      * destruct H as [<- | H].
        -- cbn [Str.forallb]. rewrite E. apply IH. left. reflexivity.
        -- apply IH. right. exact H.
Qed.

Lemma split_join (sep : ascii) (l : list string) :
  l <> [] ->
  Forall (fun x => Str.forallb (fun c => negb (Ascii.eqb c sep)) x = true) l ->
  App.split sep (Str.join (String sep "") l) = l.
Proof.
  induction l as [| x l IH]; intros Hne H; [congruence |].
  inversion H as [| ? ? Hx Hl]; subst.
  destruct l as [| y l].
  - cbn [Str.join]. apply split_plain. exact Hx.
  - change (Str.join (String sep "") (x :: y :: l))
      with (x ++ String sep (Str.join (String sep "") (y :: l)))%string.
    rewrite (split_at_first sep x _ Hx), IH; [reflexivity | discriminate | exact Hl].
Qed.

(** ** The profile URLs that the dashboard hands to the scraper *)
Lemma forallb_contains_char (sep : ascii) (s : string) :
  Str.forallb (fun c => negb (Ascii.eqb c sep)) s = true ->
  Str.contains (String sep "") s = false.
Proof.
  induction s as [| c s IH]; [reflexivity |].
  cbn [Str.forallb]. intros H. apply andb_true_iff in H. destruct H as [Hc Hs].
  apply negb_true_iff in Hc.
  rewrite contains_unfold, (IH Hs). cbn [Str.startswith].
  rewrite Ascii.eqb_sym, Hc. reflexivity.
Qed.

Lemma contains_char_forallb (sep : ascii) (s : string) :
  Str.contains (String sep "") s = false ->
  Str.forallb (fun c => negb (Ascii.eqb c sep)) s = true.
Proof.
  induction s as [| c s IH]; [reflexivity |].
  rewrite contains_unfold. intros H. apply orb_false_iff in H. destruct H as [H1 H2].
  cbn [Str.startswith] in H1. rewrite andb_true_r in H1.
  cbn [Str.forallb]. rewrite Ascii.eqb_sym, H1, (IH H2). reflexivity.
Qed.

(** X22. The dashboard hands the scraper the lines of the text area that
    are not blank, each without blanks at its ends: no URL it hands over
    is empty, has a blank at an end or holds a line break. Entering a list
    of such URLs, one per line, gives back that list. *)
Theorem profile_urls_are_the_lines_entered (profile_text : string) (urls : list string) :
  Forall (fun url => url <> ""%string
                     /\ Str.strip url = url
                     /\ Str.contains newline url = false)
         (App.profile_urls profile_text)
  /\ (Forall (fun url => url <> ""%string
                         /\ Str.strip url = url
                         /\ Str.contains newline url = false) urls ->
      App.profile_urls (Str.join newline urls) = urls).
Proof.
  split.
  - apply Forall_forall. intros url H. unfold App.profile_urls in H.
    apply in_map_iff in H. destruct H as [line [<- H]].
    apply filter_In in H. destruct H as [Hin Hne]. split; [| split].
    + destruct (Str.strip line); [discriminate Hne | discriminate].
    + apply strip_with_idempotent.
    + apply strip_with_contains. apply forallb_contains_char.
      eapply split_pieces. exact Hin.
  - intros H. unfold App.profile_urls. destruct urls as [| u urls]; [reflexivity |].
    change newline with (String (ascii_of_nat 10) "").
    rewrite split_join; [| discriminate |].
    + induction H as [| x l [Hne [Hs _]] Hl IH]; [reflexivity |].
      cbn [filter]. rewrite Hs.
      destruct x as [| c x]; [congruence |]. cbn [Str.is_empty negb map].
      rewrite Hs, IH. reflexivity.
    + eapply Forall_impl; [| exact H]. intros x [_ [_ Hx]].
      apply contains_char_forallb. exact Hx.
Qed.

Lemma profile_urls_are_the_lines_entered_witness :
  App.profile_urls
    (Str.join newline ["https://www.linkedin.com/in/jane-doe/"%string;
                       "https://www.linkedin.com/in/gone"%string])
  = ["https://www.linkedin.com/in/jane-doe/"%string;
     "https://www.linkedin.com/in/gone"%string].
Proof.
  apply (proj2 (profile_urls_are_the_lines_entered "" _)).
  repeat constructor; discriminate.
Defined.

(** ** The hashtags that the dashboard reads back *)
Lemma word_char_plain (c : ascii) :
  (Str.is_word c || Ascii.eqb c "#")%bool = true ->
  negb (Ascii.eqb c ",") = true /\ negb (Str.py_isspace c) = true.
Proof.
  destruct c as [[|] [|] [|] [|] [|] [|] [|] [|]]; intros H;
    try discriminate H; split; reflexivity.
Qed.

Lemma hashtag_plain (h : string) :
  is_hashtag h = true ->
  h <> ""%string
  /\ Str.forallb (fun c => negb (Ascii.eqb c ",")) h = true
  /\ Str.forallb (fun c => negb (Str.py_isspace c)) h = true.
Proof.
  destruct h as [| c [| d w]]; try discriminate. cbn [is_hashtag]. intros H.
  apply andb_true_iff in H. destruct H as [H Hw].
  apply andb_true_iff in H. destruct H as [Hc Hd].
  assert (forall s, Str.forallb Str.is_word s = true ->
                    Str.forallb (fun c => negb (Ascii.eqb c ",")) s = true
                    /\ Str.forallb (fun c => negb (Str.py_isspace c)) s = true) as Hall.
  { induction s as [| a s IH]; [split; reflexivity |].
    cbn [Str.forallb]. intros Hs. apply andb_true_iff in Hs. destruct Hs as [Ha Hs].
    destruct (IH Hs) as [-> ->].
    destruct (word_char_plain a) as [-> ->]; [rewrite Ha; reflexivity |].
    split; reflexivity. }
  destruct (Hall w Hw) as [H1 H2].
  destruct (word_char_plain c) as [Hc1 Hc2]; [rewrite Hc; apply orb_true_r |].
  destruct (word_char_plain d) as [Hd1 Hd2]; [rewrite Hd; reflexivity |].
  split; [discriminate |]. cbn [Str.forallb].
  rewrite Hc1, Hc2, Hd1, Hd2, H1, H2. split; reflexivity.
Qed.

Lemma tags_of_joined (l : list string) :
  Forall (fun h => is_hashtag h = true) l ->
  l <> [] ->
  map Str.strip (App.split "," (Str.join ", " l)) = l.
Proof.
  induction l as [| x l IH]; intros H Hne; [congruence |].
  inversion H as [| ? ? Hx Hl]; subst.
  destruct (hashtag_plain x Hx) as [_ [Hcomma Hblank]].
  destruct l as [| y l].
  - cbn [Str.join]. rewrite (split_plain "," x Hcomma). cbn [map].
    unfold Str.strip. rewrite (strip_with_none _ _ Hblank). reflexivity.
  - change (Str.join ", " (x :: y :: l))
      with (x ++ String "," (String " " (Str.join ", " (y :: l))))%string.
    rewrite (split_at_first "," x _ Hcomma). cbn [map App.split].
    change (Ascii.eqb " " ",") with false. cbv iota.
    specialize (IH Hl ltac:(discriminate)).
    destruct (split_cons "," (Str.join ", " (y :: l))) as [p [ps E]].
    rewrite E in *. cbn [map] in *.
    unfold Str.strip at 1. rewrite (strip_with_none _ _ Hblank).
    unfold Str.strip at 1.
    pose proof (strip_with_blanks Str.py_isspace " " p eq_refl) as Hp.
    simpl append in Hp. rewrite Hp.
    fold (Str.strip p). rewrite IH. reflexivity.
Qed.

Lemma tags_of_hashtags (text : string) :
  App.tags_of_cell (Some (Str.join ", " (findall hashtag_regex text)))
  = findall hashtag_regex text.
Proof.
  pose proof (proj1 (findall_hashtags text)) as H.
  destruct (findall hashtag_regex text) as [| h l] eqn:E; [reflexivity |].
  unfold App.tags_of_cell.
  assert (Str.is_empty (Str.join ", " (h :: l)) = false) as ->.
  { inversion H as [| ? ? Hh _]; subst.
    destruct h as [| c w]; [discriminate Hh |]. destruct l; reflexivity. }
  apply tags_of_joined; [exact H | discriminate].
Qed.

(** X23. The hashtags that the dashboard takes out of a cell of the
    column [hashtags] are those that the scraper put in: for the cell of
    a record, [analyze_hashtags] gets the hashtags found in the text of
    the post, in their order, as many as [hashtag_count] says; over the
    records of a page it gets them all, record after record; and its
    second loop pairs the same hashtags, in the same order, with the
    engagement of their posts. *)
Theorem hashtags_are_read_back
        (self : Scraper) (page : Page) (post_data : list PostRecord) :
  extract_posts self page = Ok post_data ->
  Forall (fun r =>
            App.tags_of_cell (Some (hashtags r)) = findall hashtag_regex (post_text r)
            /\ List.length (App.tags_of_cell (Some (hashtags r))) = hashtag_count r)
         post_data
  /\ App.all_hashtags (map (fun r => Some (hashtags r)) post_data)
     = flat_map (fun r => findall hashtag_regex (post_text r)) post_data
  /\ map fst (App.hashtag_engagement
                (map (fun r => (Some (hashtags r), total_engagement r)) post_data))
     = App.all_hashtags (map (fun r => Some (hashtags r)) post_data).
Proof.
  intros H.
  assert (Forall (fun r => App.tags_of_cell (Some (hashtags r))
                           = findall hashtag_regex (post_text r)
                           /\ List.length (App.tags_of_cell (Some (hashtags r)))
                              = hashtag_count r) post_data) as Hall.
  { apply Forall_forall. intros r Hin.
    destruct (extract_posts_In _ _ _ _ H Hin) as [j [post [_ Hp]]].
    destruct (process_post_fields _ _ _ _ _ Hp) as [_ [_ [_ [_ [_ [Ht [Hc _]]]]]]].
    rewrite Ht, Hc, tags_of_hashtags. split; reflexivity. }
  split; [exact Hall | split].
  - unfold App.all_hashtags. clear H.
    induction Hall as [| r l [Hr _] _ IH]; [reflexivity |].
    cbn [map flat_map]. rewrite Hr, IH. reflexivity.
  - unfold App.all_hashtags, App.hashtag_engagement. clear.
    induction post_data as [| r l IH]; [reflexivity |].
    cbn [map flat_map fst snd]. rewrite map_app, IH, map_map. cbn [fst].
    rewrite map_id. reflexivity.
Qed.

Lemma hashtags_are_read_back_witness :
  exists r r',
    extract_posts (Sample.scraper 5) Sample.page = Ok [r; r']
    /\ App.all_hashtags [Some (hashtags r); Some (hashtags r')]
       = ["#AI"%string; "#Tech"%string].
Proof.
  assert (exists r r', extract_posts (Sample.scraper 5) Sample.page = Ok [r; r'])
    as [r [r' E]] by (eexists _, _; vm_compute; reflexivity).
  exists r, r'. split; [exact E |].
  destruct (hashtags_are_read_back (Sample.scraper 5) Sample.page [r; r'] E)
    as [_ [H _]].
  cbn [map] in H. rewrite H.
  vm_compute in E. injection E as <- <-. vm_compute. reflexivity.
Defined.

(** ** The session identifier and the session file *)
Lemma hex_length (digits : nat) : forall int, String.length (Uuid.hex digits int) = digits.
Proof.
  induction digits as [| k IH]; intros int; [reflexivity |].
  cbn [Uuid.hex]. rewrite length_append, IH. simpl. lia.
Qed.

Lemma hex_digit_is_hex (n : N) : (n < 16)%N -> is_hex_digit (Uuid.hex_digit n) = true.
Proof.
  intros H. unfold Uuid.hex_digit.
  assert (N.to_nat n < 16)%nat as Hn by lia.
  destruct (N.to_nat n) as [| m]; [reflexivity |].
  do 15 (destruct m as [| m]; [reflexivity |]). lia.
Qed.

Lemma hex_is_hex (digits : nat) :
  forall int, Str.forallb is_hex_digit (Uuid.hex digits int) = true.
Proof.
  induction digits as [| k IH]; intros int; [reflexivity |].
  cbn [Uuid.hex]. rewrite forallb_append, IH. cbn [Str.forallb].
  rewrite hex_digit_is_hex; [reflexivity |]. apply N.mod_lt. discriminate.
Qed.

Lemma take_length (n : nat) :
  forall s, (n <= String.length s)%nat -> String.length (Str.take n s) = n.
Proof.
  induction n as [| n IH]; intros s H; [reflexivity |].
  destruct s as [| c s]; simpl in *; [lia |]. rewrite IH; [reflexivity | lia].
Qed.

Lemma take_forallb (p : ascii -> bool) (n : nat) :
  forall s, Str.forallb p s = true -> Str.forallb p (Str.take n s) = true.
Proof.
  induction n as [| n IH]; intros s H; [reflexivity |].
  destruct s as [| c s]; [reflexivity |].
  cbn [Str.forallb Str.take] in *. apply andb_true_iff in H. destruct H as [Hc Hs].
  rewrite Hc, (IH s Hs). reflexivity.
Qed.

Lemma new_session_id_digits (uuid4 : N) :
  new_session_id uuid4 = Str.take 8 (Uuid.hex 32 uuid4).
Proof.
  unfold new_session_id, Uuid.str. cbv zeta.
  pose proof (take_length 8 (Uuid.hex 32 uuid4)) as H.
  rewrite hex_length in H. specialize (H ltac:(lia)).
  rewrite <- H at 1. apply take_append.
Qed.

Lemma hex_digit_is_name_char (c : ascii) : is_hex_digit c = true -> is_name_char c = true.
Proof.
  destruct c as [[|] [|] [|] [|] [|] [|] [|] [|]]; intros H;
    try discriminate H; reflexivity.
Qed.

Lemma forallb_weaken (p q : ascii -> bool) (s : string) :
  (forall c, p c = true -> q c = true) ->
  Str.forallb p s = true -> Str.forallb q s = true.
Proof.
  intros Hpq. induction s as [| c s IH]; [reflexivity |].
  cbn [Str.forallb]. intros H. apply andb_true_iff in H. destruct H as [Hc Hs].
  rewrite (Hpq c Hc), (IH Hs). reflexivity.
Qed.

Lemma name_char_cuts (c : ascii) :
  is_name_char c = true ->
  negb (Ascii.eqb c "_") = true /\ negb (Ascii.eqb c ".") = true.
Proof.
  unfold is_name_char. intros H. apply negb_true_iff in H.
  apply orb_false_iff in H. destruct H as [-> ->]. split; reflexivity.
Qed.

(** X24. The session identifier that [__init__] takes from a UUID is
    made of eight hexadecimal digits. For such an identifier, and for any
    that holds neither an underscore nor a point, the dashboard finds the
    session file that the scraper wrote: the file passes its test for
    session files, the identifier it cuts out of the file name is the
    scraper's, and the path it builds from that identifier is the path
    that was written. *)
Theorem session_file_is_found_again (self : Scraper) (uuid4 : N) :
  (String.length (new_session_id uuid4) = 8%nat
   /\ Str.forallb is_hex_digit (new_session_id uuid4) = true
   /\ Str.forallb is_name_char (new_session_id uuid4) = true)
  /\ (Str.forallb is_name_char (self_session_id self) = true ->
      let file := App.selected_file (self_session_id self) in
      App.is_session_file file = true
      /\ App.session_id_of file = self_session_id self
      /\ App.data_path (App.selected_file (App.session_id_of file)) = session_file self).
Proof.
  split.
  - rewrite new_session_id_digits.
    assert (Str.forallb is_hex_digit (Str.take 8 (Uuid.hex 32 uuid4)) = true) as Hhex
        by (apply take_forallb, hex_is_hex).
    split; [| split; [exact Hhex |]].
    + apply take_length. rewrite hex_length. lia.
    + exact (forallb_weaken _ _ _ hex_digit_is_name_char Hhex).
  - intros Hid. cbv zeta.
    set (id := self_session_id self) in *.
    assert (App.session_id_of (App.selected_file id) = id) as Hback.
    { unfold App.session_id_of, App.selected_file.
      change ("linkedin_posts_" ++ id ++ ".csv")%string
        with ("linkedin" ++ String "_" ("posts" ++ String "_" (id ++ ".csv")))%string.
      rewrite (split_at_first "_" "linkedin" _ eq_refl).
      rewrite (split_at_first "_" "posts" _ eq_refl).
      rewrite (split_plain "_" (id ++ ".csv")).
      - cbn [last]. change (id ++ ".csv")%string with (id ++ String "." "csv")%string.
        rewrite (split_at_first "." id "csv"); [reflexivity |].
        exact (forallb_weaken _ _ _ (fun c H => proj2 (name_char_cuts c H)) Hid).
      - rewrite forallb_append.
        rewrite (forallb_weaken _ _ _ (fun c H => proj1 (name_char_cuts c H)) Hid).
        reflexivity. }
    split; [| split].
    + unfold App.is_session_file, App.selected_file.
      rewrite startswith_self. rewrite <- append_assoc, endswith_self. reflexivity.
    + exact Hback.
    + rewrite Hback. reflexivity.
Qed.

Lemma session_file_is_found_again_witness :
  App.session_id_of (App.selected_file "0a1b2c3d") = "0a1b2c3d"%string.
Proof.
  exact (proj1 (proj2 (proj2 (session_file_is_found_again (Sample.scraper 5) 0)
                         eq_refl))).
Defined.

(** ** The rows that the posting-time analysis keeps *)
Lemma int_of_pad2 (h : nat) : Str.int_of_digits (Str.pad2 h) = Z.of_nat h.
Proof.
  unfold Str.pad2. destruct (Nat.ltb h 10); [| apply int_of_digits_str_of_nat].
  rewrite <- (int_of_digits_str_of_nat h). reflexivity.
Qed.

(** X25. Of the records of a page, [analyze_posting_time] keeps those
    whose date text [parse_date] understood and drops the others: looking
    at the day and at the hour selects the rows whose date is not
    ["Unknown"]. Each row kept names one of the seven days, and its hour,
    read as a number, is below 24. *)
Theorem posting_time_rows_are_the_dated_rows
        (self : Scraper) (page : Page) (post_data : list PostRecord) :
  extract_posts self page = Ok post_data ->
  App.time_rows post_data
  = filter (fun r => negb (String.eqb (post_date r) "Unknown")) post_data
  /\ Forall (fun r => In (day_of_week r) DateTime.weekday_names
                      /\ (0 <= Str.int_of_digits (hour_of_day r) < 24)%Z)
            (App.time_rows post_data).
Proof.
  intros H.
  assert (forall r, In r post_data ->
            ((post_date r = "Unknown" /\ day_of_week r = "Unknown"
              /\ hour_of_day r = "Unknown")%string
             \/ (post_date r <> "Unknown"%string
                 /\ In (day_of_week r) DateTime.weekday_names
                 /\ day_of_week r <> "Unknown"%string
                 /\ hour_of_day r <> "Unknown"%string
                 /\ exists h, (h < 24)%nat /\ hour_of_day r = Str.pad2 h))) as Hall.
  { intros r Hin.
    destruct (extract_posts_In _ _ _ _ H Hin) as [j [post [_ Hp]]].
    exact (proj1 (date_fields_of_record _ _ _ _ _ Hp)). }
  split.
  - unfold App.time_rows. apply filter_ext_in. intros r Hin.
    destruct (Hall r Hin) as [[-> [-> ->]] | [Hd [_ [Hw [Hh _]]]]]; [reflexivity |].
    apply String.eqb_neq in Hd, Hw, Hh. rewrite Hd, Hw, Hh. reflexivity.
  - apply Forall_forall. intros r Hr. unfold App.time_rows in Hr.
    apply filter_In in Hr. destruct Hr as [Hin Hkeep].
    destruct (Hall r Hin) as [[_ [Hw _]] | [_ [Hname [_ [_ [h [Hh ->]]]]]]].
    + rewrite Hw in Hkeep. discriminate Hkeep.
    + split; [exact Hname |]. rewrite int_of_pad2. lia.
Qed.

Lemma posting_time_rows_are_the_dated_rows_witness :
  exists r r',
    extract_posts (Sample.scraper 5) Sample.page = Ok [r; r']
    /\ App.time_rows [r; r']
       = filter (fun r => negb (String.eqb (post_date r) "Unknown")) [r; r'].
Proof.
  assert (exists r r', extract_posts (Sample.scraper 5) Sample.page = Ok [r; r'])
    as [r [r' E]] by (eexists _, _; vm_compute; reflexivity).
  exists r, r'. split; [exact E |].
  exact (proj1 (posting_time_rows_are_the_dated_rows
                  (Sample.scraper 5) Sample.page [r; r'] E)).
Defined.

(** ** The variations cut out of the generated text *)
Lemma match_here_marker_start (s : string) (m : match_obj) :
  match_here App.post_marker_regex s = Some m -> Str.startswith "Post " s = true.
Proof.
  unfold match_here, App.post_marker_regex. cbn [Lit rmatch]. unfold is_char.
  destruct s as [| c1 [| c2 [| c3 [| c4 [| c5 s]]]]]; cbn [Str.startswith];
    repeat match goal with
           | |- context [Ascii.eqb ?a ?b] =>
               destruct (Ascii.eqb a b); cbn [andb];
               try (intros H; discriminate H)
           end;
    try (intros H; discriminate H).
  reflexivity.
Qed.

Lemma match_here_marker (d : ascii) (ds rest : string) :
  Str.is_digit d = true ->
  Str.forallb Str.is_digit ds = true ->
  match_here App.post_marker_regex (post_marker (String d ds) ++ rest)
  = Some (MatchObj (post_marker (String d ds)) [] rest).
Proof.
  intros Hd Hds. unfold match_here, App.post_marker_regex, post_marker, Plus.
  rewrite !append_assoc. simpl append. cbn [Lit rmatch]. unfold is_char.
  cbn [Ascii.eqb Bool.eqb]. cbv iota. rewrite Hd.
  rewrite (star_match_prefix Str.is_digit ds (String ":" rest) _
             (MatchObj (String "P" (String "o" (String "s" (String "t" (String " "
                          (String d (ds ++ ":"))))))) [] rest) Hds);
    [reflexivity |].
  cbn [star_match]. change (Str.is_digit ":") with false. cbv iota.
  do 2 f_equal.
  change (String "P" (String "o" (String "s" (String "t" (String " "
            (String d (ds ++ String ":" rest)))))))
    with ("Post " ++ String d (ds ++ String ":" rest))%string.
  replace ("Post " ++ String d (ds ++ String ":" rest))%string
    with (("Post " ++ String d (ds ++ ":")) ++ rest)%string
    by (simpl; rewrite append_assoc; reflexivity).
  apply consumed_append.
Qed.

Lemma resplit_from_skip (r : regex) (pre s : string) :
  App.resplit_from r (String.length pre) (pre ++ s) = App.resplit_from r 0 s.
Proof. induction pre as [| c pre IH]; simpl; [destruct s; reflexivity | exact IH]. Qed.

(** No marker starts inside a text that does not hold [Post] and a blank,
    whatever comes after the text. *)
Lemma no_marker_inside (c : ascii) (b tail : string) (m : match_obj) :
  Str.contains "Post " (String c b) = false ->
  Str.startswith "Post " tail = true ->
  match_here App.post_marker_regex (String c b ++ tail) = Some m -> False.
Proof.
  intros Hb Htail Hm. apply match_here_marker_start in Hm.
  rewrite contains_unfold in Hb. apply orb_false_iff in Hb. destruct Hb as [Hb _].
  destruct (startswith_straddle _ _ _ Hm) as [Hin | [p2 [Hsplit Hp2]]]; [congruence |].
  apply startswith_split in Htail. destruct Htail as [t ->].
  destruct p2 as [| a p2].
  - rewrite append_nil_r in Hsplit. rewrite <- Hsplit in Hb. discriminate Hb.
  - simpl in Hp2. apply andb_true_iff in Hp2. destruct Hp2 as [Ha _].
    apply Ascii.eqb_eq in Ha. subst a.
    simpl in Hsplit. injection Hsplit as _ Hsplit.
    repeat (destruct b as [| ? b]; simpl in Hsplit;
            [discriminate Hsplit | injection Hsplit as _ Hsplit]).
    destruct b; discriminate Hsplit.
Qed.

Lemma resplit_plain (b : string) :
  Str.contains "Post " b = false -> App.resplit App.post_marker_regex b = [b].
Proof.
  unfold App.resplit. induction b as [| c b IH]; intros H; [reflexivity |].
  cbn [App.resplit_from].
  destruct (match_here App.post_marker_regex (String c b)) as [m |] eqn:E.
  - apply match_here_marker_start in E.
    rewrite contains_unfold, E in H. discriminate H.
  - rewrite contains_unfold in H. apply orb_false_iff in H.
    rewrite (IH (proj2 H)). reflexivity.
Qed.

Lemma resplit_match (r : regex) (c : ascii) (tail rest : string) :
  match_here r (String c (tail ++ rest)) = Some (MatchObj (String c tail) [] rest) ->
  App.resplit_from r 0 (String c (tail ++ rest)) = "" :: App.resplit_from r 0 rest.
Proof.
  intros Hm. cbn [App.resplit_from]. rewrite Hm. cbn [whole].
  replace (String.length (String c tail) - 1)%nat with (String.length tail)
    by (simpl; lia).
  rewrite resplit_from_skip. reflexivity.
Qed.

Lemma resplit_at_marker (b : string) (d : ascii) (ds rest : string) :
  Str.contains "Post " b = false ->
  Str.is_digit d = true ->
  Str.forallb Str.is_digit ds = true ->
  App.resplit App.post_marker_regex (b ++ post_marker (String d ds) ++ rest)
  = b :: App.resplit App.post_marker_regex rest.
Proof.
  intros Hb Hd Hds. unfold App.resplit. induction b as [| c b IH].
  - exact (resplit_match App.post_marker_regex "P" ("ost " ++ String d ds ++ ":") rest
                          (match_here_marker d ds rest Hd Hds)).
  - change ((String c b ++ post_marker (String d ds) ++ rest)%string)
      with (String c (b ++ post_marker (String d ds) ++ rest)).
    cbn [App.resplit_from].
    destruct (match_here App.post_marker_regex
                (String c (b ++ post_marker (String d ds) ++ rest))) as [m |] eqn:E.
    + exfalso. apply (no_marker_inside c b (post_marker (String d ds) ++ rest) m Hb);
        [reflexivity | exact E].
    + rewrite contains_unfold in Hb. apply orb_false_iff in Hb.
      rewrite (IH (proj2 Hb)). reflexivity.
Qed.

Lemma resplit_marked (bodies : list (string * string)) :
  forall opening,
  Str.contains "Post " opening = false ->
  Forall (fun nb => digit_headed (fst nb)
                    /\ Str.forallb Str.is_digit (fst nb) = true
                    /\ Str.contains "Post " (snd nb) = false) bodies ->
  App.resplit App.post_marker_regex (opening ++ marked bodies)
  = opening :: map snd bodies.
Proof.
  induction bodies as [| [number body] rest IH]; intros opening Ho H.
  - cbn [marked map]. rewrite append_nil_r. apply resplit_plain. exact Ho.
  - inversion H as [| ? ? [[d [ds [E Hd]]] [Hall Hbody]] Hrest]; subst.
    cbn [fst snd] in *. subst number.
    cbn [Str.forallb] in Hall. rewrite Hd in Hall. cbn [andb] in Hall.
    cbn [marked map snd].
    rewrite (resplit_at_marker opening d ds _ Ho Hd Hall).
    rewrite (IH body Hbody Hrest). reflexivity.
Qed.

(** X26. The variations that [generate_content_with_groq] returns are
    never empty and have no blank at their ends. When the generated text
    is an opening followed by bodies, each after a marker [Post n:], and
    neither the opening nor a body holds the word [Post] followed by a
    blank, the variations are the opening and the bodies in their order,
    blanks stripped from their ends, without those that are blank. *)
Theorem variations_are_the_marked_bodies
        (generated_content opening : string) (bodies : list (string * string)) :
  Forall (fun v => v <> ""%string /\ Str.strip v = v)
         (App.variations generated_content)
  /\ (Str.contains "Post " opening = false ->
      Forall (fun nb => digit_headed (fst nb)
                        /\ Str.forallb Str.is_digit (fst nb) = true
                        /\ Str.contains "Post " (snd nb) = false) bodies ->
      App.variations (opening ++ marked bodies)
      = map Str.strip
          (filter (fun p => negb (Str.is_empty (Str.strip p)))
                  (opening :: map snd bodies))).
Proof.
  split.
  - apply Forall_forall. intros v H. unfold App.variations in H.
    apply in_map_iff in H. destruct H as [p [<- H]].
    apply filter_In in H. destruct H as [_ Hne]. split.
    + destruct (Str.strip p); [discriminate Hne | discriminate].
    + apply strip_with_idempotent.
  - intros Ho H. unfold App.variations. rewrite (resplit_marked bodies opening Ho H).
    reflexivity.
Qed.

Lemma variations_are_the_marked_bodies_witness :
  App.variations ("Here are three posts. Post 1: Ship early. Post 2: Ask for help.")
  = ["Here are three posts."%string; "Ship early."%string; "Ask for help."%string].
Proof.
  refine (proj2 (variations_are_the_marked_bodies
                   "" "Here are three posts. "
                   [("1"%string, " Ship early. "%string);
                    ("2"%string, " Ask for help."%string)]) eq_refl _).
  repeat constructor; cbn [fst]; eexists _, _; split; reflexivity.
Defined.
